(** * Immich backup and recovery tool: a shallow embedding of
      [immich_backup_tool.py] and the properties of its specification.

    Python strings are Rocq strings (a character is a code point below 256),
    Python dicts are insertion-ordered association lists ([PyDict]), the host
    (file system, shell, clock, HTTP endpoint) is an explicit [world] threaded
    through a state-and-exception monad. *)

From Stdlib Require Import String Ascii List Bool Arith ZArith Lia.
From Stdlib Require Import DecimalString.
Import ListNotations.
Local Open Scope list_scope.
Local Open Scope string_scope.

(* ================================================================== *)
(** ** Python string operations used by the tool *)
(* ================================================================== *)

Module PyStr.

(** [s[len(p):]] when [s.startswith(p)]. *)
Fixpoint drop_prefix (p s : string) : option string :=
  match p, s with
  | EmptyString, _ => Some s
  | String a p', String b s' =>
      if Ascii.eqb a b then drop_prefix p' s' else None
  | String _ _, EmptyString => None
  end.

Definition startswith (s p : string) : bool :=
  match drop_prefix p s with Some _ => true | None => false end.

(** [s.partition(sep)] when [sep in s]: the text before and after the first
    occurrence of [sep]; [None] when [sep] does not occur. *)
Fixpoint partition (sep s : string) : option (string * string) :=
  match drop_prefix sep s with
  | Some rest => Some (EmptyString, rest)
  | None =>
      match s with
      | EmptyString => None
      | String c s' =>
          match partition sep s' with
          | Some (a, b) => Some (String c a, b)
          | None => None
          end
      end
  end.

(** [sub in s]. *)
Definition contains (sub s : string) : bool :=
  match partition sub s with Some _ => true | None => false end.

(** [s.endswith(p)]. *)
Fixpoint endswith (s p : string) : bool :=
  if String.eqb s p then true
  else match s with
       | EmptyString => false
       | String _ s' => endswith s' p
       end.

(** The characters [str.strip()] removes: TAB, LF, VT, FF, CR, FS, GS, RS, US,
    space, NEL and the no-break space. *)
Definition is_space (c : ascii) : bool :=
  let n := nat_of_ascii c in
  (((9 <=? n) && (n <=? 13)) || ((28 <=? n) && (n <=? 32))
   || (n =? 133) || (n =? 160))%nat.

Fixpoint lstrip (s : string) : string :=
  match s with
  | EmptyString => EmptyString
  | String c s' => if is_space c then lstrip s' else s
  end.

Fixpoint rstrip (s : string) : string :=
  match s with
  | EmptyString => EmptyString
  | String c s' =>
      match rstrip s' with
      | EmptyString => if is_space c then EmptyString else String c EmptyString
      | r => String c r
      end
  end.

Definition strip (s : string) : string := rstrip (lstrip s).

(** [sep.join(l)]. *)
Fixpoint join (sep : string) (l : list string) : string :=
  match l with
  | [] => EmptyString
  | [x] => x
  | x :: rest => x ++ sep ++ join sep rest
  end.

(** [s.split(sep)] for a one-character separator. *)
Fixpoint split_char (sep : ascii) (s : string) : list string :=
  match s with
  | EmptyString => [EmptyString]
  | String c s' =>
      if Ascii.eqb c sep then EmptyString :: split_char sep s'
      else match split_char sep s' with
           | [] => [String c EmptyString]
           | x :: rest => String c x :: rest
           end
  end.

(** [c in s] for a character. *)
Fixpoint has_char (c : ascii) (s : string) : bool :=
  match s with
  | EmptyString => false
  | String d s' => Ascii.eqb c d || has_char c s'
  end.

(** [str(n)] for an integer. *)
Definition str_int (n : Z) : string := NilZero.string_of_int (Z.to_int n).

(** Truthiness of a string: [bool(s)]. *)
Definition truthy (s : string) : bool :=
  match s with EmptyString => false | _ => true end.

End PyStr.

(* ================================================================== *)
(** ** Python dicts: insertion-ordered, one entry per key *)
(* ================================================================== *)

Module PyDict.
Section Dict.

Context {V : Type}.

Definition t := list (string * V).

Definition empty : t := [].

(** [d.get(k)] *)
Fixpoint get (k : string) (d : t) : option V :=
  match d with
  | [] => None
  | (k', v) :: d' => if String.eqb k k' then Some v else get k d'
  end.

(** [d[k] = v]: an existing key keeps its position, a new one goes last. *)
Fixpoint set (k : string) (v : V) (d : t) : t :=
  match d with
  | [] => [(k, v)]
  | (k', v') :: d' =>
      if String.eqb k k' then (k', v) :: d' else (k', v') :: set k v d'
  end.

(** [k in d] *)
Definition mem (k : string) (d : t) : bool :=
  match get k d with Some _ => true | None => false end.

(** [d.items()] *)
Definition items (d : t) : list (string * V) := d.

Definition keys (d : t) : list string := map fst d.

(** [del d[k]] (nothing happens when the key is absent) *)
Fixpoint delete (k : string) (d : t) : t :=
  match d with
  | [] => []
  | (k', v) :: d' =>
      if String.eqb k k' then d' else (k', v) :: delete k d'
  end.

(** A value of this type is a dict when no key occurs twice. *)
Definition wf (d : t) : Prop := NoDup (keys d).

End Dict.
Arguments t : clear implicits.
End PyDict.

(* ================================================================== *)
(** ** [os.path] on a POSIX host *)
(* ================================================================== *)

Module PosixPath.

Definition isabs (p : string) : bool := PyStr.startswith p "/".

(** [os.path.join(a, b)] *)
Definition join (a b : string) : string :=
  if PyStr.startswith b "/" then b
  else if negb (PyStr.truthy a) || PyStr.endswith a "/" then a ++ b
  else a ++ "/" ++ b.

(** [os.path.basename(p)]: what follows the last slash. *)
Definition basename (p : string) : string :=
  last (PyStr.split_char "/" p) EmptyString.

Definition is_dot (comp : string) : bool :=
  String.eqb comp "" || String.eqb comp ".".

(** One round of the component loop of [normpath]; [rooted] says that the
    path has initial slashes. *)
Definition norm_step (rooted : bool) (new_comps : list string) (comp : string)
  : list string :=
  if is_dot comp then new_comps
  else if negb (String.eqb comp "..")
          || (negb rooted && match new_comps with [] => true | _ => false end)
          || String.eqb (last new_comps EmptyString) ".."
       then (new_comps ++ [comp])%list
       else removelast new_comps.

Definition norm_comps (path : string) : list string :=
  fold_left (norm_step (isabs path)) (PyStr.split_char "/" path) [].

(** POSIX keeps exactly two initial slashes apart from one. *)
Definition initial_slashes (path : string) : nat :=
  if negb (PyStr.startswith path "/") then 0
  else if PyStr.startswith path "//" && negb (PyStr.startswith path "///")
       then 2 else 1.

Fixpoint slashes (n : nat) : string :=
  match n with O => EmptyString | S n' => String "/" (slashes n') end.

(** [os.path.normpath(path)] *)
Definition normpath (path : string) : string :=
  if negb (PyStr.truthy path) then "."
  else
    let p := slashes (initial_slashes path)
             ++ PyStr.join "/" (norm_comps path) in
    if PyStr.truthy p then p else ".".

(** [os.path.abspath(path)] in the working directory [cwd]. *)
Definition anchored (cwd path : string) : string :=
  if isabs path then path else join cwd path.

Definition abspath (cwd path : string) : string :=
  normpath (anchored cwd path).

(** The directory entries the kernel walks to reach [path] from the root
    (symbolic links are not modelled). *)
Definition resolve (cwd path : string) : list string :=
  norm_comps (anchored cwd path).

(** A directory entry name: not empty, without slash, neither [.] nor [..]. *)
Definition simple_name (b : string) : bool :=
  PyStr.truthy b && negb (PyStr.has_char "/" b)
  && negb (String.eqb b ".") && negb (String.eqb b "..").

End PosixPath.

(* ================================================================== *)
(** ** Text files as Python reads them *)
(* ================================================================== *)

Module TextIO.

Definition LF : ascii := ascii_of_nat 10.
Definition CR : ascii := ascii_of_nat 13.

(** Universal-newline translation of [open(path, 'r')]. *)
Fixpoint universal_newlines (s : string) : string :=
  match s with
  | EmptyString => EmptyString
  | String c s' =>
      if Ascii.eqb c CR then
        match s' with
        | String c' s'' =>
            if Ascii.eqb c' LF then String LF (universal_newlines s'')
            else String LF (universal_newlines s')
        | EmptyString => String LF EmptyString
        end
      else String c (universal_newlines s')
  end.

(** The lines of an already translated text, each with its line feed. *)
Fixpoint split_lines (s : string) : list string :=
  match s with
  | EmptyString => []
  | String c s' =>
      if Ascii.eqb c LF then String LF EmptyString :: split_lines s'
      else match split_lines s' with
           | [] => [String c EmptyString]
           | l :: rest => String c l :: rest
           end
  end.

(** [for line in f] *)
Definition lines (content : string) : list string :=
  split_lines (universal_newlines content).

End TextIO.


(* ================================================================== *)
(** ** Data model *)
(* ================================================================== *)

(** An entry of a service's [volumes] list: the short string syntax, or
    anything else YAML allows there (the long mapping syntax). *)
Inductive volume_entry : Type :=
| VolumeStr (spec : string)
| VolumeOther.

(** A service of the topology: [container_name] and [volumes] are optional
    keys of its mapping. *)
Record service_config : Type := {
  container_name : option string;
  service_volumes : option (list volume_entry)
}.

(** What [yaml.safe_load] returns for a compose file of the usual shape:
    a mapping with the [services] mapping, when that key is present, in
    which every service is a mapping whose [volumes], when present, is a
    list and whose [container_name], when present, is a string. Documents
    of another shape (an empty file, a key without value) are not
    modelled; on most of them the tool raises [AttributeError] or
    [TypeError]. *)
Record compose_data : Type := {
  services : option (PyDict.t service_config)
}.

(** The dict returned by [get_backup_paths]. *)
Record backup_paths : Type := {
  upload_location : string;
  db_data_location : string;
  critical_folders : list string
}.

(** The dict written by [create_backup_manifest]. *)
Record manifest : Type := {
  m_timestamp : string;
  m_immich_version : string;
  m_database_backup : string;
  m_filesystem_backup : string;
  m_original_paths : backup_paths;
  m_env_vars : PyDict.t string
}.

(** The data tree of the host. A regular file is opaque data, a JSON
    manifest or a gzipped tar archive, which holds the entries of its root. *)
#[warnings="-register-all"]
Inductive tree : Type :=
| Blob (data : string)
| ManifestFile (m : manifest)
| TarGz (members : list (string * tree))
| Dir (entries : list (string * tree)).

Definition is_dir (t : tree) : bool :=
  match t with Dir _ => true | _ => false end.

(** The exceptions the tool raises or lets through. *)
Inductive exn : Type :=
| FileNotFoundError (msg : string)
| RuntimeError (msg : string)
| CalledProcessError (cmd : string) (returncode : Z)
| OSError (msg : string)
| JSONDecodeError
| ReadError
| ImportError (msg : string)
| RequestException (msg : string)
| OtherException (msg : string)
| KeyboardInterrupt.

(** [isinstance(e, Exception)]: everything but [KeyboardInterrupt]. *)
Definition is_Exception (e : exn) : bool :=
  match e with KeyboardInterrupt => false | _ => true end.

(** [str(e)]; the messages of library errors are abridged. *)
Definition exn_str (e : exn) : string :=
  match e with
  | FileNotFoundError m | RuntimeError m | OSError m | ImportError m
  | RequestException m | OtherException m => m
  | CalledProcessError cmd status =>
      "Command '" ++ cmd ++ "' returned non-zero exit status "
      ++ PyStr.str_int status ++ "."
  | JSONDecodeError => "Expecting value"
  | ReadError => "not a gzip file"
  | KeyboardInterrupt => ""
  end.

(** The error kinds of the specification, as the exceptions that carry them. *)
Module ErrorKind.
Definition DatabaseBackupFailed : exn := RuntimeError "Database backup failed".
Definition DatabaseRestoreFailed : exn := RuntimeError "Database restore failed".
Definition InvalidBackup : exn :=
  FileNotFoundError "Invalid backup: manifest file not found".
Definition InvalidArchive (e : exn) : Prop :=
  e = RuntimeError "Invalid backup archive: no backup directory found"
  \/ e = RuntimeError "Invalid backup archive: manifest file not found".
Definition FilesystemBackupMissing (e : exn) : Prop :=
  exists upload_backup,
    e = FileNotFoundError ("Filesystem backup not found: " ++ upload_backup).
Definition CommandFailed (e : exn) : Prop :=
  exists cmd rc, e = CalledProcessError cmd rc.
End ErrorKind.

(** What the tool does to the outside, in order. *)
Inductive event : Type :=
| Print (line : string)
| Exec (command : string)
| Sleep (seconds : nat)
| HttpGet (url : string) (timeout : nat).

(** The mutable part of the host during a run. *)
Record state : Type := {
  root : tree;            (* the directory tree under [/] *)
  trace : list event;     (* what happened so far, oldest first *)
  ticks : nat;            (* clock readings taken *)
  requests : nat          (* HTTP requests sent *)
}.

Record completed_process : Type := {
  returncode : Z;
  stdout : string;
  root_after : tree
}.

(** What the host holds under the name of the compose file: nothing, a
    text that is no YAML, or a document of the shape of [compose_data]. *)
Inductive compose_file_state : Type :=
| ComposeMissing
| ComposeInvalid (yaml_error : string)
| ComposeParsed (doc : compose_data).

Inductive http_outcome : Type :=
| Response (status_code : Z)
| Failure (e : exn).

(** The behaviour of the host, fixed during a run. The two configuration
    files are kept apart from the data tree. [os.listdir] promises no
    order: the host lists the entries of a directory by ascending
    [listdir_rank]. *)
Record host : Type := {
  getcwd : string;
  gettempdir : string;
  read_env_file : string -> option string;      (* path -> content *)
  load_compose : string -> compose_file_state;  (* path -> parsed content *)
  shell : string -> state -> completed_process; (* [sh -c command] *)
  strftime_now : nat -> string;  (* [%Y%m%d_%H%M%S] at the n-th reading *)
  isoformat_now : nat -> string;
  mkdtemp_suffix : tree -> string;
  listdir_rank : string -> string -> nat;  (* directory, entry name *)
  requests_importable : bool;
  http_get : nat -> http_outcome                (* outcome of the n-th GET *)
}.

(* ================================================================== *)
(** ** The monad of effects: state and exceptions *)
(* ================================================================== *)

Inductive result (A : Type) : Type :=
| Ok (a : A)
| Raise (e : exn).
Arguments Ok {A} a.
Arguments Raise {A} e.

Definition M (A : Type) : Type := state -> result A * state.

Definition ret {A} (a : A) : M A := fun s => (Ok a, s).

Definition raise {A} (e : exn) : M A := fun s => (Raise e, s).

Definition bind {A B} (m : M A) (f : A -> M B) : M B :=
  fun s => match m s with
           | (Ok a, s') => f a s'
           | (Raise e, s') => (Raise e, s')
           end.

Notation "x <- m ;; k" := (bind m (fun x => k))
  (at level 61, m at next level, right associativity).
Notation "m ;; k" := (bind m (fun _ => k))
  (at level 61, right associativity).

(** [try: body finally: fin]: [fin] always runs; an exception of [fin]
    replaces the outcome of [body]. *)
Definition try_finally {A} (body : M A) (fin : M unit) : M A :=
  fun s => let (r, s1) := body s in
           match fin s1 with
           | (Ok _, s2) => (r, s2)
           | (Raise e, s2) => (Raise e, s2)
           end.

(** [try: body except ...: handler]: [handler e] is [None] when no
    [except] clause matches [e]. *)
Definition try_except {A} (body : M A) (handler : exn -> option (M A)) : M A :=
  fun s => match body s with
           | (Ok a, s1) => (Ok a, s1)
           | (Raise e, s1) =>
               match handler e with
               | Some h => h s1
               | None => (Raise e, s1)
               end
           end.

Definition get_state : M state := fun s => (Ok s, s).

Definition emit (e : event) : M unit :=
  fun s => (Ok tt, {| root := root s; trace := (trace s ++ [e])%list;
                      ticks := ticks s; requests := requests s |}).

Definition print (line : string) : M unit := emit (Print line).

Definition set_root (t : tree) : M unit :=
  fun s => (Ok tt, {| root := t; trace := trace s;
                      ticks := ticks s; requests := requests s |}).

(** A clock reading. *)
Definition tick : M nat :=
  fun s => (Ok (ticks s), {| root := root s; trace := trace s;
                             ticks := S (ticks s); requests := requests s |}).

Definition next_request : M nat :=
  fun s => (Ok (requests s), {| root := root s; trace := trace s;
                                ticks := ticks s; requests := S (requests s) |}).

(** [time.sleep(n)] *)
Definition sleep (n : nat) : M unit := emit (Sleep n).

(* ================================================================== *)
(** ** The directory tree *)
(* ================================================================== *)

Module FS.

Definition path : Type := list string.

(** The node a path leads to. *)
Fixpoint walk (t : tree) (p : path) : option tree :=
  match p with
  | [] => Some t
  | n :: p' =>
      match t with
      | Dir es =>
          match PyDict.get n es with
          | Some c => walk c p'
          | None => None
          end
      | _ => None
      end
  end.

(** Create or replace the node at [p]; its parent must be a directory. *)
Fixpoint put (p : path) (new : tree) (t : tree) : option tree :=
  match p with
  | [] => Some new
  | n :: p' =>
      match t with
      | Dir es =>
          match p' with
          | [] => Some (Dir (PyDict.set n new es))
          | _ :: _ =>
              match PyDict.get n es with
              | Some c =>
                  match put p' new c with
                  | Some c' => Some (Dir (PyDict.set n c' es))
                  | None => None
                  end
              | None => None
              end
          end
      | _ => None
      end
  end.

(** [os.makedirs(p, exist_ok=True)]: [None] when a regular file is in the
    way. *)
Fixpoint mkdirs (p : path) (t : tree) : option tree :=
  match t with
  | Dir es =>
      match p with
      | [] => Some t
      | n :: p' =>
          let c := match PyDict.get n es with
                   | Some c => c
                   | None => Dir []
                   end in
          match mkdirs p' c with
          | Some c' => Some (Dir (PyDict.set n c' es))
          | None => None
          end
      end
  | _ => None
  end.

(** Unlink the node at [p] with everything below it. *)
Fixpoint remove (p : path) (t : tree) : tree :=
  match p, t with
  | [], _ => Dir []
  | [n], Dir es => Dir (PyDict.delete n es)
  | n :: p', Dir es =>
      match PyDict.get n es with
      | Some c => Dir (PyDict.set n (remove p' c) es)
      | None => t
      end
  | _ :: _, _ => t
  end.

(** Copy [src] over [dst]: directories are merged entry by entry, a file
    replaces what is there. (Where a file meets a directory of the same
    name Python raises; here the source wins.) *)
Fixpoint merge (src dst : tree) : tree :=
  match src, dst with
  | Dir ss, Dir ds =>
      Dir (fold_left
             (fun acc e =>
                PyDict.set (fst e)
                  (match PyDict.get (fst e) ds with
                   | Some d => merge (snd e) d
                   | None => snd e
                   end) acc)
             ss ds)
  | _, _ => src
  end.

(** [p[len(d):]] on component lists. *)
Fixpoint strip_prefix (d p : path) : option path :=
  match d, p with
  | [], _ => Some p
  | a :: d', b :: p' => if String.eqb a b then strip_prefix d' p' else None
  | _ :: _, [] => None
  end.

End FS.

(* ================================================================== *)
(** ** Library calls of the tool, on the host *)
(* ================================================================== *)

(** [name] put into a list that is in ascending order of [rank], after
    the names of lower rank. *)
Fixpoint place (rank : string -> nat) (name : string) (sorted : list string)
  : list string :=
  match sorted with
  | [] => [name]
  | other :: rest =>
      if (rank name <=? rank other)%nat then name :: sorted
      else other :: place rank name rest
  end.

(** The order in which a host lists the entries of a directory: by
    ascending rank, and entries of equal rank as they are stored. Any
    order of distinct names is the order of some rank. *)
Definition host_order (rank : string -> nat) (names : list string)
  : list string :=
  fold_right (place rank) [] names.

Section Host.

Variable h : host.

Definition locate (p : string) : FS.path := PosixPath.resolve (getcwd h) p.

(** The node a path names; the empty path names nothing. *)
Definition lookup (t : tree) (p : string) : option tree :=
  if PyStr.truthy p then FS.walk t (locate p) else None.

(** [os.path.exists], [os.path.isfile], [os.path.isdir] *)
Definition exists_in (t : tree) (p : string) : bool :=
  match lookup t p with Some _ => true | None => false end.

Definition isfile_in (t : tree) (p : string) : bool :=
  match lookup t p with Some n => negb (is_dir n) | None => false end.

Definition isdir_in (t : tree) (p : string) : bool :=
  match lookup t p with Some n => is_dir n | None => false end.

Definition path_exists (p : string) : M bool :=
  fun s => (Ok (exists_in (root s) p), s).

Definition path_isfile (p : string) : M bool :=
  fun s => (Ok (isfile_in (root s) p), s).

Definition path_isdir (p : string) : M bool :=
  fun s => (Ok (isdir_in (root s) p), s).

(** [os.makedirs(p, exist_ok=True)] *)
Definition makedirs (p : string) : M unit :=
  s <- get_state ;;
  if negb (PyStr.truthy p) then raise (FileNotFoundError p)
  else match FS.mkdirs (locate p) (root s) with
       | Some t => set_root t
       | None => raise (OSError ("File exists: " ++ p))
       end.

(** [shutil.rmtree(p)] *)
Definition rmtree (p : string) : M unit :=
  s <- get_state ;;
  match lookup (root s) p with
  | Some (Dir _) => set_root (FS.remove (locate p) (root s))
  | Some _ => raise (OSError ("Not a directory: " ++ p))
  | None => raise (FileNotFoundError p)
  end.

(** [shutil.copytree(src, dst, dirs_exist_ok=...)] *)
Definition copytree (src dst : string) (dirs_exist_ok : bool) : M unit :=
  s <- get_state ;;
  match lookup (root s) src with
  | Some (Dir es) =>
      if negb dirs_exist_ok && exists_in (root s) dst
      then raise (OSError ("File exists: " ++ dst))
      else
        match FS.mkdirs (locate dst) (root s) with
        | Some t =>
            match FS.walk t (locate dst) with
            | Some old =>
                match FS.put (locate dst) (FS.merge (Dir es) old) t with
                | Some t' => set_root t'
                | None => raise (OSError ("File exists: " ++ dst))
                end
            | None => raise (OSError ("File exists: " ++ dst))
            end
        | None => raise (OSError ("File exists: " ++ dst))
        end
  | Some _ => raise (OSError ("Not a directory: " ++ src))
  | None => raise (FileNotFoundError src)
  end.

(** [os.listdir(p)]: the names of the entries, in the order of the host. *)
Definition listdir (p : string) : M (list string) :=
  s <- get_state ;;
  match lookup (root s) p with
  | Some (Dir es) => ret (host_order (listdir_rank h p) (PyDict.keys es))
  | Some _ => raise (OSError ("Not a directory: " ++ p))
  | None => raise (FileNotFoundError p)
  end.

(** [with open(p, 'w') as f: ...]: the file is created or truncated. *)
Definition write_file (p : string) (content : tree) : M unit :=
  s <- get_state ;;
  if negb (PyStr.truthy p) then raise (FileNotFoundError p)
  else if isdir_in (root s) p then raise (OSError ("Is a directory: " ++ p))
  else match FS.put (locate p) content (root s) with
       | Some t => set_root t
       | None => raise (FileNotFoundError p)
       end.

(** [with open(p, 'r') as f: json.load(f)] *)
Definition read_manifest (p : string) : M manifest :=
  s <- get_state ;;
  match lookup (root s) p with
  | Some (ManifestFile m) => ret m
  | Some (Dir _) => raise (OSError ("Is a directory: " ++ p))
  | Some _ => raise JSONDecodeError
  | None => raise (FileNotFoundError p)
  end.

(** [tempfile.mkdtemp(prefix=...)] *)
Definition mkdtemp (prefix : string) : M string :=
  s <- get_state ;;
  let d := PosixPath.join (gettempdir h)
             (prefix ++ mkdtemp_suffix h (root s)) in
  if exists_in (root s) d
  then raise (OSError "No usable temporary directory name found")
  else match FS.put (locate d) (Dir []) (root s) with
       | Some t => set_root t ;; ret d
       | None => raise (FileNotFoundError d)
       end.

(** [with tarfile.open(archive, "w:gz") as tar: tar.add(src, arcname=...)]:
    the archive holds the tree under [src] as its one root entry; the
    archive file itself is left out when it lies inside that tree. *)
Definition tar_create (archive src arcname : string) : M unit :=
  write_file archive (TarGz []) ;;
  s <- get_state ;;
  match lookup (root s) src with
  | Some t =>
      let t' := match FS.strip_prefix (locate src) (locate archive) with
                | Some rel => match rel with
                              | [] => t
                              | _ :: _ => FS.remove rel t
                              end
                | None => t
                end in
      write_file archive (TarGz [(arcname, t')])
  | None => raise (FileNotFoundError src)
  end.

(** [with tarfile.open(archive, "r:gz") as tar: tar.extractall(dest)] *)
Definition tar_extractall (archive dest : string) : M unit :=
  s <- get_state ;;
  match lookup (root s) archive with
  | Some (TarGz members) =>
      match FS.mkdirs (locate dest) (root s) with
      | Some t =>
          match FS.walk t (locate dest) with
          | Some old =>
              match FS.put (locate dest) (FS.merge (Dir members) old) t with
              | Some t' => set_root t'
              | None => raise (OSError ("File exists: " ++ dest))
              end
          | None => raise (OSError ("File exists: " ++ dest))
          end
      | None => raise (OSError ("File exists: " ++ dest))
      end
  | Some (Dir _) => raise (OSError ("Is a directory: " ++ archive))
  | Some _ => raise ReadError
  | None => raise (FileNotFoundError archive)
  end.

End Host.

(* ================================================================== *)
(** ** [class ImmichBackupTool] *)
(* ================================================================== *)

(** The instance attributes. *)
Record tool : Type := {
  compose_file : string;
  env_file : string;
  env_vars : PyDict.t string
}.

(** A double quote, for the command lines that contain one. *)
Definition dq : string := String (ascii_of_nat 34) EmptyString.

(** *** Configuration loading *)

(** The body of the loop of [load_environment]. *)
Definition load_line (env : PyDict.t string) (line : string) : PyDict.t string :=
  let line := PyStr.strip line in
  if PyStr.truthy line && negb (PyStr.startswith line "#")
     && PyStr.contains "=" line
  then match PyStr.partition "=" line with
       | Some (key, value) => PyDict.set key value env
       | None => env
       end
  else env.

Definition load_lines (lines : list string) : PyDict.t string :=
  fold_left load_line lines PyDict.empty.

Definition load_environment (h : host) (env_file : string)
  : result (PyDict.t string) :=
  match read_env_file h env_file with
  | None =>
      Raise (FileNotFoundError ("Environment file " ++ env_file ++ " not found"))
  | Some text => Ok (load_lines (TextIO.lines text))
  end.

(** [ImmichBackupTool(compose_file, env_file)] *)
Definition new_tool (h : host) (compose_file env_file : string) : result tool :=
  match load_environment h env_file with
  | Ok env => Ok {| compose_file := compose_file; env_file := env_file;
                    env_vars := env |}
  | Raise e => Raise e
  end.

Definition get_env_var (env : PyDict.t string) (key default : string) : string :=
  match PyDict.get key env with
  | Some v => v
  | None => default
  end.

(** *** Variable expansion *)

(** A match of [\$\{([^}]+)\}] at the very start of [s]: group 1 and the
    text after the match. *)
Definition match_var (s : string) : option (string * string) :=
  match PyStr.drop_prefix "${" s with
  | Some body =>
      match PyStr.partition "}" body with
      | Some (var_expr, rest) =>
          if PyStr.truthy var_expr then Some (var_expr, rest) else None
      | None => None
      end
  | None => None
  end.

(** The local function [replace_var], on group 1 of the match. *)
Definition replace_var (env : PyDict.t string) (var_expr : string) : string :=
  if PyStr.contains ":-" var_expr
  then match PyStr.partition ":-" var_expr with
       | Some (var_name, default) => get_env_var env var_name default
       | None => get_env_var env var_expr ""
       end
  else get_env_var env var_expr "".

(** [re.sub(pattern, repl, s)] for the pattern above: leftmost matches,
    left to right, none overlapping. [fuel] bounds the scan positions. *)
Fixpoint re_sub (fuel : nat) (repl : string -> string) (s : string) : string :=
  match fuel with
  | O => s
  | S fuel' =>
      match match_var s with
      | Some (var_expr, rest) => repl var_expr ++ re_sub fuel' repl rest
      | None =>
          match s with
          | EmptyString => EmptyString
          | String c s' => String c (re_sub fuel' repl s')
          end
      end
  end.

Definition expand_env_vars (env : PyDict.t string) (path : string) : string :=
  re_sub (String.length path) (replace_var env) path.

(** *** Topology *)

(** The body of the inner loop of [parse_docker_compose]. *)
Definition add_volume (env : PyDict.t string) (volumes : PyDict.t string)
    (volume : volume_entry) : PyDict.t string :=
  match volume with
  | VolumeStr spec =>
      if PyStr.contains ":" spec
      then match PyStr.partition ":" spec with
           | Some (host_path, container_path) =>
               PyDict.set container_path (expand_env_vars env host_path) volumes
           | None => volumes
           end
      else volumes
  | VolumeOther => volumes
  end.

Definition add_service_volumes (env : PyDict.t string)
    (volumes : PyDict.t string) (service : string * service_config)
  : PyDict.t string :=
  match service_volumes (snd service) with
  | Some vs => fold_left (add_volume env) vs volumes
  | None => volumes
  end.

Definition services_of (doc : compose_data) : PyDict.t service_config :=
  match services doc with
  | Some ss => ss
  | None => PyDict.empty
  end.

Definition parse_docker_compose (h : host) (self : tool)
  : result (PyDict.t string) :=
  match load_compose h (compose_file self) with
  | ComposeMissing =>
      Raise (FileNotFoundError
               ("Docker compose file " ++ compose_file self ++ " not found"))
  | ComposeInvalid e =>
      Raise (RuntimeError ("Failed to parse docker-compose.yml: " ++ e))
  | ComposeParsed doc =>
      Ok (fold_left (add_service_volumes (env_vars self))
            (PyDict.items (services_of doc)) PyDict.empty)
  end.

Definition container_of (service : string * service_config) : string :=
  match container_name (snd service) with
  | Some c => c
  | None => fst service
  end.

Definition get_container_names (h : host) (self : tool)
  : result (PyDict.t string) :=
  match load_compose h (compose_file self) with
  | ComposeMissing =>
      Raise (FileNotFoundError
               ("No such file or directory: " ++ compose_file self))
  | ComposeInvalid e =>
      Raise (RuntimeError ("Failed to parse docker-compose.yml: " ++ e))
  | ComposeParsed doc =>
      Ok (fold_left
            (fun containers service =>
               PyDict.set (fst service) (container_of service) containers)
            (PyDict.items (services_of doc)) PyDict.empty)
  end.

(** Lifting of a pure outcome into the monad. *)
Definition lift {A} (r : result A) : M A := fun s => (r, s).

(** *** Command execution *)

(** What [run_command] returns: a success flag, or the captured output. *)
Inductive command_value : Type :=
| Flag (ok : bool)
| Output (text : string).

(** [bool(v)] *)
Definition value_truthy (v : command_value) : bool :=
  match v with
  | Flag b => b
  | Output text => PyStr.truthy text
  end.

Definition value_text (v : command_value) : string :=
  match v with
  | Flag _ => EmptyString
  | Output text => text
  end.

(** [subprocess.run(command, shell=True, ...)] *)
Definition subprocess_run (h : host) (command : string) : M completed_process :=
  s <- get_state ;;
  let r := shell h command s in
  emit (Exec command) ;;
  set_root (root_after r) ;;
  ret r.

Definition run_command (h : host) (command : string)
    (check capture_output : bool) : M command_value :=
  print ("Executing: " ++ command) ;;
  r <- subprocess_run h command ;;
  if check && negb (Z.eqb (returncode r) 0)
  then raise (CalledProcessError command (returncode r))
  else if capture_output then ret (Output (PyStr.strip (stdout r)))
  else ret (Flag (Z.eqb (returncode r) 0)).

Definition compose_exists (h : host) (self : tool) : bool :=
  match load_compose h (compose_file self) with
  | ComposeMissing => false
  | _ => true
  end.

Definition check_docker_compose (h : host) (self : tool) : M unit :=
  if negb (compose_exists h self)
  then raise (FileNotFoundError
                ("Docker compose file " ++ compose_file self ++ " not found"))
  else
    r <- subprocess_run h "docker ps -a --format '{{.Names}}' | grep immich" ;;
    if negb (PyStr.contains "immich_postgres" (stdout r))
    then raise (RuntimeError
                  "Immich containers not found. Please ensure Immich is deployed.")
    else ret tt.

(** *** Path resolution *)

(** The loop of [get_backup_paths] over [volumes.items()]. *)
Definition scan_volume (cwd : string) (found : option string * option string)
    (item : string * string) : option string * option string :=
  let (container_path, host_path) := item in
  if String.eqb container_path "/data"
  then (Some (PosixPath.abspath cwd host_path), snd found)
  else if String.eqb container_path "/var/lib/postgresql/data"
       then (fst found, Some (PosixPath.abspath cwd host_path))
       else found.

(** [x] when it is set and truthy, else the fallback. *)
Definition or_else (x : option string) (fallback : string) : string :=
  match x with
  | Some v => if PyStr.truthy v then v else fallback
  | None => fallback
  end.

Definition resolve_locations (cwd : string) (env volumes : PyDict.t string)
  : string * string :=
  let found := fold_left (scan_volume cwd) (PyDict.items volumes) (None, None) in
  (or_else (fst found)
     (PosixPath.abspath cwd (get_env_var env "UPLOAD_LOCATION" "./library")),
   or_else (snd found)
     (PosixPath.abspath cwd (get_env_var env "DB_DATA_LOCATION" "./postgres"))).

Definition get_backup_paths (h : host) (self : tool) : M backup_paths :=
  volumes <- lift (parse_docker_compose h self) ;;
  let (upload, db) := resolve_locations (getcwd h) (env_vars self) volumes in
  s <- get_state ;;
  let critical :=
    filter (exists_in h (root s))
      (map (PosixPath.join upload) ["library"; "upload"; "profile"]) in
  print ("Detected upload location: " ++ upload) ;;
  print ("Detected database location: " ++ db) ;;
  ret {| upload_location := upload; db_data_location := db;
         critical_folders := critical |}.

(** *** Backup *)

Definition dump_command (db_username backup_file : string) : string :=
  "docker exec -t immich_postgres pg_dumpall --clean --if-exists --username="
  ++ db_username ++ " | " ++ "gzip > '" ++ backup_file ++ "'".

Definition create_database_backup (h : host) (self : tool) (backup_dir : string)
  : M string :=
  let db_username := get_env_var (env_vars self) "DB_USERNAME" "postgres" in
  n <- tick ;;
  let timestamp := strftime_now h n in
  let backup_file :=
    PosixPath.join backup_dir ("immich_db_backup_" ++ timestamp ++ ".sql.gz") in
  print ("Creating database backup: " ++ backup_file) ;;
  ok <- run_command h (dump_command db_username backup_file) true false ;;
  if negb (value_truthy ok) then raise (RuntimeError "Database backup failed")
  else ret backup_file.

Definition backup_filesystem (h : host) (backup_dir : string)
    (paths : backup_paths) : M string :=
  print "Backing up filesystem data..." ;;
  let fs_backup_dir := PosixPath.join backup_dir "filesystem" in
  makedirs h fs_backup_dir ;;
  let upload_backup := PosixPath.join fs_backup_dir "upload_location" in
  print ("Backing up upload location: " ++ upload_location paths
         ++ " -> " ++ upload_backup) ;;
  copytree h (upload_location paths) upload_backup true ;;
  ret fs_backup_dir.

Definition create_backup_manifest (h : host) (self : tool)
    (backup_dir db_backup_file fs_backup_dir : string) (paths : backup_paths)
  : M string :=
  n <- tick ;;
  let manifest :=
    {| m_timestamp := isoformat_now h n;
       m_immich_version := get_env_var (env_vars self) "IMMICH_VERSION" "unknown";
       m_database_backup := PosixPath.basename db_backup_file;
       m_filesystem_backup := PosixPath.basename fs_backup_dir;
       m_original_paths := paths;
       m_env_vars := env_vars self |} in
  let manifest_file := PosixPath.join backup_dir "backup_manifest.json" in
  write_file h manifest_file (ManifestFile manifest) ;;
  print ("Backup manifest created: " ++ manifest_file) ;;
  ret manifest_file.

(** The containers to stop: those of the services without ['database'] in
    their name. *)
Definition select_stop_containers (containers : PyDict.t string) : list string :=
  map snd
    (filter (fun item => negb (PyStr.contains "database" (fst item)))
       (PyDict.items containers)).

(** [try: x = first; body finally: fin], where [fin] looks [x] up in
    [locals()]: it is unbound when [first] raised. *)
Definition try_finally_local {L A} (first : M L) (body : L -> M A)
    (fin : option L -> M unit) : M A :=
  fun s => match first s with
           | (Ok l, s1) => try_finally (body l) (fin (Some l)) s1
           | (Raise e, s1) => try_finally (raise e) (fin None) s1
           end.

(** The [finally] clause of [backup]. (The pictograph that opens some
    messages of the tool is left out of the printed lines.) *)
Definition backup_cleanup (h : host) (temp_backup_dir : string)
    (stop_containers : option (list string)) : M unit :=
  match stop_containers with
  | Some (c :: cs) =>
      print ("Restarting Immich services: " ++ PyStr.join " " (c :: cs)) ;;
      run_command h ("docker start " ++ PyStr.join " " (c :: cs)) true false ;;
      ret tt
  | _ => ret tt
  end ;;
  present <- path_exists h temp_backup_dir ;;
  if present then rmtree h temp_backup_dir else ret tt.

Definition backup (h : host) (self : tool) (backup_location : string) : M unit :=
  print "Starting Immich backup process..." ;;
  check_docker_compose h self ;;
  paths <- get_backup_paths h self ;;
  n <- tick ;;
  let timestamp := strftime_now h n in
  let temp_backup_dir :=
    PosixPath.join (gettempdir h) ("immich_backup_" ++ timestamp) in
  let archive_name := "immich_backup_" ++ timestamp ++ ".tar.gz" in
  let archive_path := PosixPath.join backup_location archive_name in
  makedirs h temp_backup_dir ;;
  makedirs h backup_location ;;
  print ("Temporary backup directory: " ++ temp_backup_dir) ;;
  print ("Final archive: " ++ archive_path) ;;
  try_finally_local
    (containers <- lift (get_container_names h self) ;;
     ret (select_stop_containers containers))
    (fun stop_containers =>
       match stop_containers with
       | [] => ret tt
       | _ :: _ =>
           print ("Stopping Immich containers: "
                  ++ PyStr.join " " stop_containers) ;;
           run_command h ("docker stop " ++ PyStr.join " " stop_containers)
             true false ;;
           ret tt
       end ;;
       db_backup_file <- create_database_backup h self temp_backup_dir ;;
       fs_backup_dir <- backup_filesystem h temp_backup_dir paths ;;
       create_backup_manifest h self temp_backup_dir db_backup_file
         fs_backup_dir paths ;;
       print "Creating compressed archive..." ;;
       tar_create h archive_path temp_backup_dir
         (PosixPath.basename temp_backup_dir) ;;
       print ("Backup completed successfully: " ++ archive_path))
    (backup_cleanup h temp_backup_dir).

(** *** Restore *)

Definition extract_backup (h : host) (archive_path : string)
  : M (string * string) :=
  present <- path_exists h archive_path ;;
  if negb present
  then raise (FileNotFoundError ("Backup archive not found: " ++ archive_path))
  else
    print ("Extracting backup archive: " ++ archive_path) ;;
    extract_dir <- mkdtemp h "immich_restore_" ;;
    tar_extractall h archive_path extract_dir ;;
    names <- listdir h extract_dir ;;
    match filter (fun d => PyStr.startswith d "immich_backup_") names with
    | [] =>
        rmtree h extract_dir ;;
        raise (RuntimeError "Invalid backup archive: no backup directory found")
    | first :: _ =>
        let backup_dir := PosixPath.join extract_dir first in
        let manifest_file := PosixPath.join backup_dir "backup_manifest.json" in
        has_manifest <- path_exists h manifest_file ;;
        if negb has_manifest
        then rmtree h extract_dir ;;
             raise (RuntimeError
                      "Invalid backup archive: manifest file not found")
        else ret (backup_dir, extract_dir)
    end.

Definition restore_command (db_backup_file db_username : string) : string :=
  "gunzip --stdout " ++ dq ++ db_backup_file ++ dq ++ " | "
  ++ "sed " ++ dq
  ++ "s/SELECT pg_catalog.set_config('search_path', '', false);/SELECT pg_catalog.set_config('search_path', 'public, pg_catalog', true);/g"
  ++ dq ++ " | "
  ++ "docker exec -i immich_postgres psql --dbname=postgres --username="
  ++ db_username.

Definition restore_database (h : host) (self : tool) (backup_dir : string)
  : M unit :=
  let manifest_file := PosixPath.join backup_dir "backup_manifest.json" in
  manifest <- read_manifest h manifest_file ;;
  let db_backup_file := PosixPath.join backup_dir (m_database_backup manifest) in
  present <- path_exists h db_backup_file ;;
  if negb present
  then raise (FileNotFoundError
                ("Database backup file not found: " ++ db_backup_file))
  else
    let db_username := get_env_var (env_vars self) "DB_USERNAME" "postgres" in
    print "Stopping all Immich services..." ;;
    containers <- lift (get_container_names h self) ;;
    let postgres_container :=
      match PyDict.get "database" containers with
      | Some c => c
      | None => "immich_postgres"
      end in
    run_command h "docker compose down -v" false false ;;
    print "Starting PostgreSQL container..." ;;
    run_command h "docker compose create" true false ;;
    run_command h ("docker start " ++ postgres_container) true false ;;
    print "Waiting for PostgreSQL to start..." ;;
    sleep 10 ;;
    print ("Restoring database from: " ++ db_backup_file) ;;
    ok <- run_command h (restore_command db_backup_file db_username) true false ;;
    if negb (value_truthy ok) then raise (RuntimeError "Database restore failed")
    else print "Database restored successfully".

Definition restore_filesystem (h : host) (self : tool) (backup_dir : string)
  : M unit :=
  let manifest_file := PosixPath.join backup_dir "backup_manifest.json" in
  manifest <- read_manifest h manifest_file ;;
  let fs_backup_dir := PosixPath.join backup_dir (m_filesystem_backup manifest) in
  let upload_backup := PosixPath.join fs_backup_dir "upload_location" in
  present <- path_exists h upload_backup ;;
  if negb present
  then raise (FileNotFoundError ("Filesystem backup not found: " ++ upload_backup))
  else
    let current_upload_location :=
      PosixPath.abspath (getcwd h)
        (get_env_var (env_vars self) "UPLOAD_LOCATION" "./library") in
    print ("Restoring filesystem: " ++ upload_backup ++ " -> "
           ++ current_upload_location) ;;
    there <- path_exists h current_upload_location ;;
    (if there then rmtree h current_upload_location else ret tt) ;;
    copytree h upload_backup current_upload_location false ;;
    print "Filesystem restored successfully".

(** *** Health probe *)

Definition ping_url : string := "http://localhost:2283/api/server/ping".

Definition show_nat (n : nat) : string := PyStr.str_int (Z.of_nat n).

(** One round of the retry loop up to its [break]: [true] when the loop is
    left. *)
Definition ping_once (h : host) (attempt max_retries : nat) : M bool :=
  try_except
    (n <- next_request ;;
     emit (HttpGet ping_url 10) ;;
     match http_get h n with
     | Response status_code =>
         if Z.eqb status_code 200
         then print "Immich API is responding" ;; ret true
         else print ("Attempt " ++ show_nat attempt ++ "/" ++ show_nat max_retries
                     ++ ": API returned status " ++ PyStr.str_int status_code) ;;
              ret false
     | Failure e => raise e
     end)
    (fun e =>
       match e with
       | RequestException msg =>
           Some (print ("Attempt " ++ show_nat attempt ++ "/"
                        ++ show_nat max_retries ++ ": " ++ msg) ;;
                 ret false)
       | _ => None
       end).

(** [for attempt in ...: ... else: ...] over the attempts left. *)
Fixpoint ping_loop (h : host) (attempts : list nat)
    (max_retries retry_delay : nat) : M unit :=
  match attempts with
  | [] =>
      print "API health check failed after all retries. Check logs: docker logs immich_server"
  | attempt :: rest =>
      done <- ping_once h attempt max_retries ;;
      if (done : bool) then ret tt
      else
        (if (attempt <? max_retries)%nat
         then print ("Waiting " ++ show_nat retry_delay
                     ++ " seconds before retry...") ;;
              sleep retry_delay
         else ret tt) ;;
        ping_loop h rest max_retries retry_delay
  end.

(** The [try] statement that ends [test_immich_health]. *)
Definition http_probe (h : host) : M unit :=
  try_except
    (if requests_importable h
     then let max_retries := 6 in
          let retry_delay := 10 in
          ping_loop h (seq 1 max_retries) max_retries retry_delay
     else raise (ImportError "No module named 'requests'"))
    (fun e =>
       match e with
       | ImportError _ =>
           Some (print "requests module not available, skipping API test")
       | _ =>
           if is_Exception e
           then Some (print ("Could not test API endpoint: " ++ exn_str e))
           else None
       end).

Definition check_container (h : host) (container : string) : M unit :=
  result <- run_command h
              ("docker ps --filter name=" ++ container
               ++ " --format '{{.Status}}'") true true ;;
  if negb (PyStr.contains "Up" (value_text result))
  then print ("Warning: " ++ container ++ " may not be running properly")
  else print (container ++ " is running").

Fixpoint for_each {A} (f : A -> M unit) (l : list A) : M unit :=
  match l with
  | [] => ret tt
  | x :: rest => f x ;; for_each f rest
  end.

Definition test_immich_health (h : host) : M unit :=
  print "Testing Immich health..." ;;
  run_command h "docker compose up -d" true false ;;
  print "Waiting for services to start..." ;;
  sleep 30 ;;
  for_each (check_container h)
    ["immich_server"; "immich_postgres"; "immich_redis";
     "immich_machine_learning"] ;;
  http_probe h.

(** *** The restore entry point *)

(** [if extract_dir and os.path.exists(extract_dir): shutil.rmtree(...)] *)
Definition restore_cleanup (h : host) (extract_dir : option string) : M unit :=
  match extract_dir with
  | Some d =>
      if PyStr.truthy d
      then present <- path_exists h d ;;
           if present then rmtree h d else ret tt
      else ret tt
  | None => ret tt
  end.

Definition restore_steps (h : host) (self : tool) (backup_dir : string)
  : M unit :=
  restore_database h self backup_dir ;;
  restore_filesystem h self backup_dir ;;
  test_immich_health h ;;
  print "Restore completed successfully".

Definition restore (h : host) (self : tool) (backup_location : string) : M unit :=
  is_file <- path_isfile h backup_location ;;
  is_directory <- path_isdir h backup_location ;;
  where_from <-
    (if is_file && PyStr.endswith backup_location ".tar.gz"
     then print ("Starting Immich restore from archive: " ++ backup_location) ;;
          dirs <- extract_backup h backup_location ;;
          ret (fst dirs, Some (snd dirs))
     else if is_directory
     then print ("Starting Immich restore from directory: " ++ backup_location) ;;
          let manifest_file :=
            PosixPath.join backup_location "backup_manifest.json" in
          has_manifest <- path_exists h manifest_file ;;
          if negb has_manifest
          then raise (FileNotFoundError "Invalid backup: manifest file not found")
          else ret (backup_location, None)
     else raise (FileNotFoundError
                   ("Backup location not found or invalid: " ++ backup_location))) ;;
  let backup_dir := fst where_from in
  let extract_dir := snd where_from in
  try_finally
    (try_except (restore_steps h self backup_dir)
       (fun e =>
          if is_Exception e
          then Some (print ("Restore failed: " ++ exn_str e) ;; raise e)
          else None))
    (restore_cleanup h extract_dir).
(* ================================================================== *)
(** ** The command line *)
(* ================================================================== *)

Module Cli.

(** The namespace [parser.parse_args()] returns: an option that was not
    given is [None]. *)
Record namespace : Type := {
  mode : option string;
  location : option string;
  compose_file : option string;
  env_file : option string;
  interactive : bool
}.

End Cli.

(** What the front end shows on the terminal before the tool runs. *)
Inductive console_event : Type :=
| Said (line : string)
| Asked (prompt : string)
| Helped.

(** The terminal: the lines still to be typed, and what was shown. *)
Record terminal : Type := {
  stdin : list string;
  console : list console_event
}.

(** How [main] ends: it returns, or an exception leaves it. *)
Inductive ending : Type :=
| Returned
| SystemExit (code : Z)
| EOFError
| Uncaught (e : exn).

(** The front end asks and prints before the tool does anything, so it has
    a state of its own: a step goes on with a value or stops the program. *)
Inductive answer (A : Type) : Type :=
| Go (a : A)
| Stop (e : ending).
Arguments Go {A} a.
Arguments Stop {A} e.

Definition F (A : Type) : Type := terminal -> answer A * terminal.

Definition go {A} (a : A) : F A := fun t => (Go a, t).

Definition stop {A} (e : ending) : F A := fun t => (Stop e, t).

Definition then_ {A B} (m : F A) (f : A -> F B) : F B :=
  fun t => match m t with
           | (Go a, t') => f a t'
           | (Stop e, t') => (Stop e, t')
           end.

Notation "x <~ m ;; k" := (then_ m (fun x => k))
  (at level 61, m at next level, right associativity).
Notation "m ~~ k" := (then_ m (fun _ => k))
  (at level 61, right associativity).

Definition show (e : console_event) : F unit :=
  fun t => (Go tt, {| stdin := stdin t; console := (console t ++ [e])%list |}).

(** [print(line)] in the front end. *)
Definition say (line : string) : F unit := show (Said line).

(** [input(prompt)]: the prompt is shown, a line is read without its line
    feed; at the end of the input [EOFError] is raised. *)
Definition input (prompt : string) : F string :=
  show (Asked prompt) ~~
  fun t => match stdin t with
           | [] => (Stop EOFError, t)
           | line :: rest =>
               (Go line, {| stdin := rest; console := console t |})
           end.

(** [not x] for an optional string. *)
Definition falsy (x : option string) : bool :=
  match x with
  | Some v => negb (PyStr.truthy v)
  | None => true
  end.

(** [x == literal] for an optional string. *)
Definition is_str (x : option string) (literal : string) : bool :=
  match x with
  | Some v => String.eqb v literal
  | None => false
  end.

Definition prompt_for_files : F (string * string) :=
  say (String TextIO.LF "=== Configuration File Selection ===") ~~
  typed <~ input "Docker Compose file name [docker-compose.yml]: " ;;
  let compose_file := PyStr.strip typed in
  let compose_file :=
    if negb (PyStr.truthy compose_file) then "docker-compose.yml"
    else compose_file in
  typed <~ input "Environment file name [.env]: " ;;
  let env_file := PyStr.strip typed in
  let env_file := if negb (PyStr.truthy env_file) then ".env" else env_file in
  go (compose_file, env_file).

(** The interactive part of [main]: the [if args.interactive or ...] block. *)
Definition ask_files (args : Cli.namespace) : F Cli.namespace :=
  if falsy (Cli.compose_file args) || falsy (Cli.env_file args)
  then files <~ prompt_for_files ;;
       go {| Cli.mode := Cli.mode args;
             Cli.location := Cli.location args;
             Cli.compose_file :=
               Some (or_else (Cli.compose_file args) (fst files));
             Cli.env_file := Some (or_else (Cli.env_file args) (snd files));
             Cli.interactive := Cli.interactive args |}
  else go args.

Definition ask_mode (args : Cli.namespace) : F Cli.namespace :=
  if falsy (Cli.mode args)
  then say (String TextIO.LF "Select operation mode:") ~~
       say "  1. backup" ~~
       say "  2. restore" ~~
       typed <~ input "Enter choice [1-2]: " ;;
       let choice := PyStr.strip typed in
       let mode := if String.eqb choice "1" then Some "backup"
                   else if String.eqb choice "2" then Some "restore"
                   else None in
       if falsy mode
       then say "Invalid choice" ~~ stop (SystemExit 1)
       else go {| Cli.mode := mode;
                  Cli.location := Cli.location args;
                  Cli.compose_file := Cli.compose_file args;
                  Cli.env_file := Cli.env_file args;
                  Cli.interactive := Cli.interactive args |}
  else go args.

Definition ask_location (args : Cli.namespace) : F Cli.namespace :=
  if falsy (Cli.location args)
  then typed <~ input (if is_str (Cli.mode args) "backup"
                       then "Backup destination directory: "
                       else "Backup archive or directory to restore: ") ;;
       go {| Cli.mode := Cli.mode args;
             Cli.location := Some (PyStr.strip typed);
             Cli.compose_file := Cli.compose_file args;
             Cli.env_file := Cli.env_file args;
             Cli.interactive := Cli.interactive args |}
  else go args.

Definition interact (args : Cli.namespace) : F Cli.namespace :=
  if Cli.interactive args
     || (falsy (Cli.mode args) || falsy (Cli.location args))
  then args <~ ask_files args ;;
       args <~ ask_mode args ;;
       ask_location args
  else go args.

(** The [try] block of [main]: the tool is built and run. *)
Definition run_tool (h : host) (compose_file env_file : string)
    (mode : option string) (location : string) : M unit :=
  tool <- lift (new_tool h compose_file env_file) ;;
  if is_str mode "backup" then backup h tool location
  else if is_str mode "restore" then restore h tool location
  else ret tt.

(** [main()], after the command line was parsed into [args]; the imports
    at the head of the module are taken to have succeeded. An exception of
    class [Exception] that leaves the tool is printed and becomes exit
    status 1. *)
Definition main (h : host) (args : Cli.namespace) (t : terminal) (s : state)
  : ending * terminal * state :=
  match interact args t with
  | (Stop e, t1) => (e, t1, s)
  | (Go args, t1) =>
      let compose_file := or_else (Cli.compose_file args) "docker-compose.yml" in
      let env_file := or_else (Cli.env_file args) ".env" in
      if falsy (Cli.mode args) || falsy (Cli.location args)
      then (SystemExit 1,
            {| stdin := stdin t1; console := (console t1 ++ [Helped])%list |},
            s)
      else
        let location := or_else (Cli.location args) "" in
        match run_tool h compose_file env_file (Cli.mode args) location s with
        | (Ok _, s1) => (Returned, t1, s1)
        | (Raise e, s1) =>
            if is_Exception e
            then (SystemExit 1, t1,
                  snd (print ("Error: " ++ exn_str e) s1))
            else (Uncaught e, t1, s1)
        end
  end.

(* ================================================================== *)
(** ** A concrete deployment, for examples *)
(* ================================================================== *)

Module Demo.

Definition stamp : string := "20240101_120000".

Definition temp_dir : string := "/tmp/immich_backup_20240101_120000".

Definition dump_file : string :=
  "/tmp/immich_backup_20240101_120000/immich_db_backup_20240101_120000.sql.gz".

Definition env_text : string :=
  "# Immich" ++ String TextIO.LF
  ("UPLOAD_LOCATION=/data/lib" ++ String TextIO.LF
  ("DB_USERNAME=postgres" ++ String TextIO.LF EmptyString)).

Definition topology : compose_data :=
  {| services := Some
       [("immich-server",
         {| container_name := Some "immich_server";
            service_volumes := Some [VolumeStr "/data/lib:/data";
                                     VolumeStr "/etc/localtime:/etc/localtime:ro"] |});
        ("redis",
         {| container_name := Some "immich_redis"; service_volumes := None |});
        ("database",
         {| container_name := Some "immich_postgres";
            service_volumes :=
              Some [VolumeStr "${DB_DATA_LOCATION:-./postgres}:/var/lib/postgresql/data"] |})] |}.

Definition disk : tree :=
  Dir [("tmp", Dir []);
       ("backups", Dir []);
       ("data", Dir [("lib", Dir [("library", Dir [("a.jpg", Blob "jpeg")]);
                                  ("upload", Dir [])])])].

(** [s] without its last character. *)
Fixpoint chop (s : string) : string :=
  match s with
  | EmptyString => EmptyString
  | String c rest =>
      match rest with
      | EmptyString => EmptyString
      | String _ _ => String c (chop rest)
      end
  end.

(** The file a dump pipeline redirects its output to. *)
Definition redirect_target (command : string) : option string :=
  match PyStr.partition "gzip > '" command with
  | Some (_, rest) => Some (chop rest)
  | None => None
  end.

(** A shell in which every command succeeds; the dump pipeline leaves its
    compressed output where the redirection points and exits with
    [dump_status], or with status 1 when the redirection fails. *)
Definition sh (dump_status : Z) (command : string) (s : state)
  : completed_process :=
  if PyStr.startswith command "docker ps -a"
  then {| returncode := 0; stdout := "immich_server immich_postgres";
          root_after := root s |}
  else if PyStr.startswith command "docker exec -t immich_postgres pg_dumpall"
  then match redirect_target command with
       | Some file =>
           match FS.walk (root s) (PosixPath.resolve "/srv/immich" file),
                 FS.put (PosixPath.resolve "/srv/immich" file) (Blob "sql")
                   (root s) with
           | Some (Dir _), _ | _, None =>
               {| returncode := 1; stdout := ""; root_after := root s |}
           | _, Some t =>
               if PyStr.truthy file
               then {| returncode := dump_status; stdout := "";
                       root_after := t |}
               else {| returncode := 1; stdout := ""; root_after := root s |}
           end
       | None => {| returncode := 1; stdout := ""; root_after := root s |}
       end
  else if PyStr.startswith command "docker ps --filter"
  then {| returncode := 0; stdout := "Up 2 minutes"; root_after := root s |}
  else {| returncode := 0; stdout := ""; root_after := root s |}.

Definition machine (dump_status : Z) (answers : nat -> http_outcome) : host :=
  {| getcwd := "/srv/immich";
     gettempdir := "/tmp";
     read_env_file := fun p => if String.eqb p ".env" then Some env_text else None;
     load_compose := fun p => if String.eqb p "docker-compose.yml"
                              then ComposeParsed topology else ComposeMissing;
     shell := sh dump_status;
     strftime_now := fun _ => stamp;
     isoformat_now := fun _ => "2024-01-01T12:00:00";
     mkdtemp_suffix := fun _ => "k3x9";
     listdir_rank := fun _ _ => 0;
     requests_importable := true;
     http_get := answers |}.

Definition always (code : Z) : nat -> http_outcome := fun _ => Response code.

Definition boot : state :=
  {| root := disk; trace := []; ticks := 0; requests := 0 |}.

Definition self : tool :=
  {| compose_file := "docker-compose.yml"; env_file := ".env";
     env_vars := load_lines (TextIO.lines env_text) |}.

(** A backup directory that lost its [filesystem] member. *)
Definition bare_manifest : manifest :=
  {| m_timestamp := "2023-12-31T08:00:00";
     m_immich_version := "v1.90.0";
     m_database_backup := "immich_db_backup_20231231_080000.sql.gz";
     m_filesystem_backup := "filesystem";
     m_original_paths :=
       {| upload_location := "/data/lib"; db_data_location := "/srv/immich/postgres";
          critical_folders := [] |};
     m_env_vars := [] |}.

Definition bare_disk : tree :=
  Dir [("tmp", Dir []);
       ("backups",
        Dir [("old",
              Dir [("backup_manifest.json", ManifestFile bare_manifest);
                   ("immich_db_backup_20231231_080000.sql.gz", Blob "sql")])]);
       ("data", Dir [("lib", Dir [("library", Dir [("a.jpg", Blob "jpeg")])])])].

Definition bare_boot : state :=
  {| root := bare_disk; trace := []; ticks := 0; requests := 0 |}.

(** A disk with an archive that is not a backup. *)
Definition stray_disk : tree :=
  Dir [("tmp", Dir []);
       ("backups",
        Dir [("photos.tar.gz", TarGz [("photos", Dir [("a.jpg", Blob "jpeg")])])]);
       ("data", Dir [("lib", Dir [("library", Dir [("a.jpg", Blob "jpeg")])])])].

Definition stray_boot : state :=
  {| root := stray_disk; trace := []; ticks := 0; requests := 0 |}.

End Demo.

(* ================================================================== *)
(** ** Vocabulary of the statements *)
(* ================================================================== *)

(** Where [restore_filesystem] looks for the archived upload tree. *)
Definition upload_backup_of (backup_dir : string) (m : manifest) : string :=
  PosixPath.join (PosixPath.join backup_dir (m_filesystem_backup m))
    "upload_location".

(** The commands run along a trace, oldest first. *)
Definition commands_of (events : list event) : list string :=
  flat_map (fun e => match e with Exec c => [c] | _ => [] end) events.


(** [only P m]: whatever the state, running [m] appends only events that
    satisfy [P] to the trace. *)
Definition only (P : event -> Prop) {A} (m : M A) : Prop :=
  forall s, exists new,
    trace (snd (m s)) = (trace s ++ new)%list /\ Forall P new.



(** The events of a trace that take time or reach the network. *)
Definition schedule (events : list event) : list event :=
  filter (fun e => match e with
                   | HttpGet _ _ | Sleep _ => true
                   | _ => false
                   end) events.

(** [k] pings, ten seconds apart. *)
Fixpoint pings (k : nat) : list event :=
  match k with
  | O => []
  | S k' =>
      match k' with
      | O => [HttpGet ping_url 10]
      | S _ => HttpGet ping_url 10 :: Sleep 10 :: pings k'
      end
  end.

(** An answer after which the probe tries again: a status other than 200,
    or a [RequestException]. *)
Definition retried (o : http_outcome) : bool :=
  match o with
  | Response status_code => negb (Z.eqb status_code 200)
  | Failure (RequestException _) => true
  | Failure _ => false
  end.

(** The number of requests sent when [left] attempts remain and the next
    answer is the [n]-th. *)
Fixpoint attempts_made (answers : nat -> http_outcome) (n left : nat) : nat :=
  match left with
  | O => O
  | S left' =>
      if retried (answers n) then S (attempts_made answers (S n) left') else 1
  end.

(** Five answers with status 503, then status 200. *)
Definition late_answers (n : nat) : http_outcome :=
  if (n <? 5)%nat then Response 503 else Response 200.

(** The state after [events] and [n] more requests. *)
Definition extend (s : state) (events : list event) (n : nat) : state :=
  {| root := root s; trace := (trace s ++ events)%list;
     ticks := ticks s; requests := requests s + n |}.

(** The warning the probe prints for an exception that ends it. *)
Definition probe_warning (e : exn) : string :=
  match e with
  | ImportError _ => "requests module not available, skipping API test"
  | _ => "Could not test API endpoint: " ++ exn_str e
  end.

(** The line printed for an attempt that gets no status 200. *)
Definition attempt_failed (attempt : nat) (o : http_outcome) : string :=
  "Attempt " ++ show_nat attempt ++ "/" ++ show_nat 6 ++ ": "
  ++ match o with
     | Response status_code =>
         "API returned status " ++ PyStr.str_int status_code
     | Failure e => exn_str e
     end.

(** How the retry loop ends on an answer it does not retry. *)
Definition stop_result (o : http_outcome) : result unit :=
  match o with
  | Failure e => Raise e
  | Response _ => Ok tt
  end.

(** The environment file format in the words of its description. *)
Module EnvSpec.

(** A blank line holds nothing but white space. *)
Fixpoint blank (line : string) : bool :=
  match line with
  | EmptyString => true
  | String c rest => PyStr.is_space c && blank rest
  end.

(** The pair a line declares: none for a blank line or a comment line, and
    for [KEY=value] the key and the value on either side of the first [=].
    White space around the line is not part of it. *)
Definition declared (line : string) : option (string * string) :=
  if blank line then None
  else let text := PyStr.strip line in
       if PyStr.startswith text "#" then None
       else PyStr.partition "=" text.

(** A line break: a line feed or a carriage return. *)
Definition is_break (c : ascii) : bool :=
  Ascii.eqb c TextIO.LF || Ascii.eqb c TextIO.CR.

(** The rows of a text: the pieces between its line breaks. (A carriage
    return followed by a line feed gives a blank row between them.) *)
Fixpoint rows (text : string) : list string :=
  match text with
  | EmptyString => [EmptyString]
  | String c rest =>
      if is_break c then EmptyString :: rows rest
      else match rows rest with
           | [] => [String c EmptyString]
           | row :: others => String c row :: others
           end
  end.

(** The value of the last line that declares [key]. *)
Fixpoint last_value (key : string) (lines : list string) : option string :=
  match lines with
  | [] => None
  | line :: rest =>
      match last_value key rest with
      | Some v => Some v
      | None =>
          match declared line with
          | Some (k, v) => if String.eqb key k then Some v else None
          | None => None
          end
      end
  end.

End EnvSpec.

(** All volume entries of a topology, in the order the parser meets them. *)
Definition all_volumes (doc : compose_data) : list volume_entry :=
  flat_map (fun service => match service_volumes (snd service) with
                           | Some vs => vs
                           | None => []
                           end)
    (PyDict.items (services_of doc)).

(** The container path a volume entry binds, as the parser reads it. *)
Definition bound_path (v : volume_entry) : option string :=
  match v with
  | VolumeStr spec =>
      match PyStr.partition ":" spec with
      | Some (_, container_path) => Some container_path
      | None => None
      end
  | VolumeOther => None
  end.

(** The upload location [get_backup_paths] reports, when it returns. *)
Definition reported_upload_location (out : result backup_paths * state)
  : option string :=
  match fst out with
  | Ok paths => Some (upload_location paths)
  | Raise _ => None
  end.

(** The state [s] with the tree [t] and the events [new] added. *)
Definition update (s : state) (t : tree) (new : list event) : state :=
  {| root := t; trace := (trace s ++ new)%list;
     ticks := ticks s; requests := requests s |}.

(** The top-level entries of an archive that [extract_backup] takes for
    backup directories, in the order in which the host lists them once
    they are extracted into [extract_dir]. *)
Definition backup_entries (h : host) (extract_dir : string)
    (members : list (string * tree)) : list string :=
  filter (fun d => PyStr.startswith d "immich_backup_")
    (host_order (listdir_rank h extract_dir) (PyDict.keys members)).

(** An archive without a top-level backup directory, or without a manifest
    in the one [extract_backup] picks: the first that the host lists. *)
Definition lacks_manifest (h : host) (extract_dir : string)
    (members : list (string * tree)) : Prop :=
  match backup_entries h extract_dir members with
  | [] => True
  | first :: _ =>
      FS.walk (Dir members) [first; "backup_manifest.json"] = None
  end.

(** The entries of an archive root: names as in a directory, none twice. *)
Definition wf_members (members : list (string * tree)) : Prop :=
  PyDict.wf members
  /\ Forall (fun name => PosixPath.simple_name name = true)
       (PyDict.keys members).

(** The directory [mkdtemp] is about to create. *)
Definition next_tempdir (h : host) (t : tree) (prefix : string) : string :=
  PosixPath.join (gettempdir h) (prefix ++ mkdtemp_suffix h t).

(** What [tempfile] guarantees: the temporary directory exists and the
    name chosen for the new directory is an unused entry name. *)
Definition tempdir_ready (h : host) (t : tree) (prefix : string) : Prop :=
  PyStr.truthy (gettempdir h) = true
  /\ isdir_in h t (gettempdir h) = true
  /\ PyStr.has_char "/" (mkdtemp_suffix h t) = false
  /\ exists_in h t (next_tempdir h t prefix) = false.

(** What the round trip takes for granted of the host: the temporary
    directory has a name, time stamps hold no slash, a dump pipeline that
    exits with status 0 has created the file its output is redirected to,
    and starting containers does not touch the directory tree. *)
Record host_sane (h : host) (self : tool) : Prop := {
  tempdir_named : PyStr.truthy (gettempdir h) = true;
  stamps_plain : forall n, PyStr.has_char "/" (strftime_now h n) = false;
  dump_redirected :
    forall file s,
      let command :=
        dump_command (get_env_var (env_vars self) "DB_USERNAME" "postgres")
          file in
      returncode (shell h command s) = 0%Z ->
      isfile_in h (root_after (shell h command s)) file = true;
  start_harmless :
    forall command s,
      PyStr.startswith command "docker start " = true ->
      root_after (shell h command s) = root s
}.

(** The working directory and the archive of a backup started in [s]. *)
Definition temp_backup_dir_of (h : host) (s : state) : string :=
  PosixPath.join (gettempdir h) ("immich_backup_" ++ strftime_now h (ticks s)).

Definition archive_path_of (h : host) (backup_location : string) (s : state)
  : string :=
  PosixPath.join backup_location
    ("immich_backup_" ++ strftime_now h (ticks s) ++ ".tar.gz").

(** The round trip: extracting the archive gives one top-level directory,
    a backup directory with a manifest, and the two names the manifest
    records are entries of that directory. *)
Definition round_trip (h : host) (archive_path : string) (s' : state) : Prop :=
  exists name content m s'',
    let extract_dir := next_tempdir h (root s') "immich_restore_" in
    let backup_dir := PosixPath.join extract_dir name in
    extract_backup h archive_path s' = (Ok (backup_dir, extract_dir), s'')
    /\ lookup h (root s'') extract_dir = Some (Dir [(name, content)])
    /\ isdir_in h (root s'') backup_dir = true
    /\ lookup h (root s'') (PosixPath.join backup_dir "backup_manifest.json")
       = Some (ManifestFile m)
    /\ exists_in h (root s'') (PosixPath.join backup_dir (m_database_backup m))
       = true
    /\ exists_in h (root s'') (PosixPath.join backup_dir (m_filesystem_backup m))
       = true.

(** [never_raises e m]: whatever the state, [m] does not end in [e]. *)
Definition never_raises (e : exn) {A} (m : M A) : Prop :=
  forall s, fst (m s) <> Raise e.

(* ================================================================== *)
(** ** More deployments, for examples *)
(* ================================================================== *)

Module Cases.

(** The upload tree a backup holds. *)
Definition archived_upload : tree :=
  Dir [("library", Dir [("b.jpg", Blob "older jpeg")]);
       ("profile", Dir [])].

(** A complete backup directory under [/backups/old]. *)
Definition full_disk : tree :=
  Dir [("tmp", Dir []);
       ("backups",
        Dir [("old",
              Dir [("backup_manifest.json", ManifestFile Demo.bare_manifest);
                   ("immich_db_backup_20231231_080000.sql.gz", Blob "sql");
                   ("filesystem",
                    Dir [("upload_location", archived_upload)])])]);
       ("data", Dir [("lib", Dir [("library", Dir [("a.jpg", Blob "jpeg")])])])].

Definition full_boot : state :=
  {| root := full_disk; trace := []; ticks := 0; requests := 0 |}.

(** A backup directory whose manifest names a dump that is not there. *)
Definition no_dump_disk : tree :=
  Dir [("tmp", Dir []);
       ("backups",
        Dir [("old",
              Dir [("backup_manifest.json", ManifestFile Demo.bare_manifest);
                   ("filesystem",
                    Dir [("upload_location", archived_upload)])])]);
       ("data", Dir [("lib", Dir [("library", Dir [("a.jpg", Blob "jpeg")])])])].

Definition no_dump_boot : state :=
  {| root := no_dump_disk; trace := []; ticks := 0; requests := 0 |}.

(** The shell of the demo deployment, except that the commands [failing]
    picks exit with status 1 and change nothing. *)
Definition sh (failing : string -> bool) (command : string) (s : state)
  : completed_process :=
  if failing command
  then {| returncode := 1; stdout := ""; root_after := root s |}
  else Demo.sh 0 command s.

Definition machine (failing : string -> bool) (answers : nat -> http_outcome)
  : host :=
  let demo := Demo.machine 0 answers in
  {| getcwd := getcwd demo;
     gettempdir := gettempdir demo;
     read_env_file := read_env_file demo;
     load_compose := load_compose demo;
     shell := sh failing;
     strftime_now := strftime_now demo;
     isoformat_now := isoformat_now demo;
     mkdtemp_suffix := mkdtemp_suffix demo;
     listdir_rank := listdir_rank demo;
     requests_importable := requests_importable demo;
     http_get := http_get demo |}.

(** Only [docker compose down -v] fails. *)
Definition down_fails (command : string) : bool :=
  String.eqb command "docker compose down -v".

(** A host on which the containers have exited and the API refuses
    connections, while every command exits with status 0. *)
Definition unhealthy : host :=
  let demo := Demo.machine 0 (Demo.always 200) in
  {| getcwd := getcwd demo;
     gettempdir := gettempdir demo;
     read_env_file := read_env_file demo;
     load_compose := load_compose demo;
     shell := fun _ s => {| returncode := 0;
                            stdout := "Exited (1) 2 minutes ago";
                            root_after := root s |};
     strftime_now := strftime_now demo;
     isoformat_now := isoformat_now demo;
     mkdtemp_suffix := mkdtemp_suffix demo;
     listdir_rank := listdir_rank demo;
     requests_importable := true;
     http_get := fun _ => Failure (RequestException "Connection refused") |}.



(** A topology whose data volume gives its host path with a default. *)
Definition default_topology : compose_data :=
  {| services := Some
       [("immich-server",
         {| container_name := Some "immich_server";
            service_volumes := Some [VolumeStr "${PHOTOS:-/mnt/photos}:/data"] |})] |}.

Definition default_machine : host :=
  let demo := Demo.machine 0 (Demo.always 200) in
  {| getcwd := getcwd demo;
     gettempdir := gettempdir demo;
     read_env_file := read_env_file demo;
     load_compose := fun _ => ComposeParsed default_topology;
     shell := shell demo;
     strftime_now := strftime_now demo;
     isoformat_now := isoformat_now demo;
     mkdtemp_suffix := mkdtemp_suffix demo;
     listdir_rank := listdir_rank demo;
     requests_importable := requests_importable demo;
     http_get := http_get demo |}.

(** An archive with two top-level backup directories, the second of which
    is empty. *)
Definition twin_disk : tree :=
  Dir [("tmp", Dir []);
       ("backups",
        Dir [("twin.tar.gz",
              TarGz [("immich_backup_a",
                      Dir [("backup_manifest.json",
                            ManifestFile Demo.bare_manifest);
                           ("immich_db_backup_20231231_080000.sql.gz",
                            Blob "sql");
                           ("filesystem",
                            Dir [("upload_location", archived_upload)])]);
                     ("immich_backup_b", Dir [])])]);
       ("data", Dir [("lib", Dir [("library", Dir [("a.jpg", Blob "jpeg")])])])].

Definition twin_boot : state :=
  {| root := twin_disk; trace := []; ticks := 0; requests := 0 |}.

(** The demo deployment on a file system that lists [immich_backup_b]
    before every other name. *)
Definition b_first : host :=
  let demo := Demo.machine 0 (Demo.always 200) in
  {| getcwd := getcwd demo;
     gettempdir := gettempdir demo;
     read_env_file := read_env_file demo;
     load_compose := load_compose demo;
     shell := shell demo;
     strftime_now := strftime_now demo;
     isoformat_now := isoformat_now demo;
     mkdtemp_suffix := mkdtemp_suffix demo;
     listdir_rank := fun _ name =>
                       if String.eqb name "immich_backup_b" then 0 else 1;
     requests_importable := requests_importable demo;
     http_get := http_get demo |}.

(** A topology whose data volume is mounted read-only. *)
Definition read_only_topology : compose_data :=
  {| services := Some
       [("immich-server",
         {| container_name := Some "immich_server";
            service_volumes := Some [VolumeStr "/mnt/photos:/data:ro"] |})] |}.

Definition read_only_machine : host :=
  let demo := Demo.machine 0 (Demo.always 200) in
  {| getcwd := getcwd demo;
     gettempdir := gettempdir demo;
     read_env_file := read_env_file demo;
     load_compose := fun _ => ComposeParsed read_only_topology;
     shell := shell demo;
     strftime_now := strftime_now demo;
     isoformat_now := isoformat_now demo;
     mkdtemp_suffix := mkdtemp_suffix demo;
     listdir_rank := listdir_rank demo;
     requests_importable := requests_importable demo;
     http_get := http_get demo |}.

(** An environment file with a comment, a line that ends in a carriage
    return and a line feed, a blank line, a value that holds [=], a line
    without [=] and a key that is declared twice. *)
Definition site_env_text : string :=
  "# settings" ++ String TextIO.LF
  ("UPLOAD_LOCATION=./library" ++ String TextIO.CR (String TextIO.LF
  ("" ++ String TextIO.LF
  ("DB_PASSWORD=a=b" ++ String TextIO.LF
  ("export" ++ String TextIO.LF
  ("  UPLOAD_LOCATION=/data/lib  " ++ String TextIO.LF "")))))).

Definition site_machine : host :=
  let demo := Demo.machine 0 (Demo.always 200) in
  {| getcwd := getcwd demo;
     gettempdir := gettempdir demo;
     read_env_file := fun p => if String.eqb p "site.env"
                               then Some site_env_text else None;
     load_compose := load_compose demo;
     shell := shell demo;
     strftime_now := strftime_now demo;
     isoformat_now := isoformat_now demo;
     mkdtemp_suffix := mkdtemp_suffix demo;
     listdir_rank := listdir_rank demo;
     requests_importable := requests_importable demo;
     http_get := http_get demo |}.

(** A tool whose environment file is empty. *)
Definition bare_self : tool :=
  {| compose_file := "docker-compose.yml"; env_file := ".env";
     env_vars := [] |}.

End Cases.

(* ================================================================== *)
(** ** More vocabulary *)
(* ================================================================== *)

(** The container [restore_database] starts for the dump to be loaded: the
    one of the service named [database], or [immich_postgres]. *)
Definition postgres_container_of (doc : compose_data) : string :=
  match PyDict.get "database" (services_of doc) with
  | Some cfg => container_of ("database", cfg)
  | None => "immich_postgres"
  end.

(** How [main] ends for an outcome of the tool: it returns after a run
    that returned, prints an exception of class [Exception] and exits with
    status 1, and lets any other exception through. *)
Definition exit_of (out : result unit * state) : ending * state :=
  match out with
  | (Ok _, s1) => (Returned, s1)
  | (Raise e, s1) =>
      if is_Exception e
      then (SystemExit 1, update s1 (root s1) [Print ("Error: " ++ exn_str e)])
      else (Uncaught e, s1)
  end.

(** A command line that leaves nothing to ask: mode and location are given,
    and with [--interactive] the two file names as well. *)
Definition complete (args : Cli.namespace) : bool :=
  negb (falsy (Cli.mode args)) && negb (falsy (Cli.location args))
  && (negb (Cli.interactive args)
      || negb (falsy (Cli.compose_file args))
         && negb (falsy (Cli.env_file args))).

(** A typed answer without the white space around it, or the default when
    nothing is left. *)
Definition typed_or (typed default : string) : string :=
  if PyStr.truthy (PyStr.strip typed) then PyStr.strip typed else default.

(** The mode a typed choice selects. *)
Definition chosen_mode (typed : string) : option string :=
  if String.eqb (PyStr.strip typed) "1" then Some "backup"
  else if String.eqb (PyStr.strip typed) "2" then Some "restore"
  else None.

(** What a session that asks for everything shows up to the choice. *)
Definition session_start : list console_event :=
  [Said (String TextIO.LF "=== Configuration File Selection ===");
   Asked "Docker Compose file name [docker-compose.yml]: ";
   Asked "Environment file name [.env]: ";
   Said (String TextIO.LF "Select operation mode:");
   Said "  1. backup";
   Said "  2. restore";
   Asked "Enter choice [1-2]: "].

Definition location_prompt (mode : string) : string :=
  if String.eqb mode "backup" then "Backup destination directory: "
  else "Backup archive or directory to restore: ".

(** A command line without arguments. *)
Definition no_args : Cli.namespace :=
  {| Cli.mode := None; Cli.location := None; Cli.compose_file := None;
     Cli.env_file := None; Cli.interactive := false |}.

(** The command [check_docker_compose] lists the containers with. *)
Definition listing : string := "docker ps -a --format '{{.Names}}' | grep immich".

(** A stop command. *)
Definition is_stop (e : event) : bool :=
  match e with
  | Exec c => PyStr.startswith c "docker stop "
  | _ => false
  end.

Definition quiet (e : event) : Prop := is_stop e = false.

(** Every stop in [events] is followed by the start of the same containers. *)
Definition restarted (events : list event) : Prop :=
  forall before x after,
    events = (before ++ Exec ("docker stop " ++ x) :: after)%list ->
    In (Exec ("docker start " ++ x)) after.

(** [paired m]: whatever the state, the events [m] adds are [restarted]. *)
Definition paired {A} (m : M A) : Prop :=
  forall s, exists new,
    trace (snd (m s)) = (trace s ++ new)%list /\ restarted new.

(** The containers whose status [test_immich_health] asks for. *)
Definition health_containers : list string :=
  ["immich_server"; "immich_postgres"; "immich_redis";
   "immich_machine_learning"].

Definition status_command (container : string) : string :=
  "docker ps --filter name=" ++ container ++ " --format '{{.Status}}'".

(** An event that is no command. *)
Definition no_command (e : event) : Prop :=
  match e with Exec _ => False | _ => True end.

(** The binding a volume entry declares: host path and container path on
    either side of its first colon. *)
Definition binding_of (v : volume_entry) : option (string * string) :=
  match v with
  | VolumeStr spec => PyStr.partition ":" spec
  | VolumeOther => None
  end.

(** The host path of the last entry of [vs] that binds [key]. *)
Fixpoint last_binding (key : string) (vs : list volume_entry) : option string :=
  match vs with
  | [] => None
  | v :: rest =>
      match last_binding key rest with
      | Some host_path => Some host_path
      | None =>
          match binding_of v with
          | Some (host_path, container_path) =>
              if String.eqb key container_path then Some host_path else None
          | None => None
          end
      end
  end.

(** A location the scan of [get_backup_paths] has found is an absolute
    path. *)
Definition found_abs (found : option string * option string) : Prop :=
  (forall v, fst found = Some v -> PosixPath.isabs v = true)
  /\ (forall v, snd found = Some v -> PosixPath.isabs v = true).

(** No name occurs twice in [names]. *)
Fixpoint distinct (names : list string) : bool :=
  match names with
  | [] => true
  | n :: rest => negb (existsb (String.eqb n) rest) && distinct rest
  end.

(** A directory tree as a file system keeps it: no directory lists a name
    twice. *)
Fixpoint tidy (t : tree) : bool :=
  match t with
  | Dir es => distinct (PyDict.keys es) && forallb (fun e => tidy (snd e)) es
  | _ => true
  end.

(** Two places of which neither lies in or above the other. *)
Definition apart (p q : FS.path) : bool :=
  match FS.strip_prefix p q, FS.strip_prefix q p with
  | None, None => true
  | _, _ => false
  end.

(** A directory can be made at [p]: no regular file is in the way. *)
Definition creatable (h : host) (t : tree) (p : string) : bool :=
  match FS.mkdirs (locate h p) t with Some _ => true | None => false end.

(** Where [restore_filesystem] puts the upload tree. *)
Definition current_upload_location_of (h : host) (self : tool) : string :=
  PosixPath.abspath (getcwd h)
    (get_env_var (env_vars self) "UPLOAD_LOCATION" "./library").

(** A host on which every command exits with status 0 and leaves the
    directory tree as it is. *)
Definition cooperative (h : host) : Prop :=
  forall command s,
    returncode (shell h command s) = 0%Z
    /\ root_after (shell h command s) = root s.

(** [calm m post commands]: whatever the state, [m] returns a value that
    satisfies [post], leaves the directory tree as it is and runs
    [commands], in this order. *)
Definition calm {A} (m : M A) (post : A -> Prop) (commands : list string)
  : Prop :=
  forall s, exists a s' new,
    m s = (Ok a, s')
    /\ post a
    /\ root s' = root s
    /\ trace s' = (trace s ++ new)%list
    /\ commands_of new = commands.

(** No condition on the value. *)
Definition any {A} (a : A) : Prop := True.

(* ================================================================== *)
(** * Properties *)
(* ================================================================== *)

#[local] Arguments Ascii.eqb : simpl never.

Module PyDictFacts.
Import PyDict.
Section Facts.
Context {V : Type}.
Implicit Types (d : PyDict.t V) (v : V).

Lemma get_set_same k v d : get k (set k v d) = Some v.
Proof.
  induction d as [|[k' v'] d IH]; simpl.
  - now rewrite String.eqb_refl.
  - destruct (String.eqb k k') eqn:E; simpl; rewrite E; auto.
Qed.

Lemma get_set_other k k' v d : k <> k' -> get k (set k' v d) = get k d.
Proof.
  intros Hne. induction d as [|[k2 v2] d IH]; simpl.
  - destruct (String.eqb k k') eqn:E; auto.
    apply String.eqb_eq in E. contradiction.
  - destruct (String.eqb k' k2) eqn:E; simpl.
    + apply String.eqb_eq in E. subst k2.
      destruct (String.eqb k k') eqn:E2; auto.
      apply String.eqb_eq in E2. contradiction.
    + now rewrite IH.
Qed.

Lemma keys_set_in k v d x : In x (keys (set k v d)) <-> x = k \/ In x (keys d).
Proof.
  induction d as [|[k' v'] d IH]; simpl.
  - intuition.
  - destruct (String.eqb k k') eqn:E; simpl.
    + apply String.eqb_eq in E. subst. intuition.
    + rewrite IH. intuition.
Qed.

Lemma wf_empty : wf (@empty V).
Proof. constructor. Qed.

Lemma wf_set k v d : wf d -> wf (set k v d).
Proof.
  unfold wf. induction d as [|[k' v'] d IH]; simpl; intros H.
  - constructor; [intros []|constructor].
  - inversion H as [|? ? Hnin Hnd]; subst.
    destruct (String.eqb k k') eqn:E; simpl.
    + constructor; assumption.
    + constructor; [|auto].
      intros Hin. apply keys_set_in in Hin. destruct Hin as [->|Hin].
      * rewrite String.eqb_refl in E. discriminate.
      * contradiction.
Qed.

Lemma get_in k v d : get k d = Some v -> In (k, v) d.
Proof.
  induction d as [|[k' v'] d IH]; simpl; [discriminate|].
  destruct (String.eqb k k') eqn:E.
  - apply String.eqb_eq in E. subst. intros [= ->]. now left.
  - intros H. right. auto.
Qed.

Lemma in_get k v d : wf d -> In (k, v) d -> get k d = Some v.
Proof.
  unfold wf. induction d as [|[k' v'] d IH]; simpl; [intros _ []|].
  intros H Hin. inversion H as [|? ? Hnin Hnd]; subst.
  destruct Hin as [[= -> ->]|Hin].
  - now rewrite String.eqb_refl.
  - destruct (String.eqb k k') eqn:E; [|auto].
    apply String.eqb_eq in E. subst k'. exfalso. apply Hnin.
    change k with (fst (k, v)). now apply in_map.
Qed.

Lemma get_none_keys k d : get k d = None <-> ~ In k (keys d).
Proof.
  induction d as [|[k' v'] d IH]; simpl.
  - intuition.
  - destruct (String.eqb k k') eqn:E.
    + apply String.eqb_eq in E. subst. split; [discriminate|]. intuition.
    + rewrite IH. split; [|tauto].
      intros Hn [->|Hin]; [|tauto].
      rewrite String.eqb_refl in E. discriminate.
Qed.

Lemma set_fresh k v d : ~ In k (keys d) -> set k v d = (d ++ [(k, v)])%list.
Proof.
  induction d as [|[k' v'] d IH]; simpl; [reflexivity|].
  intros Hn. destruct (String.eqb k k') eqn:E.
  - apply String.eqb_eq in E. subst. tauto.
  - rewrite IH; tauto.
Qed.

Lemma set_same_value k v d : get k d = Some v -> set k v d = d.
Proof.
  induction d as [|[k' v'] d IH]; simpl; [discriminate|].
  destruct (String.eqb k k') eqn:E.
  - now intros [= ->].
  - intros H. now rewrite IH.
Qed.

Lemma set_set k v w d : set k w (set k v d) = set k w d.
Proof.
  induction d as [|[k' v'] d IH]; simpl.
  - now rewrite String.eqb_refl.
  - destruct (String.eqb k k') eqn:E; simpl; rewrite E; [reflexivity|].
    now rewrite IH.
Qed.

Lemma keys_set_present k v w d : get k d = Some w -> keys (set k v d) = keys d.
Proof.
  induction d as [|[k' v'] d IH]; simpl; [discriminate|].
  destruct (String.eqb k k') eqn:E; simpl; [reflexivity|].
  intros H. now rewrite IH.
Qed.

Lemma delete_fresh k d : ~ In k (keys d) -> delete k d = d.
Proof.
  induction d as [|[k' v'] d IH]; simpl; [reflexivity|].
  intros Hn. destruct (String.eqb k k') eqn:E.
  - apply String.eqb_eq in E. subst. tauto.
  - rewrite IH; tauto.
Qed.

Lemma delete_set_fresh k v d : ~ In k (keys d) -> delete k (set k v d) = d.
Proof.
  induction d as [|[k' v'] d IH]; simpl.
  - now rewrite String.eqb_refl.
  - intros Hn. destruct (String.eqb k k') eqn:E.
    + apply String.eqb_eq in E. subst. tauto.
    + simpl. rewrite E. rewrite IH; tauto.
Qed.

Lemma get_delete_other k k' d : k <> k' -> get k (delete k' d) = get k d.
Proof.
  intros Hne. induction d as [|[k2 v2] d IH]; simpl; [reflexivity|].
  destruct (String.eqb k' k2) eqn:E.
  - apply String.eqb_eq in E. subst k2.
    destruct (String.eqb k k') eqn:E2; [|reflexivity].
    apply String.eqb_eq in E2. contradiction.
  - simpl. now rewrite IH.
Qed.

Lemma get_delete_same k d : wf d -> get k (delete k d) = None.
Proof.
  unfold wf. induction d as [|[k' v'] d IH]; simpl; [reflexivity|].
  intros H. inversion H as [|? ? Hnin Hnd]; subst.
  destruct (String.eqb k k') eqn:E.
  - apply String.eqb_eq in E. subst. now apply get_none_keys.
  - simpl. rewrite E. auto.
Qed.

(** Building a dict entry by entry from a list without repeated keys keeps
    the list as it is. *)
Lemma fold_set_fresh {A} (key : A -> string) (value : A -> V) (l : list A) d :
  NoDup (keys d ++ map key l) ->
  fold_left (fun acc x => set (key x) (value x) acc) l d
  = (d ++ map (fun x => (key x, value x)) l)%list.
Proof.
  revert d. induction l as [|x l IH]; intros d Hnd; simpl.
  - now rewrite app_nil_r.
  - assert (~ In (key x) (keys d)) as Hfresh.
    { intros Hin. apply NoDup_remove_2 in Hnd. apply Hnd.
      apply in_or_app. now left. }
    rewrite set_fresh by assumption. rewrite IH.
    + now rewrite <- app_assoc.
    + unfold keys in *. rewrite map_app. simpl. rewrite <- app_assoc. exact Hnd.
Qed.

End Facts.
End PyDictFacts.

(* ================================================================== *)
(** ** Facts about strings and paths *)
(* ================================================================== *)

Module PyStrFacts.
Import PyStr.

Lemma append_nil_r (s : string) : s ++ "" = s.
Proof. induction s; simpl; congruence. Qed.

Lemma append_assoc (a b c : string) : (a ++ b) ++ c = a ++ (b ++ c).
Proof. induction a; simpl; congruence. Qed.

Lemma drop_prefix_sound p s r : drop_prefix p s = Some r -> s = p ++ r.
Proof.
  revert s. induction p as [|a p IH]; intros s; simpl.
  - now intros [= ->].
  - destruct s as [|b s]; [discriminate|].
    destruct (Ascii.eqb a b) eqn:E; [|discriminate].
    apply Ascii.eqb_eq in E. subst b. intros H. f_equal. auto.
Qed.

Lemma drop_prefix_app p r : drop_prefix p (p ++ r) = Some r.
Proof.
  induction p as [|a p IH]; simpl; [reflexivity|].
  now rewrite Ascii.eqb_refl.
Qed.

(** [partition] splits at an occurrence of the separator. *)
Lemma partition_sound sep s a b :
  partition sep s = Some (a, b) -> s = a ++ sep ++ b.
Proof.
  revert a b. induction s as [|c s IH]; intros a b; simpl.
  - destruct (drop_prefix sep "") eqn:E; [|discriminate].
    intros [= <- <-]. simpl. now apply drop_prefix_sound.
  - destruct (drop_prefix sep (String c s)) eqn:E.
    + intros [= <- <-]. simpl. now apply drop_prefix_sound.
    + destruct (partition sep s) as [[a' b']|] eqn:P; [|discriminate].
      intros [= <- <-]. simpl. f_equal. now apply IH.
Qed.

Lemma contains_partition sub s :
  contains sub s = true <-> exists a b, partition sub s = Some (a, b).
Proof.
  unfold contains. destruct (partition sub s) as [[a b]|].
  - split; eauto.
  - split; [discriminate|]. intros (a & b & H). discriminate.
Qed.

Lemma contains_char c s : contains (String c "") s = has_char c s.
Proof.
  unfold contains. induction s as [|d s IH]; simpl; [reflexivity|].
  destruct (Ascii.eqb c d); simpl; [reflexivity|].
  destruct (partition (String c "") s) as [[a b]|]; simpl in *; congruence.
Qed.

Lemma has_char_app c a b : has_char c (a ++ b) = has_char c a || has_char c b.
Proof.
  induction a as [|d a IH]; simpl; [reflexivity|].
  rewrite IH. now rewrite orb_assoc.
Qed.

Lemma partition_char c a b :
  has_char c a = false ->
  partition (String c "") (a ++ String c b) = Some (a, b).
Proof.
  induction a as [|d a IH]; simpl.
  - now rewrite Ascii.eqb_refl.
  - intros H. apply orb_false_iff in H as [H1 H2].
    rewrite H1. now rewrite IH.
Qed.

Lemma partition_char_left c s a b :
  partition (String c "") s = Some (a, b) -> has_char c a = false.
Proof.
  revert a b. induction s as [|d s IH]; intros a b; simpl; [discriminate|].
  destruct (Ascii.eqb c d) eqn:E.
  - now intros [= <- <-].
  - destruct (partition (String c "") s) as [[a' b']|] eqn:P; [|discriminate].
    intros [= <- <-]. simpl. rewrite E. simpl. eauto.
Qed.

Lemma split_char_nonempty c s : split_char c s <> [].
Proof.
  destruct s as [|d s]; simpl; [discriminate|].
  destruct (Ascii.eqb d c); [discriminate|].
  destruct (split_char c s); discriminate.
Qed.

Lemma split_char_whole c s : has_char c s = false -> split_char c s = [s].
Proof.
  induction s as [|d s IH]; simpl; [reflexivity|].
  intros H. apply orb_false_iff in H as [H1 H2].
  rewrite Ascii.eqb_sym, H1. now rewrite IH.
Qed.

Lemma split_char_app c a b :
  has_char c b = false ->
  split_char c (a ++ String c b) = (split_char c a ++ [b])%list.
Proof.
  intros Hb. induction a as [|d a IH]; simpl.
  - rewrite Ascii.eqb_refl. now rewrite split_char_whole.
  - destruct (Ascii.eqb d c); [now rewrite IH|].
    rewrite IH. destruct (split_char c a) eqn:E; [|reflexivity].
    now apply split_char_nonempty in E.
Qed.

Lemma endswith_sound s p : endswith s p = true -> exists y, s = y ++ p.
Proof.
  induction s as [|c s IH].
  - destruct p; [now exists ""|discriminate].
  - change (endswith (String c s) p)
      with (if String.eqb (String c s) p then true else endswith s p).
    destruct (String.eqb (String c s) p) eqn:E.
    + apply String.eqb_eq in E. subst. now exists "".
    + intros H. destruct (IH H) as [y ->]. now exists (String c y).
Qed.

Lemma endswith_app y p : endswith (y ++ p) p = true.
Proof.
  induction y as [|c y IH].
  - destruct p; [reflexivity|].
    change (endswith ("" ++ String a p) (String a p))
      with (if String.eqb (String a p) (String a p) then true
            else endswith p (String a p)).
    now rewrite String.eqb_refl.
  - change (endswith (String c y ++ p) p)
      with (if String.eqb (String c (y ++ p)) p then true
            else endswith (y ++ p) p).
    rewrite IH. now destruct (String.eqb (String c (y ++ p)) p).
Qed.

Lemma startswith_app p r : startswith (p ++ r) p = true.
Proof. unfold startswith. now rewrite drop_prefix_app. Qed.

Lemma truthy_app_l a b : truthy a = true -> truthy (a ++ b) = true.
Proof. destruct a; simpl; congruence. Qed.

Lemma truthy_app_r a b : truthy b = true -> truthy (a ++ b) = true.
Proof. destruct a; simpl; [congruence|reflexivity]. Qed.

End PyStrFacts.

Module PosixPathFacts.
Import PyStr PyStrFacts PosixPath.

Lemma simple_name_inv b :
  simple_name b = true ->
  truthy b = true /\ has_char "/" b = false /\ b <> "." /\ b <> "..".
Proof.
  unfold simple_name. intros H.
  apply andb_true_iff in H as [H H4]. apply andb_true_iff in H as [H H3].
  apply andb_true_iff in H as [H1 H2].
  apply negb_true_iff in H2, H3, H4.
  apply String.eqb_neq in H3, H4. auto.
Qed.

Lemma norm_step_simple r cs b :
  simple_name b = true -> norm_step r cs b = (cs ++ [b])%list.
Proof.
  intros H. apply simple_name_inv in H as (H1 & _ & H3 & H4).
  unfold norm_step, is_dot.
  apply String.eqb_neq in H3, H4. rewrite H3, H4.
  destruct b; [discriminate|]. reflexivity.
Qed.

Lemma norm_step_empty r cs : norm_step r cs "" = cs.
Proof. reflexivity. Qed.

Lemma isabs_app a x : truthy a = true -> isabs (a ++ x) = isabs a.
Proof.
  destruct a as [|c a]; [discriminate|]. intros _.
  unfold isabs, startswith. simpl. now destruct (Ascii.eqb "/" c).
Qed.

Lemma simple_not_abs b : simple_name b = true -> startswith b "/" = false.
Proof.
  intros H. apply simple_name_inv in H as (_ & H2 & _).
  destruct b as [|c b]; [reflexivity|]. simpl in H2.
  apply orb_false_iff in H2 as [H2 _].
  unfold startswith. simpl. now rewrite H2.
Qed.

Lemma norm_comps_slash_name X b :
  truthy X = true -> simple_name b = true ->
  norm_comps (X ++ "/" ++ b) = (norm_comps X ++ [b])%list.
Proof.
  intros HX Hb. unfold norm_comps. rewrite isabs_app by assumption.
  change ("/" ++ b) with (String "/" b).
  rewrite split_char_app by (apply simple_name_inv in Hb; tauto).
  rewrite fold_left_app. simpl. now apply norm_step_simple.
Qed.

Lemma norm_comps_trailing Y b :
  simple_name b = true ->
  norm_comps ((Y ++ "/") ++ b) = (norm_comps (Y ++ "/") ++ [b])%list.
Proof.
  intros Hb. unfold norm_comps.
  rewrite isabs_app by (apply truthy_app_r; reflexivity).
  rewrite append_assoc. change ("/" ++ b) with (String "/" b).
  change (Y ++ "/") with (Y ++ String "/" "").
  rewrite !split_char_app
    by (try reflexivity; apply simple_name_inv in Hb; tauto).
  rewrite !fold_left_app. simpl. rewrite norm_step_empty.
  now apply norm_step_simple.
Qed.

(** Joining a directory with an entry name descends by one component. *)
Lemma resolve_join cwd a b :
  truthy a = true -> simple_name b = true ->
  resolve cwd (join a b) = (resolve cwd a ++ [b])%list.
Proof.
  intros Ha Hb. unfold resolve, anchored, join.
  rewrite (simple_not_abs b Hb). rewrite Ha. simpl negb. simpl orb.
  destruct (endswith a "/") eqn:E.
  - apply endswith_sound in E as [y ->].
    rewrite isabs_app by assumption.
    destruct (isabs (y ++ "/")) eqn:A.
    + now apply norm_comps_trailing.
    + unfold join. unfold isabs in A. rewrite A.
      assert (startswith ((y ++ "/") ++ b) "/" = false) as ->.
      { change (isabs ((y ++ "/") ++ b) = false).
        now rewrite isabs_app. }
      destruct (negb (truthy cwd) || endswith cwd "/").
      * rewrite <- (append_assoc cwd (y ++ "/") b).
        rewrite <- (append_assoc cwd y "/").
        now apply norm_comps_trailing.
      * rewrite <- (append_assoc cwd "/" ((y ++ "/") ++ b)).
        rewrite <- (append_assoc (cwd ++ "/") (y ++ "/") b).
        rewrite <- (append_assoc cwd "/" (y ++ "/")).
        rewrite <- (append_assoc (cwd ++ "/") y "/").
        now apply norm_comps_trailing.
  - rewrite isabs_app by assumption.
    destruct (isabs a) eqn:A.
    + now apply norm_comps_slash_name.
    + unfold join. unfold isabs in A. rewrite A.
      assert (startswith (a ++ "/" ++ b) "/" = false) as ->.
      { change (isabs (a ++ "/" ++ b) = false). now rewrite isabs_app. }
      destruct (negb (truthy cwd) || endswith cwd "/").
      * rewrite <- (append_assoc cwd a ("/" ++ b)).
        apply norm_comps_slash_name; [now apply truthy_app_r|assumption].
      * rewrite <- (append_assoc cwd "/" (a ++ "/" ++ b)).
        rewrite <- (append_assoc (cwd ++ "/") a ("/" ++ b)).
        rewrite <- (append_assoc cwd "/" a).
        apply norm_comps_slash_name; [now apply truthy_app_r|assumption].
Qed.

Lemma join_truthy a b : truthy a = true -> truthy (join a b) = true.
Proof.
  intros Ha. unfold join.
  destruct (startswith b "/") eqn:E.
  - destruct b; [discriminate|reflexivity].
  - destruct (negb (truthy a) || endswith a "/"); now apply truthy_app_l.
Qed.


(** [basename] undoes [join] with an entry name. *)
Lemma basename_join a b :
  truthy a = true -> simple_name b = true -> basename (join a b) = b.
Proof.
  intros Ha Hb. unfold basename, join.
  rewrite (simple_not_abs b Hb). rewrite Ha. simpl negb. simpl orb.
  pose proof (simple_name_inv b Hb) as (_ & Hs & _).
  destruct (endswith a "/") eqn:E.
  - apply endswith_sound in E as [y ->].
    rewrite append_assoc. change ("/" ++ b) with (String "/" b).
    rewrite split_char_app by assumption. now rewrite last_last.
  - change ("/" ++ b) with (String "/" b).
    rewrite split_char_app by assumption. now rewrite last_last.
Qed.

End PosixPathFacts.

(* ================================================================== *)
(** ** Facts about the directory tree *)
(* ================================================================== *)

Module FSFacts.
Import FS.

Lemma walk_cons es n p :
  walk (Dir es) (n :: p)
  = match PyDict.get n es with
    | Some c => walk c p
    | None => None
    end.
Proof. reflexivity. Qed.

Lemma walk_app t p r :
  walk t (p ++ r)%list
  = match walk t p with
    | Some c => walk c r
    | None => None
    end.
Proof.
  revert t. induction p as [|n p IH]; intros t; simpl; [reflexivity|].
  destruct t; try reflexivity.
  destruct (PyDict.get n entries); [apply IH|reflexivity].
Qed.

Lemma put_walk_same p new : forall t t1,
  put p new t = Some t1 -> walk t1 p = Some new.
Proof.
  induction p as [|n p IH]; intros t t1; simpl.
  - now intros [= <-].
  - destruct t; try discriminate.
    destruct p as [|m p].
    + intros [= <-]. simpl. now rewrite PyDictFacts.get_set_same.
    + destruct (PyDict.get n entries) as [c|]; [|discriminate].
      destruct (put (m :: p) new c) as [c'|] eqn:E; [|discriminate].
      intros [= <-]. cbn [walk]. rewrite PyDictFacts.get_set_same.
      eapply IH; eauto.
Qed.

(** Writing twice at the same place is writing the second time. *)
Lemma put_put p X Y : forall t t1,
  put p Y t = Some t1 -> put p X t1 = put p X t.
Proof.
  induction p as [|n p IH]; intros t t1; simpl; [reflexivity|].
  destruct t; try discriminate.
  destruct p as [|m p].
  - intros [= <-]. now rewrite PyDictFacts.set_set.
  - destruct (PyDict.get n entries) as [c|] eqn:G; [|discriminate].
    destruct (put (m :: p) Y c) as [c'|] eqn:E; [|discriminate].
    intros [= <-]. rewrite PyDictFacts.get_set_same.
    rewrite (IH _ _ E).
    destruct (put (m :: p) X c); [|reflexivity].
    now rewrite PyDictFacts.set_set.
Qed.

(** A new entry can be written into an existing directory. *)
Lemma put_child n new : forall p t es,
  walk t p = Some (Dir es) ->
  exists t1, put (p ++ [n])%list new t = Some t1.
Proof.
  induction p as [|m p IH]; intros t es; simpl.
  - intros [= ->]. eauto.
  - destruct t; try discriminate.
    destruct (PyDict.get m entries) as [c|]; [|discriminate].
    intros H. destruct (IH _ _ H) as [c' Hc'].
    destruct (p ++ [n])%list eqn:E.
    + now apply app_eq_nil in E as [_ E].
    + rewrite Hc'. eauto.
Qed.

(** Removing what was written where nothing was gives the tree back. *)
Lemma remove_put_fresh X : forall p t t1,
  p <> [] -> walk t p = None -> put p X t = Some t1 -> remove p t1 = t.
Proof.
  induction p as [|n p IH]; intros t t1 Hp; [contradiction|]. clear Hp.
  simpl. destruct t; try discriminate.
  destruct p as [|m p].
  - destruct (PyDict.get n entries) eqn:G; [discriminate|].
    intros _ [= <-]. f_equal. apply PyDictFacts.delete_set_fresh.
    now apply PyDictFacts.get_none_keys.
  - destruct (PyDict.get n entries) as [c|] eqn:G; [|discriminate].
    intros Hw. destruct (put (m :: p) X c) as [c'|] eqn:E; [|discriminate].
    intros [= <-]. rewrite PyDictFacts.get_set_same.
    rewrite (IH c c'); [|discriminate|assumption|assumption].
    rewrite PyDictFacts.set_set. f_equal.
    now apply PyDictFacts.set_same_value.
Qed.

(** Writing at [p] leaves the places alone that are neither above nor
    below [p]. *)
Lemma walk_put_other new : forall p q t t1,
  put p new t = Some t1 ->
  strip_prefix p q = None -> strip_prefix q p = None ->
  walk t1 q = walk t q.
Proof.
  induction p as [|n p IH]; intros q t t1; simpl; [discriminate|].
  destruct q as [|m q]; [discriminate|].
  destruct t; try discriminate.
  simpl strip_prefix. rewrite (String.eqb_sym m n).
  destruct (String.eqb n m) eqn:E.
  - apply String.eqb_eq in E. subst m.
    destruct p as [|k p]; [discriminate|].
    destruct (PyDict.get n entries) as [c|] eqn:G; [|discriminate].
    destruct (put (k :: p) new c) as [c'|] eqn:Ep; [|discriminate].
    intros [= <-] H1 H2. simpl. rewrite PyDictFacts.get_set_same, G.
    eapply IH; eauto.
  - apply String.eqb_neq in E.
    assert (forall x, walk (Dir (PyDict.set n x entries)) (m :: q)
                      = walk (Dir entries) (m :: q)) as Hset.
    { intros x. simpl. rewrite PyDictFacts.get_set_other; [reflexivity|].
      congruence. }
    destruct p as [|k p].
    + intros [= <-] _ _. apply Hset.
    + destruct (PyDict.get n entries) as [c|]; [|discriminate].
      destruct (put (k :: p) new c) as [c'|]; [|discriminate].
      intros [= <-] _ _. apply Hset.
Qed.

(** [makedirs] on an existing directory changes nothing. *)
Lemma mkdirs_existing : forall p t es,
  walk t p = Some (Dir es) -> mkdirs p t = Some t.
Proof.
  induction p as [|n p IH]; intros t es; simpl.
  - intros [= ->]. reflexivity.
  - destruct t; try discriminate.
    destruct (PyDict.get n entries) as [c|] eqn:G; [|discriminate].
    intros H. rewrite (IH _ _ H). f_equal. f_equal.
    now apply PyDictFacts.set_same_value.
Qed.

(** A path that leads somewhere has a directory at each proper prefix. *)
Lemma walk_prefix_dir t p r x :
  walk t (p ++ r)%list = Some x -> r <> [] ->
  exists es, walk t p = Some (Dir es).
Proof.
  rewrite walk_app. destruct (walk t p) as [c|]; [|discriminate].
  destruct r as [|n r]; [contradiction|]. simpl.
  destruct c; try discriminate. eauto.
Qed.

Lemma strip_prefix_sound d : forall p r,
  strip_prefix d p = Some r -> p = (d ++ r)%list.
Proof.
  induction d as [|a d IH]; intros p r; simpl.
  - now intros [= ->].
  - destruct p as [|b p]; [discriminate|].
    destruct (String.eqb a b) eqn:E; [|discriminate].
    apply String.eqb_eq in E. subst. intros H. f_equal. auto.
Qed.

Lemma strip_prefix_app d r : strip_prefix d (d ++ r)%list = Some r.
Proof.
  induction d as [|a d IH]; simpl; [reflexivity|].
  now rewrite String.eqb_refl.
Qed.

(** Writing below [q] needs a directory at [q]. *)
Lemma put_parent_dir new n r : forall q t t1,
  put (q ++ n :: r)%list new t = Some t1 ->
  exists es, walk t q = Some (Dir es).
Proof.
  induction q as [|m q IH]; intros t t1.
  - destruct t; simpl; try discriminate. eauto.
  - change ((m :: q) ++ n :: r)%list with (m :: (q ++ n :: r))%list.
    destruct t; simpl; try discriminate.
    destruct (PyDict.get m entries) as [c|].
    + destruct (put (q ++ n :: r)%list new c) as [c'|] eqn:P.
      * intros _. exact (IH c c' P).
      * now destruct (q ++ n :: r)%list.
    + destruct (q ++ n :: r)%list eqn:E; [|discriminate].
      now apply app_eq_nil in E as [_ E].
Qed.

(** Writing where nothing was leaves every regular file in place. *)
Lemma walk_put_fresh_file new p q t t1 x :
  walk t p = None -> put p new t = Some t1 ->
  walk t q = Some x -> is_dir x = false ->
  walk t1 q = Some x.
Proof.
  intros Hp Hput Hq Hx. rewrite <- Hq.
  apply (walk_put_other new p q t t1 Hput).
  - destruct (strip_prefix p q) as [r|] eqn:E; [|reflexivity].
    apply strip_prefix_sound in E. subst q.
    rewrite walk_app, Hp in Hq. discriminate.
  - destruct (strip_prefix q p) as [r|] eqn:E; [|reflexivity].
    apply strip_prefix_sound in E. subst p.
    destruct r as [|n r].
    + rewrite app_nil_r in Hp. congruence.
    + destruct (put_parent_dir _ _ _ _ _ _ Hput) as [es Hes].
      rewrite Hes in Hq. injection Hq as <-. discriminate.
Qed.

(** [makedirs] leaves every regular file in place. *)
Lemma mkdirs_keeps_file x : forall p q t t1,
  mkdirs p t = Some t1 ->
  walk t q = Some x -> is_dir x = false ->
  walk t1 q = Some x.
Proof.
  induction p as [|n p IH]; intros q t t1.
  - destruct t; simpl; try discriminate. now intros [= <-].
  - destruct t; simpl; try discriminate.
    destruct (mkdirs p _) as [c'|] eqn:Em; [|discriminate].
    intros [= <-]. destruct q as [|m q]; simpl.
    + intros [= <-]. discriminate.
    + destruct (String.eqb m n) eqn:E.
      * apply String.eqb_eq in E. subst m.
        rewrite PyDictFacts.get_set_same.
        destruct (PyDict.get n entries) as [c|]; [|discriminate].
        intros Hw Hx. eapply IH; eauto.
      * apply String.eqb_neq in E.
        now rewrite PyDictFacts.get_set_other.
Qed.

(** After [makedirs] the path is a directory. *)
Lemma mkdirs_walk : forall p t t1,
  mkdirs p t = Some t1 -> exists es, walk t1 p = Some (Dir es).
Proof.
  induction p as [|n p IH]; intros t t1.
  - destruct t; simpl; try discriminate. intros [= <-]. eauto.
  - destruct t; simpl; try discriminate.
    destruct (mkdirs p _) as [c'|] eqn:Em; [|discriminate].
    intros [= <-]. simpl. rewrite PyDictFacts.get_set_same. eauto.
Qed.

Lemma strip_prefix_cons a d b p :
  strip_prefix (a :: d) (b :: p)
  = if String.eqb a b then strip_prefix d p else None.
Proof. reflexivity. Qed.

Lemma strip_prefix_common d a b :
  strip_prefix (d ++ a)%list (d ++ b)%list = strip_prefix a b.
Proof.
  induction d as [|x d IH]; simpl; [reflexivity|].
  now rewrite String.eqb_refl.
Qed.

(** Removing a tree leaves the regular files outside it in place. *)
Lemma walk_remove_file x : forall p q t,
  walk t q = Some x -> is_dir x = false ->
  strip_prefix p q = None ->
  walk (remove p t) q = Some x.
Proof.
  induction p as [|n p IH]; intros q t Hw Hx Hs; [discriminate|].
  destruct q as [|m q].
  - simpl in Hw. injection Hw as <-.
    destruct t; try discriminate; destruct p; reflexivity.
  - simpl in Hs.
    assert (remove (n :: p) t
            = match t with
              | Dir es =>
                  match p with
                  | [] => Dir (PyDict.delete n es)
                  | _ :: _ =>
                      match PyDict.get n es with
                      | Some c => Dir (PyDict.set n (remove p c) es)
                      | None => t
                      end
                  end
              | _ => t
              end) as ->
      by (destruct t; destruct p; reflexivity).
    destruct t; try assumption.
    simpl in Hw. destruct (String.eqb n m) eqn:E.
    + apply String.eqb_eq in E. subst m.
      destruct p as [|k p]; [discriminate|].
      destruct (PyDict.get n entries) as [c|] eqn:G; [|discriminate].
      simpl. rewrite PyDictFacts.get_set_same. now apply IH.
    + apply String.eqb_neq in E.
      destruct p as [|k p]; simpl.
      * rewrite PyDictFacts.get_delete_other by congruence. exact Hw.
      * destruct (PyDict.get n entries) as [c|] eqn:G; simpl;
          [|exact Hw].
        rewrite PyDictFacts.get_set_other by congruence. exact Hw.
Qed.

(** Extracting into an empty directory leaves the members of the archive,
    when no name occurs twice among them. *)
Lemma merge_into_empty members :
  PyDict.wf members -> merge (Dir members) (Dir []) = Dir members.
Proof.
  intros Hwf. simpl. f_equal.
  rewrite (PyDictFacts.fold_set_fresh fst snd) by exact Hwf.
  simpl. rewrite map_ext with (g := fun x => x); [apply map_id|].
  now intros [].
Qed.

End FSFacts.

(* ================================================================== *)
(** ** More facts about the directory tree *)
(* ================================================================== *)

Module FSMore.
Import FS.

Lemma distinct_wf {V} (d : PyDict.t V) :
  distinct (PyDict.keys d) = true -> PyDict.wf d.
Proof.
  unfold PyDict.wf. induction (PyDict.keys d) as [|n l IH]; simpl.
  - constructor.
  - intros [Hn Hl]%andb_true_iff. constructor; [|auto].
    intros Hin. apply negb_true_iff in Hn.
    assert (existsb (String.eqb n) l = true) as E
      by (apply existsb_exists; exists n; split; [exact Hin|apply String.eqb_refl]).
    congruence.
Qed.

Lemma tidy_dir es :
  tidy (Dir es) = true ->
  PyDict.wf es /\ forall n c, PyDict.get n es = Some c -> tidy c = true.
Proof.
  simpl. intros [Hd Hf]%andb_true_iff. split; [now apply distinct_wf|].
  intros n c Hg. apply PyDictFacts.get_in in Hg.
  rewrite forallb_forall in Hf. exact (Hf _ Hg).
Qed.

Lemma tidy_walk : forall p t x,
  tidy t = true -> walk t p = Some x -> tidy x = true.
Proof.
  induction p as [|n p IH]; intros t x Ht; simpl.
  - now intros [= <-].
  - destruct t; try discriminate.
    destruct (PyDict.get n entries) as [c|] eqn:G; [|discriminate].
    apply IH. now apply (proj2 (tidy_dir _ Ht) n).
Qed.

Lemma remove_cons n p t :
  remove (n :: p) t
  = match t with
    | Dir es =>
        match p with
        | [] => Dir (PyDict.delete n es)
        | _ :: _ =>
            match PyDict.get n es with
            | Some c => Dir (PyDict.set n (remove p c) es)
            | None => t
            end
        end
    | _ => t
    end.
Proof. destruct t; destruct p; reflexivity. Qed.

(** What was removed is no longer there. *)
Lemma walk_remove_same : forall p t,
  tidy t = true -> p <> [] -> walk (remove p t) p = None.
Proof.
  induction p as [|n p IH]; intros t Ht Hp; [contradiction|].
  rewrite remove_cons. destruct t; try reflexivity.
  destruct (tidy_dir _ Ht) as [Hwf Hsub].
  destruct p as [|k p].
  - simpl. now rewrite PyDictFacts.get_delete_same.
  - destruct (PyDict.get n entries) as [c|] eqn:G.
    + simpl. rewrite PyDictFacts.get_set_same.
      apply IH; [now apply (Hsub n)|discriminate].
    + simpl. now rewrite G.
Qed.

(** Removal leaves the places alone that are neither above nor below. *)
Lemma walk_remove_other : forall p q t,
  strip_prefix p q = None -> strip_prefix q p = None ->
  walk (remove p t) q = walk t q.
Proof.
  induction p as [|n p IH]; intros q t H1 H2; [discriminate|].
  destruct q as [|m q]; [discriminate|].
  rewrite remove_cons. destruct t; try reflexivity.
  simpl in H1, H2. rewrite (String.eqb_sym m n) in H2.
  destruct (String.eqb n m) eqn:E.
  - apply String.eqb_eq in E. subst m.
    destruct p as [|k p]; [discriminate|].
    destruct (PyDict.get n entries) as [c|] eqn:G; [|reflexivity].
    simpl. rewrite PyDictFacts.get_set_same, G. now apply IH.
  - apply String.eqb_neq in E.
    destruct p as [|k p]; simpl.
    + now rewrite PyDictFacts.get_delete_other by congruence.
    + destruct (PyDict.get n entries) as [c|] eqn:G; [|reflexivity].
      simpl. now rewrite PyDictFacts.get_set_other by congruence.
Qed.

(** [makedirs] succeeds only where no regular file is in the way. *)
Lemma mkdirs_dir_at : forall p t t1 x,
  mkdirs p t = Some t1 -> walk t p = Some x -> is_dir x = true.
Proof.
  induction p as [|n p IH]; intros t t1 x.
  - destruct t; simpl; try discriminate. now intros _ [= <-].
  - destruct t; simpl; try discriminate.
    destruct (PyDict.get n entries) as [c|] eqn:G; [|discriminate].
    destruct (mkdirs p c) as [c'|] eqn:Em; [|discriminate].
    intros _ Hw. eapply IH; eauto.
Qed.

(** A directory made where nothing was is empty. *)
Lemma mkdirs_fresh : forall p t t1,
  walk t p = None -> mkdirs p t = Some t1 -> walk t1 p = Some (Dir []).
Proof.
  induction p as [|n p IH]; intros t t1; [discriminate|].
  destruct t; simpl; try (intros _; discriminate).
  destruct (PyDict.get n entries) as [c|] eqn:G.
  - destruct (mkdirs p c) as [c'|] eqn:Em; [|discriminate].
    intros Hw [= <-]. simpl. rewrite PyDictFacts.get_set_same. eapply IH; eauto.
  - destruct (mkdirs p (Dir [])) as [c'|] eqn:Em; [|discriminate].
    intros _ [= <-]. simpl. rewrite PyDictFacts.get_set_same.
    destruct p as [|k p].
    + simpl in Em. now injection Em as <-.
    + apply (IH (Dir []) c'); [reflexivity|exact Em].
Qed.

(** [makedirs] leaves the places alone that are neither above nor below. *)
Lemma walk_mkdirs_other : forall p q t t1,
  mkdirs p t = Some t1 ->
  strip_prefix p q = None -> strip_prefix q p = None ->
  walk t1 q = walk t q.
Proof.
  induction p as [|n p IH]; intros q t t1; [discriminate 2|].
  destruct q as [|m q]; [discriminate 3|].
  destruct t; simpl; try discriminate.
  destruct (mkdirs p _) as [c'|] eqn:Em; [|discriminate].
  intros [= <-]. rewrite (String.eqb_sym m n).
  destruct (String.eqb n m) eqn:E.
  - apply String.eqb_eq in E. subst m. intros H1 H2. simpl.
    rewrite PyDictFacts.get_set_same.
    destruct (PyDict.get n entries) as [c|] eqn:G.
    + eapply IH; eauto.
    + rewrite (IH q (Dir []) c' Em H1 H2).
      destruct q; [discriminate|reflexivity].
  - apply String.eqb_neq in E. intros _ _. simpl.
    now rewrite PyDictFacts.get_set_other by congruence.
Qed.

Lemma mkdirs_cons n p es :
  mkdirs (n :: p) (Dir es)
  = match mkdirs p (match PyDict.get n es with
                    | Some c => c
                    | None => Dir []
                    end) with
    | Some c' => Some (Dir (PyDict.set n c' es))
    | None => None
    end.
Proof. reflexivity. Qed.

(** What can be made can be made again after its removal. *)
Lemma mkdirs_remove : forall p t t1,
  tidy t = true -> mkdirs p t = Some t1 ->
  exists t2, mkdirs p (remove p t) = Some t2.
Proof.
  induction p as [|n p IH]; intros t t1 Ht.
  - simpl. eauto.
  - rewrite remove_cons. destruct t; try discriminate.
    destruct (tidy_dir _ Ht) as [Hwf Hsub].
    rewrite mkdirs_cons.
    destruct (mkdirs p _) as [c'|] eqn:Em; [|discriminate]. intros _.
    destruct p as [|k p].
    + rewrite mkdirs_cons, PyDictFacts.get_delete_same by assumption.
      simpl. eauto.
    + destruct (PyDict.get n entries) as [c|] eqn:G.
      * rewrite mkdirs_cons, PyDictFacts.get_set_same.
        destruct (IH c c' (Hsub n c G) Em) as [t2 ->]. eauto.
      * rewrite mkdirs_cons, G, Em. eauto.
Qed.

(** A node that exists can be replaced. *)
Lemma put_existing new : forall p t x,
  walk t p = Some x -> exists t1, put p new t = Some t1.
Proof.
  induction p as [|n p IH]; intros t x; simpl; [eauto|].
  destruct t; try discriminate.
  destruct (PyDict.get n entries) as [c|] eqn:G; [|discriminate].
  intros Hw. destruct p as [|k p]; [eauto|].
  destruct (IH c x Hw) as [c' ->]. eauto.
Qed.

Lemma apart_inv p q :
  apart p q = true -> strip_prefix p q = None /\ strip_prefix q p = None.
Proof.
  unfold apart. destruct (strip_prefix p q); [discriminate|].
  destruct (strip_prefix q p); [discriminate|auto].
Qed.

Lemma apart_sym p q : apart p q = apart q p.
Proof.
  unfold apart. destruct (strip_prefix p q), (strip_prefix q p); reflexivity.
Qed.

Lemma apart_nonempty p q : apart p q = true -> p <> [].
Proof. intros H ->. discriminate H. Qed.

(** What is apart from a place is apart from the places below it. *)
Lemma apart_below : forall p q r, apart p q = true -> apart (p ++ r)%list q = true.
Proof.
  induction p as [|n p IH]; intros q r; [discriminate|].
  destruct q as [|m q]; [discriminate|].
  unfold apart. simpl. rewrite (String.eqb_sym m n).
  destruct (String.eqb n m); [|reflexivity].
  apply IH.
Qed.

(** A directory can be made in a directory, under a name that is free. *)
Lemma mkdirs_child n : forall p t es,
  walk t p = Some (Dir es) -> PyDict.get n es = None ->
  exists t1, mkdirs (p ++ [n])%list t = Some t1.
Proof.
  induction p as [|k p IH]; intros t es; simpl.
  - intros [= ->] G. rewrite G. eauto.
  - destruct t; try discriminate.
    destruct (PyDict.get k entries) as [c|] eqn:Gk; [|discriminate].
    intros Hw G. destruct (IH c es Hw G) as [c' ->]. eauto.
Qed.

(** [makedirs] fails where a regular file is in the way. *)
Lemma mkdirs_blocked p t x :
  walk t p = Some x -> is_dir x = false -> mkdirs p t = None.
Proof.
  intros Hw Hx. destruct (mkdirs p t) as [t1|] eqn:E; [|reflexivity].
  rewrite (mkdirs_dir_at _ _ _ _ E Hw) in Hx. discriminate.
Qed.

End FSMore.

(** *** The order of a directory listing *)

Lemma place_in rank name other sorted :
  In other (place rank name sorted) <-> other = name \/ In other sorted.
Proof.
  induction sorted as [|y sorted IH]; simpl.
  - intuition.
  - destruct (rank name <=? rank y)%nat; simpl; [intuition|].
    rewrite IH. intuition.
Qed.

(** The host lists the names of the directory, whatever the order. *)
Lemma host_order_in rank name names :
  In name (host_order rank names) <-> In name names.
Proof.
  unfold host_order. induction names as [|x names IH]; simpl; [tauto|].
  rewrite place_in, IH. intuition.
Qed.

Lemma host_order_length rank names :
  List.length (host_order rank names) = List.length names.
Proof.
  unfold host_order. induction names as [|x names IH]; simpl; [reflexivity|].
  rewrite <- IH. generalize (fold_right (place rank) [] names) as sorted.
  induction sorted as [|y sorted IHs]; simpl; [reflexivity|].
  destruct (rank x <=? rank y)%nat; simpl; congruence.
Qed.

(** A host that ranks all names alike lists them as they are stored. *)
Lemma host_order_flat rank names :
  (forall x y, rank x = rank y) -> host_order rank names = names.
Proof.
  intros Hflat. unfold host_order.
  induction names as [|x names IH]; simpl; [reflexivity|].
  rewrite IH. destruct names as [|y names]; simpl; [reflexivity|].
  rewrite (Hflat x y), Nat.leb_refl. reflexivity.
Qed.

(* ================================================================== *)
(** ** What a computation may add to the trace *)
(* ================================================================== *)

Section Only.

Context (P : event -> Prop).

Lemma only_silent {A} (m : M A) :
  (forall s, trace (snd (m s)) = trace s) -> only P m.
Proof.
  intros H s. exists []. rewrite H, app_nil_r. auto.
Qed.

Lemma only_ret {A} (a : A) : only P (ret a).
Proof. now apply only_silent. Qed.

Lemma only_raise {A} (e : exn) : only P (@raise A e).
Proof. now apply only_silent. Qed.

Lemma only_lift {A} (r : result A) : only P (lift r).
Proof. now apply only_silent. Qed.

Lemma only_get_state : only P get_state.
Proof. now apply only_silent. Qed.

Lemma only_set_root t : only P (set_root t).
Proof. now apply only_silent. Qed.

Lemma only_tick : only P tick.
Proof. now apply only_silent. Qed.

Lemma only_next_request : only P next_request.
Proof. now apply only_silent. Qed.

Lemma only_emit e : P e -> only P (emit e).
Proof. intros He s. exists [e]. simpl. auto. Qed.

Lemma only_print line : P (Print line) -> only P (print line).
Proof. apply only_emit. Qed.

Lemma only_bind {A B} (m : M A) (f : A -> M B) :
  only P m -> (forall a, only P (f a)) -> only P (bind m f).
Proof.
  intros Hm Hf s. unfold bind.
  destruct (Hm s) as (n1 & E1 & F1).
  destruct (m s) as [[a|e] s1]; simpl in *.
  - destruct (Hf a s1) as (n2 & E2 & F2).
    exists (n1 ++ n2)%list. rewrite E2, E1, app_assoc. split; [reflexivity|].
    apply Forall_app. auto.
  - exists n1. auto.
Qed.

Lemma only_try_finally {A} (body : M A) (fin : M unit) :
  only P body -> only P fin -> only P (try_finally body fin).
Proof.
  intros Hb Hf s. unfold try_finally.
  destruct (Hb s) as (n1 & E1 & F1).
  destruct (body s) as [r s1]; simpl in *.
  destruct (Hf s1) as (n2 & E2 & F2).
  exists (n1 ++ n2)%list.
  destruct (fin s1) as [[u|e] s2]; simpl in *;
    (rewrite E2, E1, app_assoc; split; [reflexivity|apply Forall_app; auto]).
Qed.

Lemma only_try_finally_local {L A} (first : M L) (body : L -> M A)
    (fin : option L -> M unit) :
  only P first -> (forall l, only P (body l)) -> (forall o, only P (fin o)) ->
  only P (try_finally_local first body fin).
Proof.
  intros H1 Hb Hf s. unfold try_finally_local.
  destruct (H1 s) as (n1 & E1 & F1).
  destruct (first s) as [[l|e] s1]; simpl in *.
  - destruct (only_try_finally (body l) (fin (Some l)) (Hb l) (Hf _) s1)
      as (n2 & E2 & F2).
    exists (n1 ++ n2)%list. rewrite E2, E1, app_assoc.
    split; [reflexivity|apply Forall_app; auto].
  - destruct (only_try_finally (@raise A e) (fin None) (only_raise e) (Hf _) s1)
      as (n2 & E2 & F2).
    exists (n1 ++ n2)%list. rewrite E2, E1, app_assoc.
    split; [reflexivity|apply Forall_app; auto].
Qed.

Lemma only_try_except {A} (body : M A) (handler : exn -> option (M A)) :
  only P body -> (forall e k, handler e = Some k -> only P k) ->
  only P (try_except body handler).
Proof.
  intros Hb Hh s. unfold try_except.
  destruct (Hb s) as (n1 & E1 & F1).
  destruct (body s) as [[a|e] s1]; simpl in *.
  - exists n1. auto.
  - destruct (handler e) as [k|] eqn:Ek; simpl.
    + destruct (Hh e k Ek s1) as (n2 & E2 & F2).
      exists (n1 ++ n2)%list. rewrite E2, E1, app_assoc.
      split; [reflexivity|apply Forall_app; auto].
    + exists n1. auto.
Qed.

Lemma only_subprocess_run h command :
  P (Exec command) -> only P (subprocess_run h command).
Proof.
  intros He. unfold subprocess_run.
  apply only_bind; [apply only_get_state|intros s0].
  apply only_bind; [now apply only_emit|intros _].
  apply only_bind; [apply only_set_root|intros _]. apply only_ret.
Qed.

Lemma only_run_command h command check capture :
  P (Print ("Executing: " ++ command)) -> P (Exec command) ->
  only P (run_command h command check capture).
Proof.
  intros Hp He. unfold run_command.
  apply only_bind; [now apply only_print|intros _].
  apply only_bind; [now apply only_subprocess_run|intros r].
  destruct (check && _); [apply only_raise|].
  destruct capture; apply only_ret.
Qed.

End Only.

(** Library calls on the directory tree add nothing to the trace. *)
Ltac only_fs :=
  repeat first
    [ apply only_ret | apply only_raise | apply only_get_state
    | apply only_set_root | apply only_lift
    | apply only_bind; [|intro]
    | match goal with
      | |- only _ (if ?b then _ else _) => destruct b
      | |- only _ (match ?x with _ => _ end) => destruct x
      end ].

Section OnlyFS.

Context (P : event -> Prop) (h : host).

Lemma only_path_exists p : only P (path_exists h p).
Proof. now apply only_silent. Qed.

Lemma only_path_isfile p : only P (path_isfile h p).
Proof. now apply only_silent. Qed.

Lemma only_path_isdir p : only P (path_isdir h p).
Proof. now apply only_silent. Qed.

Lemma only_makedirs p : only P (makedirs h p).
Proof. unfold makedirs. only_fs. Qed.

Lemma only_rmtree p : only P (rmtree h p).
Proof. unfold rmtree. only_fs. Qed.

Lemma only_copytree src dst ok : only P (copytree h src dst ok).
Proof. unfold copytree. only_fs. Qed.

Lemma only_listdir p : only P (listdir h p).
Proof. unfold listdir. only_fs. Qed.

Lemma only_write_file p c : only P (write_file h p c).
Proof. unfold write_file. only_fs. Qed.

Lemma only_read_manifest p : only P (read_manifest h p).
Proof. unfold read_manifest. only_fs. Qed.

Lemma only_mkdtemp prefix : only P (mkdtemp h prefix).
Proof. unfold mkdtemp. only_fs. Qed.

Lemma only_tar_create a src arc : only P (tar_create h a src arc).
Proof.
  unfold tar_create.
  apply only_bind; [apply only_write_file|intros _].
  apply only_bind; [apply only_get_state|intros s].
  destruct (lookup h (root s) src); [apply only_write_file|apply only_raise].
Qed.

Lemma only_tar_extractall a d : only P (tar_extractall h a d).
Proof. unfold tar_extractall. only_fs. Qed.

End OnlyFS.

(* ================================================================== *)
(** ** Restore: what is accepted as a backup location *)
(* ================================================================== *)

#[local] Arguments String.append : simpl never.

(** Unfolds the plumbing of the monad. *)
Ltac run_monad :=
  unfold bind, ret, raise, lift, get_state, print, sleep, emit, set_root,
    path_exists, path_isfile, path_isdir; simpl.

Lemma isfile_not_isdir h t p : isfile_in h t p = true -> isdir_in h t p = false.
Proof.
  unfold isfile_in, isdir_in. destruct (lookup h t p); [|discriminate].
  now intros ->%negb_true_iff.
Qed.

(** C10: a restore location that is an existing regular file whose name does
    not end in [.tar.gz] makes [restore] raise the not-found error
    "Backup location not found or invalid", with the host left exactly as it
    was: nothing is extracted, no command is run, no restore step starts. *)
Theorem C10_restore_file_without_tar_gz_suffix
    (h : host) (self : tool) (backup_location : string) (s : state) :
  isfile_in h (root s) backup_location = true ->
  PyStr.endswith backup_location ".tar.gz" = false ->
  restore h self backup_location s =
    (Raise (FileNotFoundError
              ("Backup location not found or invalid: " ++ backup_location)), s).
Proof.
  intros Hfile Hsuffix. unfold restore. run_monad.
  rewrite Hfile, Hsuffix, (isfile_not_isdir _ _ _ Hfile). reflexivity.
Qed.

Lemma C10_restore_file_without_tar_gz_suffix_witness :
  restore (Demo.machine 0 (Demo.always 200)) Demo.self
    "/data/lib/library/a.jpg" Demo.boot =
  (Raise (FileNotFoundError
            "Backup location not found or invalid: /data/lib/library/a.jpg"),
   Demo.boot).
Proof.
  apply (C10_restore_file_without_tar_gz_suffix
           (Demo.machine 0 (Demo.always 200)) Demo.self
           "/data/lib/library/a.jpg" Demo.boot); vm_compute; reflexivity.
Defined.

(* ================================================================== *)
(** ** Restore: the file-system step *)
(* ================================================================== *)

(** [restore_filesystem] looks for the archived tree before it touches
    anything. *)
Lemma restore_filesystem_checks_first h self backup_dir m s :
  lookup h (root s) (PosixPath.join backup_dir "backup_manifest.json")
    = Some (ManifestFile m) ->
  exists_in h (root s) (upload_backup_of backup_dir m) = false ->
  restore_filesystem h self backup_dir s =
    (Raise (FileNotFoundError
              ("Filesystem backup not found: " ++ upload_backup_of backup_dir m)),
     s).
Proof.
  intros Hm Habsent.
  unfold restore_filesystem, read_manifest. run_monad.
  rewrite Hm. simpl. fold (upload_backup_of backup_dir m).
  rewrite Habsent. reflexivity.
Qed.

(** C7: when the archived upload-data subtree is absent from the backup
    directory, the file-system restore step raises the "Filesystem backup
    not found" error and leaves the host untouched, the upload location
    included: the check comes before any removal. *)
Theorem C7_restore_filesystem_missing_subtree
    (h : host) (self : tool) (backup_dir : string) (m : manifest) (s : state) :
  lookup h (root s) (PosixPath.join backup_dir "backup_manifest.json")
    = Some (ManifestFile m) ->
  exists_in h (root s) (upload_backup_of backup_dir m) = false ->
  restore_filesystem h self backup_dir s =
    (Raise (FileNotFoundError
              ("Filesystem backup not found: " ++ upload_backup_of backup_dir m)),
     s)
  /\ ErrorKind.FilesystemBackupMissing
       (FileNotFoundError
          ("Filesystem backup not found: " ++ upload_backup_of backup_dir m)).
Proof.
  intros Hm Habsent. split.
  - now apply restore_filesystem_checks_first.
  - now exists (upload_backup_of backup_dir m).
Qed.

Lemma C7_restore_filesystem_missing_subtree_witness :
  restore_filesystem (Demo.machine 0 (Demo.always 200)) Demo.self
    "/backups/old" Demo.bare_boot =
    (Raise (FileNotFoundError
              "Filesystem backup not found: /backups/old/filesystem/upload_location"),
     Demo.bare_boot)
  /\ ErrorKind.FilesystemBackupMissing
       (FileNotFoundError
          "Filesystem backup not found: /backups/old/filesystem/upload_location").
Proof.
  apply (C7_restore_filesystem_missing_subtree
           (Demo.machine 0 (Demo.always 200)) Demo.self "/backups/old"
           Demo.bare_manifest Demo.bare_boot); vm_compute; reflexivity.
Defined.

(* ================================================================== *)
(** ** Backup: a failing dump pipeline *)
(* ================================================================== *)

Ltac run_monad_in H :=
  unfold bind, ret, raise, lift, get_state, print, sleep, emit, set_root,
    path_exists, path_isfile, path_isdir in H; simpl in H.

(** [run_command] with [check=True] never hands a false flag back: a
    non-zero exit status leaves it as [CalledProcessError]. *)
Lemma run_command_checked h command s v s' :
  run_command h command true false s = (Ok v, s') -> v = Flag true.
Proof.
  unfold run_command, subprocess_run. run_monad.
  destruct (Z.eqb (returncode _) 0) eqn:E; simpl; [|discriminate].
  now intros [= <- _].
Qed.

(** Hence the [raise RuntimeError("Database backup failed")] of
    [create_database_backup] is never reached. *)
Lemma create_database_backup_never_DatabaseBackupFailed h self backup_dir s :
  fst (create_database_backup h self backup_dir s)
    <> Raise ErrorKind.DatabaseBackupFailed.
Proof.
  unfold create_database_backup, run_command, subprocess_run, tick. run_monad.
  destruct (Z.eqb (returncode _) 0) eqn:E; simpl; discriminate.
Qed.

Section Never.

Context (e : exn).

Lemma never_ret {A} (a : A) : never_raises e (ret a).
Proof. intros s. discriminate. Qed.

Lemma never_raise {A} (e' : exn) : e' <> e -> never_raises e (@raise A e').
Proof. intros Hne s [= H]. contradiction. Qed.

Lemma never_state {A} (f : state -> A * state) :
  never_raises e (fun s => (Ok (fst (f s)), snd (f s))).
Proof. intros s. discriminate. Qed.

Lemma never_bind {A B} (m : M A) (f : A -> M B) :
  never_raises e m -> (forall a, never_raises e (f a)) ->
  never_raises e (bind m f).
Proof.
  intros Hm Hf s. unfold bind. specialize (Hm s).
  destruct (m s) as [[a|e'] s1]; simpl in *; [apply Hf|].
  intros [= ->]. now apply Hm.
Qed.

Lemma never_try_finally {A} (body : M A) (fin : M unit) :
  never_raises e body -> never_raises e fin ->
  never_raises e (try_finally body fin).
Proof.
  intros Hb Hf s. unfold try_finally. specialize (Hb s).
  destruct (body s) as [r s1]. specialize (Hf s1).
  destruct (fin s1) as [[u|e'] s2]; simpl in *; [assumption|].
  intros [= ->]. now apply Hf.
Qed.

Lemma never_try_finally_local {L A} (first : M L) (body : L -> M A)
    (fin : option L -> M unit) :
  never_raises e first -> (forall l, never_raises e (body l)) ->
  (forall o, never_raises e (fin o)) ->
  never_raises e (try_finally_local first body fin).
Proof.
  intros H1 Hb Hf s. unfold try_finally_local. specialize (H1 s).
  destruct (first s) as [[l|e'] s1]; simpl in H1.
  - now apply never_try_finally.
  - apply never_try_finally; [|apply Hf].
    intros s2 [= ->]. now apply H1.
Qed.

End Never.

(** Steps that can only fail with an error of the operating system or of
    a command. *)
Ltac never_step :=
  first
    [ apply never_ret
    | apply never_raise; discriminate
    | apply never_bind; [|intro]
    | match goal with
      | |- never_raises _ (if ?b then _ else _) => destruct b
      | |- never_raises _ (match ?x with _ => _ end) => destruct x
      | |- never_raises _ (let (_, _) := ?x in _) => destruct x
      end
    | (intros ?; discriminate) ].

Ltac never_unfold :=
  unfold print, sleep, emit, set_root, tick, get_state, path_exists,
    makedirs, rmtree, copytree, write_file, tar_create, run_command,
    subprocess_run.

(** No step of [backup] ends in "Database backup failed": the only place
    that raises it is behind a [run_command] that has already raised. *)
Lemma backup_never_DatabaseBackupFailed h self backup_location :
  never_raises ErrorKind.DatabaseBackupFailed (backup h self backup_location).
Proof.
  unfold backup, ErrorKind.DatabaseBackupFailed.
  apply never_bind; [intros ?; discriminate|intros _].
  apply never_bind.
  { unfold check_docker_compose. never_unfold. repeat never_step. }
  intros _. apply never_bind.
  { unfold get_backup_paths, lift. never_unfold.
    apply never_bind.
    - intros s. unfold parse_docker_compose.
      destruct (load_compose h (compose_file self)); simpl; discriminate.
    - intros volumes. repeat never_step. }
  intros paths.
  do 5 (apply never_bind; [never_unfold; repeat never_step|intros ?]).
  apply never_try_finally_local.
  - apply never_bind; [|intros ?; apply never_ret].
    intros s. unfold lift, get_container_names.
    destruct (load_compose h (compose_file self)); simpl; discriminate.
  - intros stopped. apply never_bind.
    { destruct stopped; never_unfold; repeat never_step. }
    intros _. apply never_bind.
    { exact (create_database_backup_never_DatabaseBackupFailed h self _). }
    intros db_file. apply never_bind.
    { unfold backup_filesystem. never_unfold. repeat never_step. }
    intros fs_dir. apply never_bind.
    { unfold create_backup_manifest. never_unfold. repeat never_step. }
    intros _. never_unfold. repeat never_step.
  - intros stopped. unfold backup_cleanup. never_unfold.
    apply never_bind.
    { destruct stopped as [[|c cs]|]; repeat never_step. }
    intros _. repeat never_step.
Qed.

(** C1, on the demo deployment with a dump pipeline that exits with status
    2: [backup] raises the [CalledProcessError] of the pipeline, which is
    not the "Database backup failed" error; the stopped services are
    started again and the temporary directory is gone. *)
Theorem C1_backup_dump_failure_raises_CalledProcessError :
  let h := Demo.machine 2 (Demo.always 200) in
  let out := backup h Demo.self "/backups" Demo.boot in
  fst out = Raise (CalledProcessError
                     (dump_command "postgres" Demo.dump_file) 2)
  /\ fst out <> Raise ErrorKind.DatabaseBackupFailed
  /\ commands_of (trace (snd out)) =
       ["docker ps -a --format '{{.Names}}' | grep immich";
        "docker stop immich_server immich_redis";
        dump_command "postgres" Demo.dump_file;
        "docker start immich_server immich_redis"]
  /\ exists_in h (root (snd out)) Demo.temp_dir = false.
Proof.
  vm_compute. repeat split; try reflexivity. discriminate.
Qed.

(* ================================================================== *)
(** ** Backup: which services are paused *)
(* ================================================================== *)








(* ================================================================== *)
(** ** Restore: the health probe *)
(* ================================================================== *)

Lemma schedule_app a b : schedule (a ++ b)%list = (schedule a ++ schedule b)%list.
Proof. unfold schedule. apply filter_app. Qed.

Lemma attempts_made_le answers n left : attempts_made answers n left <= left.
Proof.
  revert n. induction left as [|left IH]; intros n; simpl; [lia|].
  destruct (retried (answers n)); [|lia]. specialize (IH (S n)). lia.
Qed.

Lemma attempts_made_pos answers n left :
  0 < left -> 0 < attempts_made answers n left.
Proof.
  destruct left; [lia|]. simpl. destruct (retried (answers n)); lia.
Qed.

(** The first answer that is not retried ends the attempts. *)
Lemma attempts_made_first answers n left k :
  k < left ->
  (forall i, i < k -> retried (answers (n + i)) = true) ->
  retried (answers (n + k)) = false ->
  attempts_made answers n left = S k.
Proof.
  revert n k. induction left as [|left IH]; intros n k Hk Hretry Hstop; [lia|].
  simpl. destruct k as [|k].
  - rewrite Nat.add_0_r in Hstop. now rewrite Hstop.
  - pose proof (Hretry 0 ltac:(lia)) as H0. rewrite Nat.add_0_r in H0.
    rewrite H0. f_equal. apply IH; [lia| |].
    + intros i Hi. replace (S n + i) with (n + S i) by lia. apply Hretry. lia.
    + now replace (S n + k) with (n + S k) by lia.
Qed.

Lemma schedule_prints lines : schedule (map Print lines) = [].
Proof. induction lines; simpl; auto. Qed.

Lemma pings_succ k :
  0 < k -> pings (S k) = HttpGet ping_url 10 :: Sleep 10 :: pings k.
Proof. destruct k; [lia|reflexivity]. Qed.

Lemma extend_extend s e1 n1 e2 n2 :
  extend (extend s e1 n1) e2 n2 = extend s (e1 ++ e2)%list (n1 + n2).
Proof.
  unfold extend. simpl. f_equal; [now rewrite app_assoc|lia].
Qed.

(** One round of the retry loop: a request, then either the end of the loop
    or, unless this was the last attempt, a pause of ten seconds. *)
Lemma ping_loop_step h a rest s :
  exists events,
    schedule events =
      HttpGet ping_url 10
      :: (if retried (http_get h (requests s)) && Nat.ltb a 6
          then [Sleep 10] else [])
    /\ if retried (http_get h (requests s))
       then ping_loop h (a :: rest) 6 10 s
            = ping_loop h rest 6 10 (extend s events 1)
       else ping_loop h (a :: rest) 6 10 s
            = (stop_result (http_get h (requests s)), extend s events 1)
            /\ (http_get h (requests s) = Response 200 ->
                exists pre,
                  events = (pre ++ [Print "Immich API is responding"])%list).
Proof.
  simpl ping_loop. unfold ping_once, try_except, next_request, extend.
  run_monad. rewrite Nat.add_1_r.
  destruct (http_get h (requests s)) as [code|e]; simpl.
  - destruct (Z.eqb code 200) eqn:Ecode; simpl.
    + eexists. split; cycle 1.
      * rewrite <- app_assoc. simpl. split; [reflexivity|].
        intros _. now exists [HttpGet ping_url 10].
      * reflexivity.
    + destruct (Nat.ltb a 6); simpl;
        (eexists; split; cycle 1;
         [rewrite <- !app_assoc; simpl; reflexivity|reflexivity]).
  - destruct e; simpl;
      try (exists [HttpGet ping_url 10]; repeat split; discriminate).
    destruct (Nat.ltb a 6); simpl;
      (eexists; split; cycle 1;
       [rewrite <- !app_assoc; simpl; reflexivity|reflexivity]).
Qed.

(** The retry loop with the attempts [a .. 6] still to make. *)
Lemma ping_loop_spec h len : forall a s,
  a + len = 7 ->
  exists new,
    snd (ping_loop h (seq a len) 6 10 s)
      = extend s new (attempts_made (http_get h) (requests s) len)
    /\ schedule new = pings (attempts_made (http_get h) (requests s) len)
    /\ (fst (ping_loop h (seq a len) 6 10 s) = Ok tt
        \/ exists i e, http_get h i = Failure e /\ retried (Failure e) = false
                       /\ fst (ping_loop h (seq a len) 6 10 s) = Raise e)
    /\ (forall k, k < len ->
          (forall i, i < k -> retried (http_get h (requests s + i)) = true) ->
          http_get h (requests s + k) = Response 200 ->
          fst (ping_loop h (seq a len) 6 10 s) = Ok tt
          /\ exists pre, new = (pre ++ [Print "Immich API is responding"])%list).
Proof.
  induction len as [|len IH]; intros a s Hlen.
  - simpl. run_monad. eexists [_]. unfold extend. simpl.
    rewrite Nat.add_0_r. repeat split; auto; lia.
  - simpl seq.
    destruct (ping_loop_step h a (seq (S a) len) s) as (events & Hsched & Hstep).
    simpl attempts_made.
    destruct (retried (http_get h (requests s))) eqn:Eretry.
    + rewrite Hstep.
      destruct (IH (S a) (extend s events 1) ltac:(lia))
        as (new & Hsnd & Hnew & Hres & Hok).
      simpl requests in Hsnd, Hnew, Hok. rewrite Nat.add_1_r in Hsnd, Hnew.
      exists (events ++ new)%list.
      rewrite Hsnd, extend_extend. split; [reflexivity|]. split; [|split].
      * rewrite schedule_app, Hsched, Hnew. simpl andb.
        destruct (Nat.ltb a 6) eqn:Ea.
        -- apply Nat.ltb_lt in Ea. rewrite pings_succ; [reflexivity|].
           apply attempts_made_pos. lia.
        -- apply Nat.ltb_ge in Ea. assert (len = 0) as -> by lia. reflexivity.
      * exact Hres.
      * intros k Hk Hretry H200. destruct k as [|k].
        -- rewrite Nat.add_0_r in H200. rewrite H200 in Eretry. discriminate.
        -- destruct (Hok k) as (Hfst & pre & ->).
           ++ lia.
           ++ intros i Hi. replace (requests s + 1 + i) with (requests s + S i)
                by lia. apply Hretry. lia.
           ++ now replace (requests s + 1 + k) with (requests s + S k) by lia.
           ++ split; [exact Hfst|]. exists (events ++ pre)%list.
              now rewrite app_assoc.
    + destruct Hstep as [Hst Hgood]. rewrite Hst. simpl fst. simpl snd.
      exists events. split; [reflexivity|]. split; [|split].
      * rewrite Hsched. reflexivity.
      * destruct (http_get h (requests s)) as [code|e] eqn:Ho; simpl.
        -- now left.
        -- right. exists (requests s), e. auto.
      * intros k Hk Hretry H200. destruct k as [|k].
        -- rewrite Nat.add_0_r in H200. split; [now rewrite H200|auto].
        -- specialize (Hretry 0 ltac:(lia)). rewrite Nat.add_0_r in Hretry.
           congruence.
Qed.

(** What an attempt that is retried adds to the trace: the request, its
    warning and, unless it was the last attempt, the pause. *)
Lemma ping_loop_retry h a rest s :
  retried (http_get h (requests s)) = true ->
  exists tail,
    ping_loop h (a :: rest) 6 10 s
    = ping_loop h rest 6 10
        (extend s (HttpGet ping_url 10
                   :: Print (attempt_failed a (http_get h (requests s)))
                   :: tail) 1).
Proof.
  intros Hr. simpl ping_loop. unfold ping_once, try_except, next_request, extend.
  run_monad. rewrite Nat.add_1_r. unfold attempt_failed.
  destruct (http_get h (requests s)) as [code|e]; simpl in *.
  - destruct (Z.eqb code 200); [discriminate|]. simpl.
    destruct (Nat.ltb a 6); simpl; eexists;
      rewrite <- !app_assoc; simpl; reflexivity.
  - destruct e; try discriminate. simpl.
    destruct (Nat.ltb a 6); simpl; eexists;
      rewrite <- !app_assoc; simpl; reflexivity.
Qed.

(** An exception that is not retried leaves the loop after its request. *)
Lemma ping_loop_raise h a rest s e :
  http_get h (requests s) = Failure e -> retried (Failure e) = false ->
  ping_loop h (a :: rest) 6 10 s
  = (Raise e, extend s [HttpGet ping_url 10] 1).
Proof.
  intros He Hr. simpl ping_loop. unfold ping_once, try_except, next_request, extend.
  run_monad. rewrite Nat.add_1_r, He.
  destruct e; try discriminate Hr; reflexivity.
Qed.

(** The warnings of the retry loop: every attempt that is retried prints
    its line; an exception that is not retried leaves the loop; when every
    attempt is retried, the loop ends with its last line. *)
Lemma ping_loop_logs h len : forall a s,
  exists new,
    trace (snd (ping_loop h (seq a len) 6 10 s)) = (trace s ++ new)%list
    /\ (forall k, k < len ->
          (forall i, i <= k -> retried (http_get h (requests s + i)) = true) ->
          In (Print (attempt_failed (a + k) (http_get h (requests s + k)))) new)
    /\ (forall k e, k < len ->
          (forall i, i < k -> retried (http_get h (requests s + i)) = true) ->
          http_get h (requests s + k) = Failure e ->
          retried (Failure e) = false ->
          fst (ping_loop h (seq a len) 6 10 s) = Raise e)
    /\ ((forall i, i < len -> retried (http_get h (requests s + i)) = true) ->
        fst (ping_loop h (seq a len) 6 10 s) = Ok tt
        /\ exists pre,
             new = (pre ++ [Print "API health check failed after all retries. Check logs: docker logs immich_server"])%list).
Proof.
  induction len as [|len IH]; intros a s.
  - simpl. run_monad. eexists [_]. split; [reflexivity|].
    split; [intros k Hk; lia|]. split; [intros k e Hk; lia|].
    intros _. split; [reflexivity|]. now exists [].
  - simpl seq.
    destruct (retried (http_get h (requests s))) eqn:Er.
    + destruct (ping_loop_retry h a (seq (S a) len) s Er) as (tail & ->).
      set (events := HttpGet ping_url 10
                     :: Print (attempt_failed a (http_get h (requests s)))
                     :: tail).
      destruct (IH (S a) (extend s events 1)) as (new & Ht & Hw & Hraise & Hall).
      simpl requests in Hw, Hraise, Hall.
      exists (events ++ new)%list. split; [|split; [|split]].
      * rewrite Ht. unfold extend. simpl trace. now rewrite <- app_assoc.
      * intros k Hk Hretry. apply in_or_app. destruct k as [|k].
        -- left. rewrite !Nat.add_0_r. right. now left.
        -- right. replace (a + S k) with (S a + k) by lia.
           replace (requests s + S k) with (requests s + 1 + k) by lia.
           apply Hw; [lia|]. intros i Hi.
           replace (requests s + 1 + i) with (requests s + S i) by lia.
           apply Hretry. lia.
      * intros k e Hk Hretry He Hstop. destruct k as [|k].
        -- rewrite Nat.add_0_r in He. rewrite He in Er. congruence.
        -- apply (Hraise k e); [lia| | |exact Hstop].
           ++ intros i Hi.
              replace (requests s + 1 + i) with (requests s + S i) by lia.
              apply Hretry. lia.
           ++ now replace (requests s + 1 + k) with (requests s + S k) by lia.
      * intros Hretry. destruct Hall as (Hok & pre & ->).
        -- intros i Hi.
           replace (requests s + 1 + i) with (requests s + S i) by lia.
           apply Hretry. lia.
        -- split; [exact Hok|]. exists (events ++ pre)%list.
           now rewrite app_assoc.
    + destruct (ping_loop h (a :: seq (S a) len) 6 10 s) as [r s1] eqn:Eloop.
      destruct (ping_loop_step h a (seq (S a) len) s) as (events & _ & Hstep).
      rewrite Er, Eloop in Hstep. destruct Hstep as [[= -> ->] _].
      exists events. split; [reflexivity|]. split; [|split].
      * intros k Hk Hretry. specialize (Hretry 0 ltac:(lia)).
        rewrite Nat.add_0_r in Hretry. congruence.
      * intros k e Hk Hretry He Hstop. destruct k as [|k].
        -- rewrite Nat.add_0_r in He. now rewrite He.
        -- specialize (Hretry 0 ltac:(lia)).
           rewrite Nat.add_0_r in Hretry. congruence.
      * intros Hretry. specialize (Hretry 0 ltac:(lia)).
        rewrite Nat.add_0_r in Hretry. congruence.
Qed.

(** What the [try] statement makes of the outcome of the retry loop. *)
Lemma http_probe_outcome h s :
  requests_importable h = true ->
  http_probe h s
  = match ping_loop h (seq 1 6) 6 10 s with
    | (Ok u, s1) => (Ok u, s1)
    | (Raise e, s1) =>
        if is_Exception e
        then (Ok tt, extend s1 [Print (probe_warning e)] 0)
        else (Raise e, s1)
    end.
Proof.
  intros Himp. unfold http_probe, try_except. rewrite Himp. cbv zeta.
  destruct (ping_loop h (seq 1 6) 6 10 s) as [[u|e] s1]; [reflexivity|].
  destruct e; run_monad; unfold extend; now rewrite ?Nat.add_0_r.
Qed.

(** C8: the probe sends at most six requests, ten seconds apart and with
    no pause after the last; the first answer with status 200 ends it, so
    five other statuses followed by a 200 make six requests and a
    successful probe. No exception of class [Exception] leaves the probe,
    whatever the network or the import of [requests] does, and every
    failure is printed: an attempt that ends in another status or in a
    [RequestException] prints its "Attempt k/6" line; any other exception
    of class [Exception] ends the attempts and its warning is the last
    line; a failed import prints its warning and nothing else; and after
    six attempts without status 200 the last line says that the health
    check failed. The directory tree is not touched. *)
Theorem C8_http_probe_bounded_and_contained (h : host) (s : state) :
  let made := if requests_importable h
              then attempts_made (http_get h) (requests s) 6 else 0 in
  exists new,
    snd (http_probe h s) = extend s new made
    /\ made <= 6
    /\ schedule new = pings made
    /\ (fst (http_probe h s) = Ok tt
        \/ exists i e, http_get h i = Failure e /\ is_Exception e = false
                       /\ fst (http_probe h s) = Raise e)
    /\ (requests_importable h = false ->
        fst (http_probe h s) = Ok tt
        /\ new = [Print "requests module not available, skipping API test"])
    /\ (forall k, requests_importable h = true -> k < 6 ->
          (forall i, i < k -> retried (http_get h (requests s + i)) = true) ->
          http_get h (requests s + k) = Response 200 ->
          fst (http_probe h s) = Ok tt
          /\ made = S k
          /\ exists pre, new = (pre ++ [Print "Immich API is responding"])%list)
    /\ (forall k, requests_importable h = true -> k < 6 ->
          (forall i, i <= k -> retried (http_get h (requests s + i)) = true) ->
          In (Print (attempt_failed (S k) (http_get h (requests s + k)))) new)
    /\ (forall k e, requests_importable h = true -> k < 6 ->
          (forall i, i < k -> retried (http_get h (requests s + i)) = true) ->
          http_get h (requests s + k) = Failure e ->
          retried (Failure e) = false ->
          is_Exception e = true ->
          fst (http_probe h s) = Ok tt
          /\ made = S k
          /\ exists pre, new = (pre ++ [Print (probe_warning e)])%list)
    /\ (requests_importable h = true ->
        (forall i, i < 6 -> retried (http_get h (requests s + i)) = true) ->
        fst (http_probe h s) = Ok tt
        /\ made = 6
        /\ exists pre,
             new = (pre ++ [Print "API health check failed after all retries. Check logs: docker logs immich_server"])%list).
Proof.
  cbv zeta. destruct (requests_importable h) eqn:Eimp.
  - rewrite (http_probe_outcome h s Eimp).
    destruct (ping_loop_spec h 6 1 s eq_refl) as (new & Hsnd & Hsched & Hres & Hok).
    destruct (ping_loop_logs h 6 1 s) as (new' & Ht & Hw & Hraise & Hall).
    assert (new' = new) as ->.
    { rewrite Hsnd in Ht. unfold extend in Ht. cbn [trace] in Ht.
      now apply app_inv_head in Ht. }
    pose proof (attempts_made_le (http_get h) (requests s) 6) as Hle.
    assert (forall k, k < 6 ->
              (forall i, i < k -> retried (http_get h (requests s + i)) = true) ->
              retried (http_get h (requests s + k)) = false ->
              attempts_made (http_get h) (requests s) 6 = S k) as Hfirst
      by (intros k Hk Hr Hstop; now apply attempts_made_first).
    assert ((forall i, i < 6 -> retried (http_get h (requests s + i)) = true) ->
            attempts_made (http_get h) (requests s) 6 = 6) as Hsix.
    { intros Hr. simpl.
      pose proof (Hr 0 ltac:(lia)) as H0. rewrite Nat.add_0_r in H0.
      pose proof (Hr 1 ltac:(lia)) as H1. rewrite Nat.add_1_r in H1.
      pose proof (Hr 2 ltac:(lia)) as H2.
      pose proof (Hr 3 ltac:(lia)) as H3.
      pose proof (Hr 4 ltac:(lia)) as H4.
      pose proof (Hr 5 ltac:(lia)) as H5.
      replace (requests s + 2) with (S (S (requests s))) in H2 by lia.
      replace (requests s + 3) with (S (S (S (requests s)))) in H3 by lia.
      replace (requests s + 4) with (S (S (S (S (requests s))))) in H4 by lia.
      replace (requests s + 5) with (S (S (S (S (S (requests s)))))) in H5 by lia.
      now rewrite H0, H1, H2, H3, H4, H5. }
    destruct (ping_loop h (seq 1 6) 6 10 s) as [[[]|e] s1] eqn:Eloop;
      cbn [fst snd] in Hsnd, Hres, Hok, Hraise, Hall; subst s1.
    + exists new. cbn [fst snd].
      split; [reflexivity|]. split; [exact Hle|]. split; [exact Hsched|].
      split; [now left|]. split; [discriminate|].
      split; [|split; [|split]].
      * intros k _ Hk Hr H200. split; [reflexivity|]. split.
        -- apply Hfirst; try assumption. now rewrite H200.
        -- apply (Hok k); assumption.
      * intros k _ Hk Hr. now apply (Hw k).
      * intros k e _ Hk Hr He Hstop _. exfalso.
        specialize (Hraise k e Hk Hr He Hstop). discriminate.
      * intros _ Hr. split; [reflexivity|]. split; [now apply Hsix|].
        now apply Hall.
    + assert (forall k, k < 6 ->
                (forall i, i < k -> retried (http_get h (requests s + i)) = true) ->
                http_get h (requests s + k) = Response 200 -> False) as Hno.
      { intros k Hk Hr H200. destruct (Hok k Hk Hr H200) as [Hfst _].
        discriminate. }
      assert ((forall i, i < 6 -> retried (http_get h (requests s + i)) = true)
              -> False) as Hnot6.
      { intros Hr. destruct (Hall Hr) as [Hfst _]. discriminate. }
      destruct Hres as [Hres|(i & e0 & Hi & Hstop0 & [= <-])]; [discriminate|].
      destruct (is_Exception e) eqn:Eexc.
      * exists (new ++ [Print (probe_warning e)])%list. cbn [fst snd].
        split; [unfold extend; cbn [root trace ticks requests];
                rewrite <- app_assoc; f_equal; lia|].
        split; [exact Hle|].
        split; [rewrite schedule_app, Hsched; apply app_nil_r|].
        split; [now left|]. split; [discriminate|].
        split; [|split; [|split]].
        -- intros k _ Hk Hr H200. exfalso. eapply Hno; eauto.
        -- intros k _ Hk Hr. apply in_or_app. left. now apply (Hw k).
        -- intros k e' _ Hk Hr He Hstop _.
           specialize (Hraise k e' Hk Hr He Hstop). injection Hraise as <-.
           split; [reflexivity|]. split; [|now exists new].
           apply Hfirst; try assumption. now rewrite He.
        -- intros _ Hr. exfalso. now apply Hnot6.
      * exists new. cbn [fst snd].
        split; [reflexivity|]. split; [exact Hle|]. split; [exact Hsched|].
        split; [right; exists i, e; auto|]. split; [discriminate|].
        split; [|split; [|split]].
        -- intros k _ Hk Hr H200. exfalso. eapply Hno; eauto.
        -- intros k _ Hk Hr. now apply (Hw k).
        -- intros k e' _ Hk Hr He Hstop Hexc.
           specialize (Hraise k e' Hk Hr He Hstop). injection Hraise as <-.
           congruence.
        -- intros _ Hr. exfalso. now apply Hnot6.
  - unfold http_probe, try_except. rewrite Eimp. run_monad.
    eexists. unfold extend. rewrite Nat.add_0_r.
    split; [reflexivity|]. repeat split; auto; try lia; discriminate.
Qed.

(** Five answers with status 503 and then a 200: six requests, five pauses
    of ten seconds, and the probe returns normally. An API that refuses
    every connection: the probe returns as well, the third attempt has
    left its warning, and the last line reports the failure. *)
Lemma C8_http_probe_bounded_and_contained_witness :
  let h := Demo.machine 0 late_answers in
  (fst (http_probe h Demo.boot) = Ok tt
   /\ schedule (trace (snd (http_probe h Demo.boot))) = pings 6)
  /\ (fst (http_probe Cases.unhealthy Demo.boot) = Ok tt
      /\ In (Print "Attempt 3/6: Connection refused")
            (trace (snd (http_probe Cases.unhealthy Demo.boot)))
      /\ exists pre,
           trace (snd (http_probe Cases.unhealthy Demo.boot))
           = (pre ++ [Print "API health check failed after all retries. Check logs: docker logs immich_server"])%list).
Proof.
  intros h. split.
  - destruct (C8_http_probe_bounded_and_contained h Demo.boot)
      as (new & Hsnd & _ & Hsched & _ & _ & Hgood & _).
    destruct (Hgood 5) as (Hok & Hmade & _).
    + reflexivity.
    + lia.
    + intros i Hi.
      destruct i as [|[|[|[|[|i]]]]]; try reflexivity. lia.
    + reflexivity.
    + split; [exact Hok|].
      rewrite Hsnd. unfold extend. cbn [trace Demo.boot app].
      rewrite Hsched. reflexivity.
  - destruct (C8_http_probe_bounded_and_contained Cases.unhealthy Demo.boot)
      as (new & Hsnd & _ & _ & _ & _ & _ & Hwarn & _ & Hall).
    destruct (Hall eq_refl) as (Hok & _ & pre & Hlast);
      [intros i _; reflexivity|].
    split; [exact Hok|]. rewrite Hsnd. unfold extend.
    cbn [trace Demo.boot app]. split.
    + apply (Hwarn 2); [reflexivity|lia|intros i _; reflexivity].
    + now exists pre.
Defined.
(* ================================================================== *)
(** ** Configuration: the environment file *)
(* ================================================================== *)

Lemma lstrip_blank line :
  if EnvSpec.blank line then PyStr.lstrip line = ""
  else exists c rest, PyStr.lstrip line = String c rest
                      /\ PyStr.is_space c = false.
Proof.
  induction line as [|c line IH]; simpl; [reflexivity|].
  destruct (PyStr.is_space c) eqn:E; simpl; [exact IH|eauto].
Qed.

Lemma rstrip_space_end x c :
  PyStr.is_space c = true -> PyStr.rstrip (x ++ String c "") = PyStr.rstrip x.
Proof.
  intros Hc. induction x as [|d x IH].
  - change ("" ++ String c "") with (String c ""). simpl. now rewrite Hc.
  - change (String d x ++ String c "") with (String d (x ++ String c "")).
    simpl. now rewrite IH.
Qed.

Lemma blank_space_end x c :
  PyStr.is_space c = true -> EnvSpec.blank (x ++ String c "") = EnvSpec.blank x.
Proof.
  intros Hc. induction x as [|d x IH].
  - change ("" ++ String c "") with (String c ""). simpl. now rewrite Hc.
  - change (String d x ++ String c "") with (String d (x ++ String c "")).
    simpl. now rewrite IH.
Qed.

Lemma lstrip_space_end x c :
  PyStr.is_space c = true ->
  PyStr.lstrip (x ++ String c "")
  = if EnvSpec.blank x then "" else PyStr.lstrip x ++ String c "".
Proof.
  intros Hc. induction x as [|d x IH].
  - change ("" ++ String c "") with (String c ""). simpl. now rewrite Hc.
  - change (String d x ++ String c "") with (String d (x ++ String c "")).
    simpl. destruct (PyStr.is_space d); simpl; [exact IH|reflexivity].
Qed.

(** White space at the end of a line is no part of what the line says. *)
Lemma strip_space_end x c :
  PyStr.is_space c = true -> PyStr.strip (x ++ String c "") = PyStr.strip x.
Proof.
  intros Hc. unfold PyStr.strip. rewrite lstrip_space_end by exact Hc.
  pose proof (lstrip_blank x) as H. destruct (EnvSpec.blank x).
  - now rewrite H.
  - now apply rstrip_space_end.
Qed.

Lemma declared_space_end x c :
  PyStr.is_space c = true ->
  EnvSpec.declared (x ++ String c "") = EnvSpec.declared x.
Proof.
  intros Hc. unfold EnvSpec.declared.
  now rewrite blank_space_end, strip_space_end by exact Hc.
Qed.

Lemma last_value_cons key line line' rest rest' :
  EnvSpec.declared line = EnvSpec.declared line' ->
  EnvSpec.last_value key rest = EnvSpec.last_value key rest' ->
  EnvSpec.last_value key (line :: rest) = EnvSpec.last_value key (line' :: rest').
Proof. intros Hd Hr. simpl. now rewrite Hd, Hr. Qed.

Lemma last_value_blank key rest :
  EnvSpec.last_value key ("" :: rest) = EnvSpec.last_value key rest.
Proof. simpl. now destruct (EnvSpec.last_value key rest). Qed.

(** The lines the file object yields against the rows of the text: the
    text is empty; or it is one line without line break; or the first
    line is the first row and its line feed, and what follows declares
    the same. *)
Lemma lines_rows : forall n text,
  String.length text <= n ->
  (TextIO.lines text = [] /\ EnvSpec.rows text = [""])
  \/ (exists r, TextIO.lines text = [r] /\ EnvSpec.rows text = [r])
  \/ (exists r us rs,
        TextIO.lines text = (r ++ String TextIO.LF "") :: us
        /\ EnvSpec.rows text = r :: rs
        /\ forall key, EnvSpec.last_value key us = EnvSpec.last_value key rs).
Proof.
  assert (forall text,
            (TextIO.lines text = [] /\ EnvSpec.rows text = [""])
            \/ (exists r, TextIO.lines text = [r] /\ EnvSpec.rows text = [r])
            \/ (exists r us rs,
                  TextIO.lines text = (r ++ String TextIO.LF "") :: us
                  /\ EnvSpec.rows text = r :: rs
                  /\ forall key, EnvSpec.last_value key us
                                 = EnvSpec.last_value key rs) ->
            forall key, EnvSpec.last_value key (TextIO.lines text)
                        = EnvSpec.last_value key (EnvSpec.rows text)) as Hsame.
  { intros text [[-> ->]|[(r & -> & ->)|(r & us & rs & -> & -> & H)]] key.
    - reflexivity.
    - reflexivity.
    - apply last_value_cons; [|apply H].
      now apply declared_space_end. }
  induction n as [|n IH]; intros text Hn.
  - destruct text; [|simpl in Hn; lia]. left. split; reflexivity.
  - destruct text as [|c text]; [left; split; reflexivity|].
    simpl in Hn. unfold TextIO.lines in *.
    cbn [TextIO.universal_newlines EnvSpec.rows]. unfold EnvSpec.is_break.
    destruct (Ascii.eqb c TextIO.CR) eqn:Ecr.
    + apply Ascii.eqb_eq in Ecr. subst c.
      change (Ascii.eqb TextIO.CR TextIO.LF) with false. cbn [orb].
      right. right. exists "".
      destruct text as [|c' text].
      * exists [], [""]. repeat split.
      * destruct (Ascii.eqb c' TextIO.LF) eqn:Elf.
        -- apply Ascii.eqb_eq in Elf. subst c'.
           exists (TextIO.split_lines (TextIO.universal_newlines text)),
             (EnvSpec.rows (String TextIO.LF text)).
           split; [cbn [TextIO.split_lines]; now rewrite Ascii.eqb_refl|].
           split; [reflexivity|]. intros key.
           cbn [EnvSpec.rows]. unfold EnvSpec.is_break.
           rewrite Ascii.eqb_refl. cbn [orb]. rewrite last_value_blank.
           apply Hsame, IH. simpl in Hn. lia.
        -- exists (TextIO.split_lines
                     (TextIO.universal_newlines (String c' text))),
             (EnvSpec.rows (String c' text)).
           split; [cbn [TextIO.split_lines]; now rewrite Ascii.eqb_refl|].
           split; [reflexivity|]. intros key. apply Hsame, IH. lia.
    + destruct (Ascii.eqb c TextIO.LF) eqn:Elf.
      * cbn [orb TextIO.split_lines]. rewrite Elf.
        apply Ascii.eqb_eq in Elf. subst c.
        right. right. exists "".
        exists (TextIO.split_lines (TextIO.universal_newlines text)),
          (EnvSpec.rows text).
        split; [reflexivity|]. split; [reflexivity|].
        intros key. apply Hsame, IH. lia.
      * cbn [orb TextIO.split_lines]. rewrite Elf.
        destruct (IH text ltac:(lia))
          as [[-> ->]|[(r & -> & ->)|(r & us & rs & -> & -> & H)]].
        -- right. left. now exists (String c "").
        -- right. left. now exists (String c r).
        -- right. right. exists (String c r), us, rs. auto.
Qed.

Lemma last_value_lines key text :
  EnvSpec.last_value key (TextIO.lines text)
  = EnvSpec.last_value key (EnvSpec.rows text).
Proof.
  destruct (lines_rows (String.length text) text (Nat.le_refl _))
    as [[-> ->]|[(r & -> & ->)|(r & us & rs & -> & -> & H)]].
  - reflexivity.
  - reflexivity.
  - apply last_value_cons; [|apply H]. now apply declared_space_end.
Qed.

Lemma rstrip_keeps_head c rest :
  PyStr.is_space c = false -> PyStr.truthy (PyStr.rstrip (String c rest)) = true.
Proof.
  intros H. simpl. destruct (PyStr.rstrip rest); [now rewrite H|reflexivity].
Qed.

(** A line is blank exactly when nothing is left of it after [strip]. *)
Lemma strip_truthy line :
  PyStr.truthy (PyStr.strip line) = negb (EnvSpec.blank line).
Proof.
  unfold PyStr.strip. pose proof (lstrip_blank line) as H.
  destruct (EnvSpec.blank line).
  - now rewrite H.
  - destruct H as (c & rest & -> & Hc). now apply rstrip_keeps_head.
Qed.

Lemma load_line_declared env line :
  load_line env line =
  match EnvSpec.declared line with
  | Some (key, value) => PyDict.set key value env
  | None => env
  end.
Proof.
  unfold load_line, EnvSpec.declared. rewrite strip_truthy.
  destruct (EnvSpec.blank line); simpl; [reflexivity|].
  destruct (PyStr.startswith (PyStr.strip line) "#"); simpl; [reflexivity|].
  unfold PyStr.contains.
  destruct (PyStr.partition "=" (PyStr.strip line)) as [[k v]|]; reflexivity.
Qed.

Lemma load_lines_get lines : forall env key,
  PyDict.get key (fold_left load_line lines env) =
  match EnvSpec.last_value key lines with
  | Some v => Some v
  | None => PyDict.get key env
  end.
Proof.
  induction lines as [|line rest IH]; intros env key; simpl; [reflexivity|].
  rewrite IH. destruct (EnvSpec.last_value key rest); [reflexivity|].
  rewrite load_line_declared.
  destruct (EnvSpec.declared line) as [[k v]|]; [|reflexivity].
  destruct (String.eqb key k) eqn:E.
  - apply String.eqb_eq in E. subst. apply PyDictFacts.get_set_same.
  - apply String.eqb_neq in E. now apply PyDictFacts.get_set_other.
Qed.

Lemma load_lines_wf lines : forall env,
  PyDict.wf env -> PyDict.wf (fold_left load_line lines env).
Proof.
  induction lines as [|line rest IH]; intros env Hwf; simpl; [assumption|].
  apply IH. rewrite load_line_declared.
  destruct (EnvSpec.declared line) as [[k v]|]; [|assumption].
  now apply PyDictFacts.wf_set.
Qed.

(** No line declares [key]. *)
Lemma last_value_none key lines :
  EnvSpec.last_value key lines = None <->
  forall line value, In line lines ->
                     EnvSpec.declared line <> Some (key, value).
Proof.
  induction lines as [|line rest IH]; simpl.
  - split; [intros _ l v []|reflexivity].
  - destruct (EnvSpec.last_value key rest) as [v|].
    + split; [discriminate|]. intros H. exfalso.
      destruct IH as [_ IH]. assert (Some v = None) as E; [|discriminate E].
      apply IH. intros l v' Hin. apply H. now right.
    + destruct IH as [IH _]. specialize (IH eq_refl).
      destruct (EnvSpec.declared line) as [[k v]|] eqn:Ed.
      * destruct (String.eqb key k) eqn:Ek.
        -- apply String.eqb_eq in Ek. subst k. split; [discriminate|].
           intros H. exfalso. apply (H line v); auto.
        -- apply String.eqb_neq in Ek. split; [|reflexivity].
           intros _ l v' [<-|Hin]; [congruence|now apply IH].
      * split; [|reflexivity].
        intros _ l v' [<-|Hin]; [congruence|now apply IH].
Qed.

(** The last line that declares [key] gives its value. *)
Lemma last_value_some key lines value :
  EnvSpec.last_value key lines = Some value <->
  exists before line after,
    lines = (before ++ line :: after)%list
    /\ EnvSpec.declared line = Some (key, value)
    /\ forall later v, In later after ->
                       EnvSpec.declared later <> Some (key, v).
Proof.
  revert value. induction lines as [|line rest IH]; intros value.
  - split; [discriminate|]. intros (b & l & a & H & _).
    now destruct b.
  - cbn [EnvSpec.last_value].
    destruct (EnvSpec.last_value key rest) as [v|] eqn:Er.
    + split.
      * intros [= <-]. destruct (proj1 (IH v) eq_refl) as (b & l & a & -> & H).
        exists (line :: b), l, a. auto.
      * intros (b & l & a & Hl & Hd & Hlater). destruct b as [|b0 b].
        -- injection Hl as <- <-. exfalso.
           assert (EnvSpec.last_value key rest = None) as E
             by now apply last_value_none.
           congruence.
        -- injection Hl as <- ->. apply IH. exists b, l, a. auto.
    + pose proof (proj1 (last_value_none key rest) Er) as Hnone. split.
      * destruct (EnvSpec.declared line) as [[k v]|] eqn:Ed; [|discriminate].
        destruct (String.eqb key k) eqn:Ek; [|discriminate].
        apply String.eqb_eq in Ek. subst k. intros [= <-].
        exists [], line, rest. auto.
      * intros (b & l & a & Hl & Hd & Hlater). destruct b as [|b0 b].
        -- injection Hl as <- <-. rewrite Hd, String.eqb_refl. reflexivity.
        -- injection Hl as <- ->. exfalso.
           apply (Hnone l value); [|exact Hd].
           apply in_or_app. right. now left.
Qed.

(** C6: for every environment file, the map that is loaded holds each key
    once, and holds [key] with [value] exactly when, among the rows of the
    file's text (the pieces between its line breaks), the last row that
    declares [key] declares it with [value]; a key that no row declares
    is not in the map. A row declares [key] with [value] exactly when it
    is not blank, does not start with [#] once the white space around it
    is removed, and what is then left is [key], the first [=] of the row,
    and [value]. *)
Theorem C6_load_environment_last_occurrence_wins
    (h : host) (env_file text : string) :
  read_env_file h env_file = Some text ->
  exists env,
    load_environment h env_file = Ok env
    /\ PyDict.wf env
    /\ (forall key value,
          In (key, value) env <-> PyDict.get key env = Some value)
    /\ (forall key value,
          PyDict.get key env = Some value <->
          exists before line after,
            EnvSpec.rows text = (before ++ line :: after)%list
            /\ EnvSpec.declared line = Some (key, value)
            /\ forall later v, In later after ->
                               EnvSpec.declared later <> Some (key, v))
    /\ (forall key,
          PyDict.get key env = None <->
          forall line value, In line (EnvSpec.rows text) ->
                             EnvSpec.declared line <> Some (key, value))
    /\ (forall line key value,
          EnvSpec.declared line = Some (key, value) <->
          PyStr.strip line = key ++ "=" ++ value
          /\ PyStr.has_char "=" key = false
          /\ EnvSpec.blank line = false
          /\ PyStr.startswith (PyStr.strip line) "#" = false).
Proof.
  intros Hfile. exists (load_lines (TextIO.lines text)).
  assert (forall key, PyDict.get key (load_lines (TextIO.lines text))
                      = EnvSpec.last_value key (EnvSpec.rows text)) as Hget.
  { intros key. unfold load_lines. rewrite load_lines_get.
    rewrite last_value_lines.
    now destruct (EnvSpec.last_value key (EnvSpec.rows text)). }
  assert (PyDict.wf (load_lines (TextIO.lines text))) as Hwf
    by (apply load_lines_wf, PyDictFacts.wf_empty).
  split; [unfold load_environment; now rewrite Hfile|].
  split; [exact Hwf|]. split; [|split; [|split]].
  - intros key value. split.
    + now apply PyDictFacts.in_get.
    + apply PyDictFacts.get_in.
  - intros key value. rewrite Hget. apply last_value_some.
  - intros key. rewrite Hget. apply last_value_none.
  - intros line key value. unfold EnvSpec.declared. split.
    + destruct (EnvSpec.blank line); [discriminate|].
      destruct (PyStr.startswith (PyStr.strip line) "#"); [discriminate|].
      intros H. repeat split.
      * now apply PyStrFacts.partition_sound in H.
      * now apply PyStrFacts.partition_char_left in H.
    + intros (Hs & Hk & Hb & Hc). rewrite Hb, Hc, Hs.
      change ("=" ++ value) with (String "=" value).
      now apply PyStrFacts.partition_char.
Qed.

(** A comment, a blank line, a value with [=], a line without [=] and a
    key declared twice, the first time on a line that ends in a carriage
    return and a line feed. *)
Lemma C6_load_environment_last_occurrence_wins_witness :
  exists env,
    load_environment Cases.site_machine "site.env" = Ok env
    /\ env = [("UPLOAD_LOCATION", "/data/lib"); ("DB_PASSWORD", "a=b")]
    /\ PyDict.get "UPLOAD_LOCATION" env = Some "/data/lib"
    /\ PyDict.get "export" env = None.
Proof.
  destruct (C6_load_environment_last_occurrence_wins
              Cases.site_machine "site.env" Cases.site_env_text eq_refl)
    as (env & Hload & _ & _ & Hsome & Hnone & _).
  exists env. split; [exact Hload|]. split; [|split].
  - assert (Ok env
            = Ok [("UPLOAD_LOCATION", "/data/lib"); ("DB_PASSWORD", "a=b")])
      as E by (rewrite <- Hload; reflexivity).
    now injection E.
  - apply Hsome.
    exists ["# settings"; "UPLOAD_LOCATION=./library"; ""; ""; "DB_PASSWORD=a=b";
            "export"],
      "  UPLOAD_LOCATION=/data/lib  ", [""].
    split; [reflexivity|]. split; [reflexivity|].
    intros later v [<-|[]]. discriminate.
  - apply Hnone. intros line value Hin.
    vm_compute in Hin.
    repeat (destruct Hin as [<-|Hin]; [vm_compute; discriminate|]).
    destruct Hin.
Defined.

(** An environment file with a comment, a blank line, a repeated key and
    a value that contains [=]. *)
Example load_environment_example :
  load_lines (TextIO.lines
    ("# settings" ++ String TextIO.LF
     ("UPLOAD_LOCATION=./library" ++ String TextIO.CR (String TextIO.LF
     ("" ++ String TextIO.LF
     ("DB_PASSWORD=a=b" ++ String TextIO.LF
     ("  UPLOAD_LOCATION=/data/lib  " ++ String TextIO.LF "")))))))
  = [("UPLOAD_LOCATION", "/data/lib"); ("DB_PASSWORD", "a=b")].
Proof. reflexivity. Qed.

(* ================================================================== *)
(** ** Configuration: variable expansion *)
(* ================================================================== *)

Lemma string_length_app a b :
  String.length (a ++ b) = String.length a + String.length b.
Proof. induction a; simpl; auto. Qed.

(** A match consumes the text it matched. *)
Lemma match_var_sound s expr rest :
  match_var s = Some (expr, rest) ->
  s = "${" ++ expr ++ "}" ++ rest /\ PyStr.truthy expr = true
  /\ PyStr.has_char "}" expr = false.
Proof.
  unfold match_var.
  destruct (PyStr.drop_prefix "${" s) as [body|] eqn:Ed; [|discriminate].
  destruct (PyStr.partition "}" body) as [[e r]|] eqn:Ep; [|discriminate].
  destruct (PyStr.truthy e) eqn:Et; [|discriminate].
  intros [= <- <-]. apply PyStrFacts.drop_prefix_sound in Ed.
  pose proof (PyStrFacts.partition_char_left _ _ _ _ Ep).
  apply PyStrFacts.partition_sound in Ep. subst. auto.
Qed.

Lemma match_var_here expr rest :
  PyStr.truthy expr = true -> PyStr.has_char "}" expr = false ->
  match_var ("${" ++ expr ++ "}" ++ rest) = Some (expr, rest).
Proof.
  intros Ht Hc. unfold match_var.
  rewrite PyStrFacts.drop_prefix_app.
  change ("}" ++ rest) with (String "}" rest).
  rewrite PyStrFacts.partition_char by assumption. now rewrite Ht.
Qed.

(** Enough fuel is as good as more. *)
Lemma re_sub_fuel repl : forall n m s,
  String.length s <= n -> String.length s <= m ->
  re_sub n repl s = re_sub m repl s.
Proof.
  induction n as [|n IH]; intros m s Hn Hm.
  - destruct s; [|simpl in Hn; lia]. destruct m; reflexivity.
  - destruct m as [|m].
    + destruct s; [reflexivity|simpl in Hm; lia].
    + simpl. destruct (match_var s) as [[expr rest]|] eqn:E.
      * apply match_var_sound in E as (-> & _ & _).
        rewrite !string_length_app in Hn, Hm. simpl in Hn, Hm.
        f_equal. apply IH; lia.
      * destruct s as [|c s]; [reflexivity|]. simpl in Hn, Hm.
        f_equal. apply IH; lia.
Qed.

(** No match starts inside a text without [${], whatever follows it, as
    long as what follows does not start with an opening brace. *)
Lemma contains_cons sub c s :
  PyStr.contains sub (String c s) = false ->
  PyStr.drop_prefix sub (String c s) = None /\ PyStr.contains sub s = false.
Proof.
  unfold PyStr.contains. cbn [PyStr.partition].
  destruct (PyStr.drop_prefix sub (String c s)); [discriminate|].
  destruct (PyStr.partition sub s) as [[a b]|]; [discriminate|auto].
Qed.

Lemma match_var_inside c pre tail :
  PyStr.contains "${" (String c pre) = false ->
  PyStr.startswith tail "{" = false ->
  match_var (String c pre ++ tail) = None
  /\ PyStr.contains "${" pre = false.
Proof.
  intros H Htail. apply contains_cons in H as [Hd Hc]. split; [|exact Hc].
  unfold match_var.
  change (String c pre ++ tail) with (String c (pre ++ tail)).
  assert (PyStr.drop_prefix "${" (String c (pre ++ tail)) = None) as ->;
    [|reflexivity].
  simpl in *. destruct (Ascii.eqb "$" c); [|reflexivity].
  destruct pre as [|d pre].
  - change ("" ++ tail) with tail. unfold PyStr.startswith in Htail.
    simpl in Htail. destruct tail as [|t tail]; [reflexivity|].
    destruct (Ascii.eqb "{" t); [discriminate|reflexivity].
  - change (String d pre ++ tail) with (String d (pre ++ tail)). simpl.
    destruct (Ascii.eqb "{" d); [discriminate|reflexivity].
Qed.

Lemma re_sub_prefix repl expr post : forall pre fuel,
  PyStr.contains "${" pre = false ->
  PyStr.truthy expr = true -> PyStr.has_char "}" expr = false ->
  String.length (pre ++ "${" ++ expr ++ "}" ++ post) <= fuel ->
  re_sub fuel repl (pre ++ "${" ++ expr ++ "}" ++ post)
  = pre ++ repl expr ++ re_sub (String.length post) repl post.
Proof.
  induction pre as [|c pre IH]; intros fuel Hpre Ht Hc Hfuel.
  - change ("" ++ "${" ++ expr ++ "}" ++ post) with ("${" ++ expr ++ "}" ++ post)
      in *.
    rewrite !string_length_app in Hfuel.
    destruct fuel as [|fuel]; [simpl in Hfuel; lia|].
    simpl re_sub. rewrite match_var_here by assumption.
    change ("" ++ repl expr ++ re_sub (String.length post) repl post)
      with (repl expr ++ re_sub (String.length post) repl post).
    f_equal. apply re_sub_fuel; [|lia]. simpl in Hfuel. lia.
  - change (String c pre ++ "${" ++ expr ++ "}" ++ post)
      with (String c (pre ++ "${" ++ expr ++ "}" ++ post)) in Hfuel.
    destruct fuel as [|fuel]; [simpl in Hfuel; lia|].
    destruct (match_var_inside c pre ("${" ++ expr ++ "}" ++ post) Hpre eq_refl)
      as [Hnone Hpre'].
    simpl re_sub. rewrite Hnone.
    change (String c pre ++ "${" ++ expr ++ "}" ++ post)
      with (String c (pre ++ "${" ++ expr ++ "}" ++ post)).
    change (String c pre ++ repl expr ++ re_sub (String.length post) repl post)
      with (String c (pre ++ repl expr ++ re_sub (String.length post) repl post)).
    f_equal. apply IH; try assumption. simpl in Hfuel. lia.
Qed.

Lemma re_sub_plain repl : forall text fuel,
  PyStr.contains "${" text = false -> re_sub fuel repl text = text.
Proof.
  induction text as [|c text IH]; intros fuel Htext.
  - destruct fuel; reflexivity.
  - destruct fuel as [|fuel]; [reflexivity|].
    destruct (match_var_inside c text "" Htext eq_refl) as [Hnone Htext'].
    rewrite PyStrFacts.append_nil_r in Hnone.
    simpl re_sub. rewrite Hnone. f_equal. now apply IH.
Qed.

(** [split(':-', 1)] cuts a name without [:-] from what follows it. *)
Lemma partition_default name default :
  PyStr.contains ":-" name = false ->
  PyStr.partition ":-" (name ++ ":-" ++ default) = Some (name, default).
Proof.
  induction name as [|c name IH]; [reflexivity|].
  intros H. apply contains_cons in H as [Hd Hc].
  change (String c name ++ ":-" ++ default)
    with (String c (name ++ ":-" ++ default)).
  cbn [PyStr.partition]. rewrite (IH Hc).
  assert (PyStr.drop_prefix ":-" (String c (name ++ ":-" ++ default)) = None)
    as ->; [|reflexivity].
  simpl in *. destruct (Ascii.eqb ":" c); [|reflexivity].
  destruct name as [|d name].
  - reflexivity.
  - change (String d name ++ ":-" ++ default)
      with (String d (name ++ ":-" ++ default)). simpl.
    destruct (Ascii.eqb "-" d); [discriminate|reflexivity].
Qed.

(** Where no match starts, the scan copies a character and goes on. *)
Lemma match_var_none s :
  (forall expr rest,
     s = "${" ++ expr ++ "}" ++ rest ->
     PyStr.truthy expr = true -> PyStr.has_char "}" expr = true) ->
  match_var s = None.
Proof.
  intros H. destruct (match_var s) as [[expr rest]|] eqn:E; [|reflexivity].
  apply match_var_sound in E as (Hs & Ht & Hc).
  rewrite (H expr rest Hs Ht) in Hc. discriminate.
Qed.

Lemma expand_env_vars_skip env c text :
  match_var (String c text) = None ->
  expand_env_vars env (String c text) = String c (expand_env_vars env text).
Proof. intros H. unfold expand_env_vars. simpl re_sub. now rewrite H. Qed.

(** C5: expansion replaces [${FOO}] by the value of [FOO], or by the empty
    string when [FOO] is undefined; replaces [${FOO:-bar}] by the value of
    [FOO] when it is defined and by [bar] otherwise; and copies the text
    outside these forms. A form is [${], a non-empty expression without
    [}], and [}]. The result is fixed for every text: the empty text
    expands to itself; a text that starts with a form expands to the
    replacement of the expression followed by the expansion of the rest;
    any other text keeps its first character, followed by the expansion
    of the rest. So a text that holds no form at all is returned as it
    is, also when it holds [${] or [}]. *)
Theorem C5_expand_env_vars (env : PyDict.t string) :
  (forall name,
     PyStr.contains ":-" name = false ->
     replace_var env name =
       match PyDict.get name env with Some v => v | None => "" end)
  /\ (forall name default,
        PyStr.contains ":-" name = false ->
        replace_var env (name ++ ":-" ++ default) =
          match PyDict.get name env with Some v => v | None => default end)
  /\ expand_env_vars env "" = ""
  /\ (forall expr rest,
        PyStr.truthy expr = true -> PyStr.has_char "}" expr = false ->
        expand_env_vars env ("${" ++ expr ++ "}" ++ rest)
        = replace_var env expr ++ expand_env_vars env rest)
  /\ (forall c text,
        (forall expr rest,
           String c text = "${" ++ expr ++ "}" ++ rest ->
           PyStr.truthy expr = true -> PyStr.has_char "}" expr = true) ->
        expand_env_vars env (String c text)
        = String c (expand_env_vars env text))
  /\ (forall text,
        (forall pre expr rest,
           text = pre ++ "${" ++ expr ++ "}" ++ rest ->
           PyStr.truthy expr = true -> PyStr.has_char "}" expr = true) ->
        expand_env_vars env text = text)
  /\ (forall text,
        PyStr.contains "${" text = false -> expand_env_vars env text = text)
  /\ (forall pre expr post,
        PyStr.contains "${" pre = false ->
        PyStr.truthy expr = true -> PyStr.has_char "}" expr = false ->
        expand_env_vars env (pre ++ "${" ++ expr ++ "}" ++ post)
        = pre ++ replace_var env expr ++ expand_env_vars env post).
Proof.
  split; [|split; [|split; [|split; [|split; [|split; [|split]]]]]].
  - intros name H. unfold replace_var. now rewrite H.
  - intros name default H. unfold replace_var, PyStr.contains.
    now rewrite (partition_default name default H).
  - reflexivity.
  - intros expr rest Ht Hc. unfold expand_env_vars.
    now apply (re_sub_prefix (replace_var env) expr rest "").
  - intros c text H. now apply expand_env_vars_skip, match_var_none.
  - induction text as [|c text IH]; intros H; [reflexivity|].
    rewrite expand_env_vars_skip.
    + f_equal. apply IH. intros pre expr rest -> Ht.
      now apply (H (String c pre) expr rest).
    + apply match_var_none. intros expr rest Hs.
      now apply (H "" expr rest).
  - intros text H. now apply re_sub_plain.
  - intros pre expr post Hpre Ht Hc. unfold expand_env_vars.
    now apply re_sub_prefix.
Qed.

(** A text with an empty pair of braces before a form, and a text whose
    [${] is never closed. *)
Lemma C5_expand_env_vars_witness :
  expand_env_vars [("FOO", "baz")] "${}${FOO}" = "${}baz"
  /\ expand_env_vars [("FOO", "baz")] "a${b" = "a${b".
Proof.
  destruct (C5_expand_env_vars [("FOO", "baz")])
    as (Hname & _ & Hempty & Hform & Hskip & Hnone & _ & _).
  split.
  - rewrite (Hskip "$"%char "{}${FOO}").
    + rewrite (Hskip "{"%char "}${FOO}") by (intros expr rest H; discriminate H).
      rewrite (Hskip "}"%char "${FOO}") by (intros expr rest H; discriminate H).
      change "${FOO}" with ("${" ++ "FOO" ++ "}" ++ "").
      rewrite (Hform "FOO" "" eq_refl eq_refl), Hempty, (Hname "FOO" eq_refl).
      reflexivity.
    + intros expr rest H Ht. destruct expr as [|c expr]; [discriminate Ht|].
      injection H as <- _. reflexivity.
  - apply Hnone. intros pre expr rest H Ht. exfalso.
    assert (PyStr.has_char "}" "a${b" = false) as Hno by reflexivity.
    rewrite H in Hno. rewrite !PyStrFacts.has_char_app in Hno.
    change ("}" ++ rest) with (String "}" rest) in Hno.
    cbn [PyStr.has_char] in Hno. rewrite Ascii.eqb_refl in Hno.
    rewrite !orb_true_r in Hno. discriminate Hno.
Defined.

(** The three cases of the specification, and text left verbatim. *)
Example expand_env_vars_examples :
  expand_env_vars [] "${FOO}" = ""
  /\ expand_env_vars [] "${FOO:-bar}" = "bar"
  /\ expand_env_vars [("FOO", "baz")] "${FOO:-bar}" = "baz"
  /\ expand_env_vars [("FOO", "baz")] "${FOO}" = "baz"
  /\ expand_env_vars [("FOO", "baz")] "$FOO/${}/x${FOO}y" = "$FOO/${}/xbazy".
Proof. repeat split. Qed.

(* ================================================================== *)
(** ** Path resolution *)
(* ================================================================== *)

Lemma normpath_truthy p : PyStr.truthy (PosixPath.normpath p) = true.
Proof.
  unfold PosixPath.normpath. destruct (negb (PyStr.truthy p)); [reflexivity|].
  destruct (PyStr.truthy (_ ++ _)) eqn:E; [exact E|reflexivity].
Qed.

Lemma fold_volumes env (ss : list (string * service_config)) : forall acc,
  fold_left (add_service_volumes env) ss acc
  = fold_left (add_volume env)
      (flat_map (fun service => match service_volumes (snd service) with
                                | Some vs => vs
                                | None => []
                                end) ss) acc.
Proof.
  induction ss as [|sv ss IH]; intros acc; simpl; [reflexivity|].
  rewrite IH, fold_left_app. unfold add_service_volumes.
  now destruct (service_volumes (snd sv)).
Qed.

Lemma add_volume_wf env vols v : PyDict.wf vols -> PyDict.wf (add_volume env vols v).
Proof.
  intros H. destruct v as [spec|]; simpl; [|assumption].
  destruct (PyStr.contains ":" spec); [|assumption].
  destruct (PyStr.partition ":" spec) as [[a b]|]; [|assumption].
  now apply PyDictFacts.wf_set.
Qed.

Lemma fold_add_volume_wf env vs : forall vols,
  PyDict.wf vols -> PyDict.wf (fold_left (add_volume env) vs vols).
Proof.
  induction vs as [|v vs IH]; intros vols H; simpl; [assumption|].
  now apply IH, add_volume_wf.
Qed.

(** An entry that binds another container path leaves the binding of [key]
    as it is. *)
Lemma add_volume_other env vols v key :
  bound_path v <> Some key ->
  PyDict.get key (add_volume env vols v) = PyDict.get key vols.
Proof.
  intros H. destruct v as [spec|]; simpl in *; [|reflexivity].
  destruct (PyStr.contains ":" spec); [|reflexivity].
  destruct (PyStr.partition ":" spec) as [[a b]|]; [|reflexivity].
  apply PyDictFacts.get_set_other. congruence.
Qed.

Lemma fold_add_volume_other env key vs : forall vols,
  (forall v, In v vs -> bound_path v <> Some key) ->
  PyDict.get key (fold_left (add_volume env) vs vols) = PyDict.get key vols.
Proof.
  induction vs as [|v vs IH]; intros vols H; simpl; [reflexivity|].
  rewrite IH by (intros; apply H; now right).
  apply add_volume_other, H. now left.
Qed.

Lemma add_volume_binding env vols host_path container_path :
  PyStr.has_char ":" host_path = false ->
  add_volume env vols (VolumeStr (host_path ++ ":" ++ container_path))
  = PyDict.set container_path (expand_env_vars env host_path) vols.
Proof.
  intros H. unfold add_volume, PyStr.contains.
  change (":" ++ container_path) with (String ":" container_path).
  now rewrite PyStrFacts.partition_char.
Qed.

(** The scan of [get_backup_paths] finds the binding of [/data]. *)
Lemma scan_upload cwd volumes : forall found,
  PyDict.wf volumes ->
  fst (fold_left (scan_volume cwd) volumes found)
  = match PyDict.get "/data" volumes with
    | Some host_path => Some (PosixPath.abspath cwd host_path)
    | None => fst found
    end.
Proof.
  induction volumes as [|[k v] volumes IH]; intros found Hwf; [reflexivity|].
  inversion Hwf as [|? ? Hnin Hnd]; subst.
  cbn [fold_left]. rewrite IH by assumption.
  cbn [PyDict.get].
  rewrite (String.eqb_sym "/data" k).
  unfold scan_volume.
  destruct (String.eqb k "/data") eqn:E.
  - apply String.eqb_eq in E. subst k.
    apply PyDictFacts.get_none_keys in Hnin. now rewrite Hnin.
  - destruct (PyDict.get "/data" volumes); [reflexivity|].
    now destruct (String.eqb k "/var/lib/postgresql/data").
Qed.

Lemma get_backup_paths_reports h self volumes s :
  parse_docker_compose h self = Ok volumes ->
  reported_upload_location (get_backup_paths h self s)
  = Some (fst (resolve_locations (getcwd h) (env_vars self) volumes)).
Proof.
  intros H. unfold reported_upload_location, get_backup_paths.
  rewrite H. run_monad.
  now destruct (resolve_locations (getcwd h) (env_vars self) volumes).
Qed.

(** C4, amended: with a topology volume entry [host:/data] whose host part
    holds no colon (the last entry that the parser reads as a binding of
    [/data]), path resolution reports the absolute form of the expanded
    host path of that entry whatever [UPLOAD_LOCATION] says; the configured
    [UPLOAD_LOCATION] (or its default [./library]) is reported when no
    entry is read as a binding of [/data], and so when no entry ends in
    [:/data]. The parser reads an entry as a binding of the text after its
    first colon. *)
Theorem C4_topology_binding_overrides_configuration
    (h : host) (self : tool) (doc : compose_data) (s : state) :
  load_compose h (compose_file self) = ComposeParsed doc ->
  (forall before host_path after,
     all_volumes doc
       = (before ++ VolumeStr (host_path ++ ":/data") :: after)%list ->
     PyStr.has_char ":" host_path = false ->
     (forall v, In v after -> bound_path v <> Some "/data") ->
     reported_upload_location (get_backup_paths h self s)
     = Some (PosixPath.abspath (getcwd h)
               (expand_env_vars (env_vars self) host_path)))
  /\ ((forall v, In v (all_volumes doc) -> bound_path v <> Some "/data") ->
      reported_upload_location (get_backup_paths h self s)
      = Some (PosixPath.abspath (getcwd h)
                (get_env_var (env_vars self) "UPLOAD_LOCATION" "./library")))
  /\ ((forall spec, In (VolumeStr spec) (all_volumes doc) ->
                    PyStr.endswith spec ":/data" = false) ->
      reported_upload_location (get_backup_paths h self s)
      = Some (PosixPath.abspath (getcwd h)
                (get_env_var (env_vars self) "UPLOAD_LOCATION" "./library"))).
Proof.
  intros Hdoc.
  assert (parse_docker_compose h self
          = Ok (fold_left (add_volume (env_vars self)) (all_volumes doc)
                  PyDict.empty)) as Hparse.
  { unfold parse_docker_compose. rewrite Hdoc. f_equal. apply fold_volumes. }
  assert (PyDict.wf (fold_left (add_volume (env_vars self)) (all_volumes doc)
                       PyDict.empty)) as Hwf
    by (apply fold_add_volume_wf, PyDictFacts.wf_empty).
  assert ((forall v, In v (all_volumes doc) -> bound_path v <> Some "/data") ->
          reported_upload_location (get_backup_paths h self s)
          = Some (PosixPath.abspath (getcwd h)
                    (get_env_var (env_vars self) "UPLOAD_LOCATION" "./library")))
    as Hfallback.
  { intros Hnone.
    rewrite (get_backup_paths_reports _ _ _ _ Hparse). f_equal.
    unfold resolve_locations, PyDict.items. cbn [fst].
    rewrite scan_upload by exact Hwf.
    rewrite fold_add_volume_other by exact Hnone. reflexivity. }
  split; [|split].
  - intros before host_path after Hall Hhost Hafter.
    rewrite (get_backup_paths_reports _ _ _ _ Hparse). f_equal.
    unfold resolve_locations, PyDict.items. cbn [fst].
    rewrite scan_upload by exact Hwf.
    rewrite Hall, fold_left_app. cbn [fold_left].
    rewrite fold_add_volume_other by exact Hafter.
    change (":/data") with (":" ++ "/data").
    rewrite add_volume_binding by exact Hhost.
    rewrite PyDictFacts.get_set_same. unfold or_else, PosixPath.abspath.
    now rewrite normpath_truthy.
  - exact Hfallback.
  - intros Hends. apply Hfallback. intros [spec|] Hin; [|discriminate].
    unfold bound_path.
    destruct (PyStr.partition ":" spec) as [[a b]|] eqn:Ep; [|discriminate].
    intros [= ->]. apply PyStrFacts.partition_sound in Ep. subst spec.
    specialize (Hends _ Hin).
    change (a ++ ":" ++ "/data") with (a ++ ":/data") in Hends.
    now rewrite PyStrFacts.endswith_app in Hends.
Qed.

(** C4 as stated fails for a binding of [/data] with an access mode: the
    volume [/mnt/photos:/data:ro] is cut at its first colon, which makes it
    a binding of [/data:ro], and path resolution reports the configured
    [UPLOAD_LOCATION] instead of the host path of the binding. *)
Lemma C4_binding_with_access_mode_counterexample :
  let h := Cases.read_only_machine in
  all_volumes Cases.read_only_topology = [VolumeStr "/mnt/photos:/data:ro"]
  /\ get_env_var (env_vars Demo.self) "UPLOAD_LOCATION" "./library" = "/data/lib"
  /\ parse_docker_compose h Demo.self = Ok [("/data:ro", "/mnt/photos")]
  /\ reported_upload_location (get_backup_paths h Demo.self Demo.boot)
     = Some "/data/lib"
  /\ reported_upload_location (get_backup_paths h Demo.self Demo.boot)
     <> Some "/mnt/photos".
Proof.
  intros h. repeat split; try reflexivity.
  vm_compute. discriminate.
Qed.

(** The end-to-end scenario: [UPLOAD_LOCATION=/data/lib] in the environment
    file and the volume [/data/lib:/data] on the main service. *)
Lemma C4_topology_binding_overrides_configuration_witness :
  get_env_var (env_vars Demo.self) "UPLOAD_LOCATION" "./library" = "/data/lib"
  /\ reported_upload_location
       (get_backup_paths (Demo.machine 0 (Demo.always 200)) Demo.self Demo.boot)
     = Some "/data/lib".
Proof.
  split; [reflexivity|].
  destruct (C4_topology_binding_overrides_configuration
              (Demo.machine 0 (Demo.always 200)) Demo.self Demo.topology
              Demo.boot eq_refl) as [Hbinding _].
  apply (Hbinding [] "/data/lib"
           [VolumeStr "/etc/localtime:/etc/localtime:ro";
            VolumeStr "${DB_DATA_LOCATION:-./postgres}:/var/lib/postgresql/data"]).
  - reflexivity.
  - reflexivity.
  - intros v [<-|[<-|[]]]; vm_compute; discriminate.
Defined.

(** The binding wins over a different configured location, and the
    configured location is used when nothing binds [/data]. *)
Example resolve_locations_examples :
  fst (resolve_locations "/srv/immich" [("UPLOAD_LOCATION", "/mnt/photos")]
         [("/data", "./library"); ("/etc/localtime", "/etc/localtime")])
    = "/srv/immich/library"
  /\ fst (resolve_locations "/srv/immich" [("UPLOAD_LOCATION", "/mnt/photos")]
            [("/etc/localtime", "/etc/localtime")])
     = "/mnt/photos"
  /\ fst (resolve_locations "/srv/immich" []
            [("/etc/localtime", "/etc/localtime")])
     = "/srv/immich/library".
Proof. repeat split. Qed.

(* ================================================================== *)
(** ** Restore: archives and directories without a manifest *)
(* ================================================================== *)

#[local] Arguments lookup : simpl never.
#[local] Arguments exists_in : simpl never.
#[local] Arguments isdir_in : simpl never.
#[local] Arguments isfile_in : simpl never.
#[local] Arguments locate : simpl never.
#[local] Arguments PosixPath.join : simpl never.
#[local] Arguments PosixPath.basename : simpl never.
#[local] Arguments PosixPath.abspath : simpl never.
#[local] Arguments FS.walk : simpl never.
#[local] Arguments FS.put : simpl never.
#[local] Arguments FS.mkdirs : simpl never.
#[local] Arguments FS.remove : simpl never.
#[local] Arguments FS.merge : simpl never.
#[local] Arguments FS.strip_prefix : simpl never.
#[local] Arguments PyStr.startswith : simpl never.
#[local] Arguments PyStr.endswith : simpl never.
#[local] Arguments host_order : simpl never.

(** Runs the monad as far as the tree operations allow. *)
Ltac run :=
  repeat (progress
    (unfold bind, ret, raise, lift, get_state, print, sleep, emit, set_root,
       tick, path_exists, path_isfile, path_isdir, makedirs, rmtree, listdir,
       write_file, read_manifest, mkdtemp, tar_extractall; simpl)).

Lemma lookup_join h t a b :
  PyStr.truthy a = true -> PosixPath.simple_name b = true ->
  lookup h t (PosixPath.join a b) = FS.walk t (locate h a ++ [b])%list.
Proof.
  intros Ha Hb. unfold lookup, locate.
  rewrite PosixPathFacts.join_truthy by assumption.
  now rewrite PosixPathFacts.resolve_join.
Qed.

Lemma simple_prefixed c p suffix :
  Ascii.eqb c "." = false ->
  PyStr.has_char "/" (String c p) = false ->
  PyStr.has_char "/" suffix = false ->
  PosixPath.simple_name (String c p ++ suffix) = true.
Proof.
  intros Hc Hp Hs. unfold PosixPath.simple_name.
  rewrite PyStrFacts.has_char_app, Hp, Hs.
  change (String c p ++ suffix) with (String c (p ++ suffix)).
  simpl. unfold String.eqb; fold String.eqb. now rewrite Hc.
Qed.

Lemma extract_backup_invalid h archive_path s members :
  lookup h (root s) archive_path = Some (TarGz members) ->
  wf_members members ->
  tempdir_ready h (root s) "immich_restore_" ->
  lacks_manifest h (next_tempdir h (root s) "immich_restore_") members ->
  exists e new,
    extract_backup h archive_path s = (Raise e, update s (root s) new)
    /\ ErrorKind.InvalidArchive e
    /\ commands_of new = [].
Proof.
  intros Harch [Hwf Hnames] (Htmp & Hdir & Hsuffix & Hfresh) Hlacks.
  set (name := "immich_restore_" ++ mkdtemp_suffix h (root s)).
  assert (PosixPath.simple_name name = true) as Hname
    by (apply simple_prefixed; auto).
  unfold next_tempdir in Hfresh, Hlacks. fold name in Hfresh, Hlacks.
  set (d := PosixPath.join (gettempdir h) name) in *.
  assert (PyStr.truthy d = true) as Hd by now apply PosixPathFacts.join_truthy.
  assert (locate h d = (locate h (gettempdir h) ++ [name])%list) as Hloc
    by now apply PosixPathFacts.resolve_join.
  unfold isdir_in, lookup in Hdir. rewrite Htmp in Hdir.
  destruct (FS.walk (root s) (locate h (gettempdir h))) as [[| | |es]|] eqn:Hw;
    try discriminate.
  destruct (FSFacts.put_child name (Dir []) _ _ _ Hw) as [t1 Ht1].
  destruct (FSFacts.put_child name (Dir members) _ _ _ Hw) as [t2 Ht2].
  rewrite <- Hloc in Ht1, Ht2.
  assert (FS.walk (root s) (locate h d) = None) as Hnone.
  { unfold exists_in, lookup in Hfresh. rewrite Hd in Hfresh.
    now destruct (FS.walk (root s) (locate h d)). }
  destruct s as [r0 tr0 tk0 rq0]. simpl in *.
  assert (exists_in h r0 archive_path = true) as Hex
    by (unfold exists_in; now rewrite Harch).
  unfold extract_backup. run. rewrite Hex. simpl.
  fold name. fold d. rewrite Hfresh, Ht1. simpl.
  assert (lookup h t1 archive_path = Some (TarGz members)) as Harch1.
  { unfold lookup in *. destruct (PyStr.truthy archive_path); [|discriminate].
    eapply FSFacts.walk_put_fresh_file; eauto. }
  rewrite Harch1.
  assert (FS.walk t1 (locate h d) = Some (Dir [])) as Hw1
    by (eapply FSFacts.put_walk_same; eauto).
  rewrite (FSFacts.mkdirs_existing _ _ _ Hw1), Hw1.
  rewrite FSFacts.merge_into_empty by assumption.
  rewrite (FSFacts.put_put _ _ _ _ _ Ht1), Ht2. simpl.
  assert (FS.walk t2 (locate h d) = Some (Dir members)) as Hw2
    by (eapply FSFacts.put_walk_same; eauto).
  unfold lookup at 1. rewrite Hd, Hw2. simpl.
  assert (FS.remove (locate h d) t2 = r0) as Hback.
  { apply (FSFacts.remove_put_fresh (Dir members)); auto.
    rewrite Hloc. intros E. now apply app_eq_nil in E as [_ E]. }
  assert (lookup h t2 d = Some (Dir members)) as Hl2
    by (unfold lookup; now rewrite Hd).
  unfold lacks_manifest, backup_entries in Hlacks.
  destruct (filter _ (host_order _ (PyDict.keys members)))
    as [|first rest] eqn:Ef.
  - simpl. rewrite Hl2, Hback.
    exists (RuntimeError "Invalid backup archive: no backup directory found").
    eexists [_]. unfold update. simpl. repeat split. now left.
  - assert (PosixPath.simple_name first = true) as Hfirst.
    { rewrite Forall_forall in Hnames. apply Hnames.
      assert (In first (first :: rest)) as Hin by now left.
      rewrite <- Ef in Hin. apply filter_In in Hin as [Hin _].
      now apply host_order_in in Hin. }
    assert (exists_in h t2
              (PosixPath.join (PosixPath.join d first) "backup_manifest.json")
            = false) as Hno.
    { unfold exists_in.
      rewrite lookup_join;
        [|now apply PosixPathFacts.join_truthy|reflexivity].
      unfold locate. rewrite PosixPathFacts.resolve_join by assumption.
      fold (locate h d). rewrite <- app_assoc, FSFacts.walk_app, Hw2.
      simpl app. now rewrite Hlacks. }
    simpl. rewrite Hno. simpl. rewrite Hl2, Hback.
    exists (RuntimeError "Invalid backup archive: manifest file not found").
    eexists [_]. unfold update. simpl. repeat split. now right.
Qed.

(** C3: [restore] rejects an archive whose content has no top-level backup
    directory, or no manifest in the backup directory it picks, with one
    of the two "Invalid backup archive" errors, and a directory without
    manifest with the "Invalid backup" error. The backup directory picked
    is the first [immich_backup_*] entry in the order in which the host
    lists the extraction directory, so with one such entry it is that
    entry on every host. In both cases nothing but a line is printed: no
    command is run, and the directory tree is the one before the call, so
    the extraction directory is gone and no restore step has started. *)
Theorem C3_restore_rejects_backup_without_manifest
    (h : host) (self : tool) (backup_location : string) (s : state) :
  (forall members,
     lookup h (root s) backup_location = Some (TarGz members) ->
     PyStr.endswith backup_location ".tar.gz" = true ->
     wf_members members ->
     tempdir_ready h (root s) "immich_restore_" ->
     lacks_manifest h (next_tempdir h (root s) "immich_restore_") members ->
     exists e new,
       restore h self backup_location s = (Raise e, update s (root s) new)
       /\ ErrorKind.InvalidArchive e
       /\ commands_of new = []
       /\ exists_in h (root s) (next_tempdir h (root s) "immich_restore_")
          = false)
  /\ (isdir_in h (root s) backup_location = true ->
      exists_in h (root s)
        (PosixPath.join backup_location "backup_manifest.json") = false ->
      exists new,
        restore h self backup_location s
        = (Raise ErrorKind.InvalidBackup, update s (root s) new)
        /\ commands_of new = []).
Proof.
  split.
  - intros members Harch Hsuffix Hwf Htmp Hlacks.
    assert (isfile_in h (root s) backup_location = true) as Hfile
      by (unfold isfile_in; now rewrite Harch).
    set (s1 := update s (root s)
                 [Print ("Starting Immich restore from archive: "
                         ++ backup_location)]).
    destruct (extract_backup_invalid h backup_location s1 members)
      as (e & new & Hex & He & Hnew); try assumption.
    unfold restore. run. rewrite Hfile, Hsuffix. simpl.
    change (extract_backup h backup_location _)
      with (extract_backup h backup_location s1).
    rewrite Hex. simpl.
    exists e. eexists (_ :: new). unfold update. simpl.
    rewrite <- app_assoc. simpl.
    repeat split; try assumption. apply Htmp.
  - intros Hdir Hno.
    assert (isfile_in h (root s) backup_location = false) as Hfile.
    { unfold isfile_in, isdir_in in *.
      destruct (lookup h (root s) backup_location); [|reflexivity].
      now rewrite Hdir. }
    unfold restore. run. rewrite Hfile, Hdir. simpl. rewrite Hno. simpl.
    eexists [_]. unfold update. simpl. split; reflexivity.
Qed.

(** An archive that is no backup, a directory without manifest, and an
    archive with two backup directories on a host that lists the empty
    one first. *)
Lemma C3_restore_rejects_backup_without_manifest_witness :
  let h := Demo.machine 0 (Demo.always 200) in
  (exists new,
     restore h Demo.self "/backups/photos.tar.gz" Demo.stray_boot
     = (Raise (RuntimeError "Invalid backup archive: no backup directory found"),
        update Demo.stray_boot Demo.stray_disk new)
     /\ commands_of new = [])
  /\ (exists new,
        restore h Demo.self "/data/lib" Demo.stray_boot
        = (Raise ErrorKind.InvalidBackup,
           update Demo.stray_boot Demo.stray_disk new)
        /\ commands_of new = [])
  /\ (exists new,
        restore Cases.b_first Demo.self "/backups/twin.tar.gz" Cases.twin_boot
        = (Raise (RuntimeError
                    "Invalid backup archive: manifest file not found"),
           update Cases.twin_boot Cases.twin_disk new)
        /\ commands_of new = []).
Proof.
  intros h.
  destruct (C3_restore_rejects_backup_without_manifest
              h Demo.self "/backups/photos.tar.gz" Demo.stray_boot)
    as [Harchive _].
  destruct (C3_restore_rejects_backup_without_manifest
              h Demo.self "/data/lib" Demo.stray_boot)
    as [_ Hdirectory].
  destruct (C3_restore_rejects_backup_without_manifest
              Cases.b_first Demo.self "/backups/twin.tar.gz" Cases.twin_boot)
    as [Htwin _].
  split; [|split].
  - destruct (Harchive [("photos", Dir [("a.jpg", Blob "jpeg")])])
      as (e & new & Hrun & He & Hnew & _).
    + reflexivity.
    + reflexivity.
    + split.
      * unfold PyDict.wf. simpl. repeat constructor. intros [].
      * repeat constructor.
    + repeat split.
    + exact I.
    + exists new. split; [|exact Hnew].
      rewrite Hrun. f_equal.
      assert (fst (restore h Demo.self "/backups/photos.tar.gz" Demo.stray_boot)
              = Raise e) as Hfst by now rewrite Hrun.
      vm_compute in Hfst. now injection Hfst as <-.
  - apply Hdirectory; reflexivity.
  - destruct (Htwin
                [("immich_backup_a",
                  Dir [("backup_manifest.json", ManifestFile Demo.bare_manifest);
                       ("immich_db_backup_20231231_080000.sql.gz", Blob "sql");
                       ("filesystem",
                        Dir [("upload_location", Cases.archived_upload)])]);
                 ("immich_backup_b", Dir [])])
      as (e & new & Hrun & He & Hnew & _).
    + reflexivity.
    + reflexivity.
    + split.
      * unfold PyDict.wf. simpl.
        repeat constructor; simpl; intuition discriminate.
      * repeat constructor.
    + repeat split.
    + vm_compute. reflexivity.
    + exists new. split; [|exact Hnew].
      rewrite Hrun. f_equal.
      assert (fst (restore Cases.b_first Demo.self "/backups/twin.tar.gz"
                     Cases.twin_boot) = Raise e) as Hfst by now rewrite Hrun.
      vm_compute in Hfst. now injection Hfst as <-.
Defined.

(** The same archive is accepted by a host that lists its entries as they
    are stored: which of several backup directories counts depends on the
    host. *)
Example twin_archive_in_stored_order :
  backup_entries (Demo.machine 0 (Demo.always 200)) "/tmp/immich_restore_k3x9"
    [("immich_backup_a", Dir []); ("immich_backup_b", Dir [])]
  = ["immich_backup_a"; "immich_backup_b"]
  /\ backup_entries Cases.b_first "/tmp/immich_restore_k3x9"
       [("immich_backup_a", Dir []); ("immich_backup_b", Dir [])]
     = ["immich_backup_b"; "immich_backup_a"].
Proof. split; reflexivity. Qed.

(* ================================================================== *)
(** ** Restore: where a run stops *)
(* ================================================================== *)

(** A missing upload subtree in a whole restore from a directory: once the database step
    has returned, the missing subtree ends the run with that error, only a
    line is printed after the database step, and the directory tree is the
    one the database step left. *)
Lemma restore_stops_at_missing_subtree h self backup_dir m s s1 :
  isdir_in h (root s) backup_dir = true ->
  exists_in h (root s) (PosixPath.join backup_dir "backup_manifest.json") = true ->
  restore_database h self backup_dir
    (update s (root s)
       [Print ("Starting Immich restore from directory: " ++ backup_dir)])
  = (Ok tt, s1) ->
  lookup h (root s1) (PosixPath.join backup_dir "backup_manifest.json")
    = Some (ManifestFile m) ->
  exists_in h (root s1) (upload_backup_of backup_dir m) = false ->
  exists new,
    restore h self backup_dir s
    = (Raise (FileNotFoundError
                ("Filesystem backup not found: " ++ upload_backup_of backup_dir m)),
       update s1 (root s1) new)
    /\ commands_of new = [].
Proof.
  intros Hdir Hmanifest Hdb Hm Habsent.
  assert (isfile_in h (root s) backup_dir = false) as Hfile.
  { unfold isfile_in, isdir_in in *.
    destruct (lookup h (root s) backup_dir); [|reflexivity].
    now rewrite Hdir. }
  pose proof (restore_filesystem_checks_first h self backup_dir m s1 Hm Habsent)
    as Hstep.
  unfold restore. run. rewrite Hfile, Hdir. simpl. rewrite Hmanifest. simpl.
  unfold try_finally, try_except, restore_steps, restore_cleanup.
  unfold bind at 1.
  change (restore_database h self backup_dir _)
    with (restore_database h self backup_dir
            (update s (root s)
               [Print ("Starting Immich restore from directory: "
                       ++ backup_dir)])).
  rewrite Hdb. unfold bind at 1. rewrite Hstep. simpl.
  eexists [_]. unfold update. simpl. split; reflexivity.
Qed.

(* ================================================================== *)
(** ** Backup: the archive round trip *)
(* ================================================================== *)

#[local] Arguments dump_command : simpl never.

Ltac run_in H :=
  repeat (progress
    (unfold bind, ret, raise, lift, get_state, print, sleep, emit, set_root,
       tick, path_exists, path_isfile, path_isdir, makedirs, rmtree, listdir,
       write_file, read_manifest, mkdtemp, tar_extractall in H; simpl in H)).

(** Inversion of a successful sequence. *)
Lemma bind_ok {A B} (m : M A) (f : A -> M B) s b s' :
  bind m f s = (Ok b, s') ->
  exists a s1, m s = (Ok a, s1) /\ f a s1 = (Ok b, s').
Proof.
  unfold bind. destruct (m s) as [[a|e] s1]; [eauto|discriminate].
Qed.

(** A database dump that returns has left its file in the directory. *)
Lemma create_database_backup_ok h self backup_dir s file s1 :
  host_sane h self ->
  create_database_backup h self backup_dir s = (Ok file, s1) ->
  exists n,
    file = PosixPath.join backup_dir
             ("immich_db_backup_" ++ strftime_now h n ++ ".sql.gz")
    /\ isfile_in h (root s1) file = true.
Proof.
  intros Hsane H. exists (ticks s).
  unfold create_database_backup, run_command, subprocess_run in H.
  run_in H.
  match type of H with
  | context [returncode ?r] => destruct (Z.eqb (returncode r) 0) eqn:Erc
  end; simpl in H; [|discriminate].
  injection H as <- <-. split; [reflexivity|]. simpl.
  apply (dump_redirected h self Hsane). now apply Z.eqb_eq.
Qed.

Lemma backup_filesystem_ok h backup_dir paths s fs_backup_dir s1 :
  PyStr.truthy backup_dir = true ->
  backup_filesystem h backup_dir paths s = (Ok fs_backup_dir, s1) ->
  fs_backup_dir = PosixPath.join backup_dir "filesystem"
  /\ (exists es, FS.walk (root s1) (locate h backup_dir ++ ["filesystem"])%list
                 = Some (Dir es))
  /\ (forall name x,
        String.eqb "filesystem" name = false ->
        FS.walk (root s) (locate h backup_dir ++ [name])%list = Some x ->
        is_dir x = false ->
        FS.walk (root s1) (locate h backup_dir ++ [name])%list = Some x).
Proof.
  intros Hdir H. unfold backup_filesystem, copytree in H. run_in H.
  set (fsdir := PosixPath.join backup_dir "filesystem") in *.
  set (dst := PosixPath.join fsdir "upload_location") in *.
  assert (PyStr.truthy fsdir = true) as Hfs
    by now apply PosixPathFacts.join_truthy.
  assert (locate h fsdir = (locate h backup_dir ++ ["filesystem"])%list) as Lfs
    by now apply PosixPathFacts.resolve_join.
  assert (locate h dst = (locate h fsdir ++ ["upload_location"])%list) as Ldst
    by now apply PosixPathFacts.resolve_join.
  rewrite Hfs in H. simpl in H.
  destruct (FS.mkdirs (locate h fsdir) (root s)) as [t|] eqn:Em1;
    simpl in H; [|discriminate].
  destruct (lookup h t (upload_location paths)) as [[| | |es]|];
    simpl in H; try discriminate.
  destruct (FS.mkdirs (locate h dst) t) as [t0|] eqn:Em2;
    simpl in H; [|discriminate].
  destruct (FS.walk t0 (locate h dst)) as [old|] eqn:Ew;
    simpl in H; [|discriminate].
  destruct (FS.put (locate h dst) (FS.merge (Dir es) old) t0) as [t'|] eqn:Ep;
    simpl in H; [|discriminate].
  injection H as <- <-. cbn [root]. split; [reflexivity|]. split.
  - apply FSFacts.put_walk_same in Ep. rewrite Ldst, Lfs in Ep.
    rewrite <- Lfs in Ep.
    destruct (FSFacts.walk_prefix_dir _ _ _ _ Ep) as [es' Hes'];
      [discriminate|].
    rewrite <- Lfs. eauto.
  - intros name x Hname Hw Hx.
    rewrite <- (FSFacts.mkdirs_keeps_file x _ _ _ _ Em2
                  (FSFacts.mkdirs_keeps_file x _ _ _ _ Em1 Hw Hx) Hx).
    apply (FSFacts.walk_put_other _ _ _ _ _ Ep).
    + rewrite Ldst, Lfs, <- app_assoc, FSFacts.strip_prefix_common.
      simpl app. now rewrite FSFacts.strip_prefix_cons, Hname.
    + rewrite Ldst, Lfs, <- app_assoc, FSFacts.strip_prefix_common.
      simpl app. now rewrite FSFacts.strip_prefix_cons, String.eqb_sym, Hname.
Qed.

Lemma create_backup_manifest_ok h self backup_dir db_file fs_dir paths s f s1 :
  PyStr.truthy backup_dir = true ->
  create_backup_manifest h self backup_dir db_file fs_dir paths s = (Ok f, s1) ->
  exists m,
    m_database_backup m = PosixPath.basename db_file
    /\ m_filesystem_backup m = PosixPath.basename fs_dir
    /\ FS.walk (root s1) (locate h backup_dir ++ ["backup_manifest.json"])%list
       = Some (ManifestFile m)
    /\ (forall name,
          String.eqb "backup_manifest.json" name = false ->
          FS.walk (root s1) (locate h backup_dir ++ [name])%list
          = FS.walk (root s) (locate h backup_dir ++ [name])%list).
Proof.
  intros Hdir H. unfold create_backup_manifest in H. run_in H.
  set (mf := PosixPath.join backup_dir "backup_manifest.json") in *.
  assert (locate h mf = (locate h backup_dir ++ ["backup_manifest.json"])%list)
    as Lmf by now apply PosixPathFacts.resolve_join.
  destruct (negb (PyStr.truthy mf)); simpl in H; [discriminate|].
  destruct (isdir_in h (root s) mf); simpl in H; [discriminate|].
  match type of H with
  | context [FS.put _ (ManifestFile ?m) _] => set (doc := m) in *
  end.
  destruct (FS.put (locate h mf) (ManifestFile doc) (root s)) as [t|] eqn:Ep;
    simpl in H; [|discriminate].
  injection H as <- <-. cbn [root]. exists doc.
  split; [reflexivity|]. split; [reflexivity|]. split.
  - rewrite <- Lmf. eapply FSFacts.put_walk_same; eauto.
  - intros name Hname. apply (FSFacts.walk_put_other _ _ _ _ _ Ep);
      rewrite Lmf, FSFacts.strip_prefix_common, FSFacts.strip_prefix_cons.
    + now rewrite Hname.
    + now rewrite String.eqb_sym, Hname.
Qed.

Lemma tar_create_ok h archive src arcname s s1 :
  PyStr.truthy src = true ->
  FS.strip_prefix (locate h src) (locate h archive) = None ->
  tar_create h archive src arcname s = (Ok tt, s1) ->
  exists t,
    FS.walk (root s) (locate h src) = Some t
    /\ FS.walk (root s1) (locate h archive) = Some (TarGz [(arcname, t)])
    /\ PyStr.truthy archive = true.
Proof.
  intros Hsrc Hout H. unfold tar_create in H. run_in H.
  destruct (PyStr.truthy archive) eqn:Harch; simpl in H; [|discriminate].
  destruct (isdir_in h (root s) archive); simpl in H; [discriminate|].
  destruct (FS.put (locate h archive) (TarGz []) (root s)) as [r8|] eqn:Ep1;
    simpl in H; [|discriminate].
  unfold lookup in H. rewrite Hsrc, Hout in H.
  destruct (FS.walk r8 (locate h src)) as [t|] eqn:Ew; simpl in H;
    [|discriminate].
  destruct (isdir_in h r8 archive); simpl in H; [discriminate|].
  destruct (FS.put (locate h archive) (TarGz [(arcname, t)]) r8) as [r9|] eqn:Ep2;
    simpl in H; [|discriminate].
  injection H as <-. cbn [root]. exists t. split; [|split].
  - rewrite <- Ew. symmetry.
    apply (FSFacts.walk_put_other _ _ _ _ _ Ep1); [|exact Hout].
    destruct (FS.strip_prefix (locate h archive) (locate h src)) as [r|] eqn:E;
      [|reflexivity].
    apply FSFacts.strip_prefix_sound in E.
    rewrite E, FSFacts.walk_app, (FSFacts.put_walk_same _ _ _ _ Ep1) in Ew.
    destruct r as [|n r]; [|discriminate].
    rewrite app_nil_r in E. rewrite E in Hout.
    rewrite <- (app_nil_r (locate h archive)) in Hout at 2.
    rewrite FSFacts.strip_prefix_app in Hout. discriminate.
  - eapply FSFacts.put_walk_same; eauto.
  - reflexivity.
Qed.

Lemma backup_cleanup_ok h self temp stopped s s1 x p :
  host_sane h self ->
  backup_cleanup h temp stopped s = (Ok tt, s1) ->
  FS.walk (root s) p = Some x -> is_dir x = false ->
  FS.strip_prefix (locate h temp) p = None ->
  FS.walk (root s1) p = Some x.
Proof.
  intros Hsane H Hw Hx Hout. unfold backup_cleanup in H.
  apply bind_ok in H as (u & s0 & Hstart & H).
  assert (root s0 = root s) as Hroot.
  { destruct stopped as [[|c cs]|]; try (injection Hstart as _ <-; reflexivity).
    unfold run_command, subprocess_run in Hstart. run_in Hstart.
    match type of Hstart with
    | context [returncode ?r] => destruct (Z.eqb (returncode r) 0)
    end; simpl in Hstart; [|discriminate].
    injection Hstart as _ <-. cbn [root].
    match goal with
    | |- root_after (shell h ?cmd ?st) = _ =>
        exact (start_harmless h self Hsane cmd st
                 (PyStrFacts.startswith_app "docker start " _))
    end. }
  clear Hstart. destruct s0 as [r0 tr0 tk0 rq0]. simpl in Hroot. subst r0.
  run_in H.
  destruct (exists_in h (root s) temp); simpl in H.
  - destruct (lookup h (root s) temp) as [[| | |es]|]; simpl in H;
      try discriminate.
    injection H as <-. cbn [root]. now apply FSFacts.walk_remove_file.
  - injection H as <-. exact Hw.
Qed.

(** Extraction of an archive that holds one backup directory with a
    manifest. *)
Lemma extract_backup_valid h archive_path s name content :
  lookup h (root s) archive_path = Some (TarGz [(name, content)]) ->
  PosixPath.simple_name name = true ->
  PyStr.startswith name "immich_backup_" = true ->
  FS.walk content ["backup_manifest.json"] <> None ->
  tempdir_ready h (root s) "immich_restore_" ->
  exists t2 new,
    extract_backup h archive_path s
    = (Ok (PosixPath.join (next_tempdir h (root s) "immich_restore_") name,
           next_tempdir h (root s) "immich_restore_"),
       update s t2 new)
    /\ FS.walk t2 (locate h (next_tempdir h (root s) "immich_restore_"))
       = Some (Dir [(name, content)])
    /\ PyStr.truthy (next_tempdir h (root s) "immich_restore_") = true.
Proof.
  intros Harch Hname Hstarts Hmanifest (Htmp & Hdir & Hsuffix & Hfresh).
  unfold next_tempdir in *.
  set (tmpname := "immich_restore_" ++ mkdtemp_suffix h (root s)) in *.
  assert (PosixPath.simple_name tmpname = true) as Htmpname
    by (apply simple_prefixed; auto).
  set (d := PosixPath.join (gettempdir h) tmpname) in *.
  assert (PyStr.truthy d = true) as Hd by now apply PosixPathFacts.join_truthy.
  assert (locate h d = (locate h (gettempdir h) ++ [tmpname])%list) as Hloc
    by now apply PosixPathFacts.resolve_join.
  unfold isdir_in, lookup in Hdir. rewrite Htmp in Hdir.
  destruct (FS.walk (root s) (locate h (gettempdir h))) as [[| | |es]|] eqn:Hw;
    try discriminate.
  destruct (FSFacts.put_child tmpname (Dir []) _ _ _ Hw) as [t1 Ht1].
  destruct (FSFacts.put_child tmpname (Dir [(name, content)]) _ _ _ Hw)
    as [t2 Ht2].
  rewrite <- Hloc in Ht1, Ht2.
  assert (FS.walk (root s) (locate h d) = None) as Hnone.
  { unfold exists_in, lookup in Hfresh. rewrite Hd in Hfresh.
    now destruct (FS.walk (root s) (locate h d)). }
  assert (exists_in h (root s) archive_path = true) as Hex
    by (unfold exists_in; now rewrite Harch).
  assert (lookup h t1 archive_path = Some (TarGz [(name, content)])) as Harch1.
  { unfold lookup in *. destruct (PyStr.truthy archive_path); [|discriminate].
    eapply FSFacts.walk_put_fresh_file; eauto. }
  assert (FS.walk t1 (locate h d) = Some (Dir [])) as Hw1
    by (eapply FSFacts.put_walk_same; eauto).
  assert (FS.walk t2 (locate h d) = Some (Dir [(name, content)])) as Hw2
    by (eapply FSFacts.put_walk_same; eauto).
  assert (PyDict.wf [(name, content)]) as Hwf.
  { unfold PyDict.wf. simpl. constructor; [intros []|constructor]. }
  assert (exists_in h t2
            (PosixPath.join (PosixPath.join d name) "backup_manifest.json")
          = true) as Hyes.
  { unfold exists_in.
    rewrite lookup_join; [|now apply PosixPathFacts.join_truthy|reflexivity].
    unfold locate. rewrite PosixPathFacts.resolve_join by assumption.
    fold (locate h d). rewrite <- app_assoc, FSFacts.walk_app, Hw2.
    simpl app. rewrite FSFacts.walk_cons. cbn [PyDict.get].
    rewrite String.eqb_refl.
    destruct (FS.walk content ["backup_manifest.json"]); congruence. }
  exists t2. eexists [_].
  destruct s as [r0 tr0 tk0 rq0]. simpl in *.
  unfold extract_backup. run. rewrite Hex. simpl.
  fold tmpname. fold d. rewrite Hfresh, Ht1. simpl.
  rewrite Harch1.
  rewrite (FSFacts.mkdirs_existing _ _ _ Hw1), Hw1.
  rewrite FSFacts.merge_into_empty by assumption.
  rewrite (FSFacts.put_put _ _ _ _ _ Ht1), Ht2. simpl.
  unfold lookup at 1. rewrite Hd, Hw2. simpl.
  unfold PyDict.keys, host_order. simpl. rewrite Hstarts. simpl.
  rewrite Hyes. simpl. unfold update. simpl. auto.
Qed.

Lemma check_docker_compose_ticks h self s r s1 :
  check_docker_compose h self s = (r, s1) -> ticks s1 = ticks s.
Proof.
  unfold check_docker_compose, subprocess_run.
  destruct (negb (compose_exists h self)); run.
  - now intros [= _ <-].
  - destruct (negb _); simpl; now intros [= _ <-].
Qed.

Lemma get_backup_paths_ticks h self s r s1 :
  get_backup_paths h self s = (r, s1) -> ticks s1 = ticks s.
Proof.
  unfold get_backup_paths.
  destruct (parse_docker_compose h self) as [volumes|e].
  - unfold lift, bind at 1.
    destruct (resolve_locations (getcwd h) (env_vars self) volumes).
    run. now intros [= _ <-].
  - run. now intros [= _ <-].
Qed.

Lemma try_finally_local_ok {L A} (first : M L) (body : L -> M A)
    (fin : option L -> M unit) s (b : A) s' :
  try_finally_local first body fin s = (Ok b, s') ->
  exists l s1 s2,
    first s = (Ok l, s1) /\ body l s1 = (Ok b, s2)
    /\ fin (Some l) s2 = (Ok tt, s').
Proof.
  unfold try_finally_local, try_finally, raise.
  destruct (first s) as [[l|e] s1].
  - destruct (body l s1) as [r s2] eqn:Eb.
    destruct (fin (Some l) s2) as [[[]|e] s3] eqn:Ef; [|discriminate].
    intros [= -> ->]. exists l, s1, s2. auto.
  - destruct (fin None s1) as [[u|e'] s3]; discriminate.
Qed.

(** Steps that leave the tree and the clock as they are. *)
Lemma print_ok line s u s1 :
  print line s = (Ok u, s1) -> root s1 = root s /\ ticks s1 = ticks s.
Proof. now intros [= _ <-]. Qed.

(** C2, amended: after a backup that completed, with its archive outside
    the temporary working directory, extracting the archive gives exactly
    one top-level entry, a backup directory that holds a manifest, and the
    database-dump name and the file-system member name recorded in that
    manifest are entries of that directory. *)
Theorem C2_backup_round_trip
    (h : host) (self : tool) (backup_location : string) (s s' : state) :
  host_sane h self ->
  backup h self backup_location s = (Ok tt, s') ->
  FS.strip_prefix (locate h (temp_backup_dir_of h s))
    (locate h (archive_path_of h backup_location s)) = None ->
  tempdir_ready h (root s') "immich_restore_" ->
  round_trip h (archive_path_of h backup_location s) s'.
Proof.
  intros Hsane H Hout Hready. unfold round_trip.
  unfold backup in H.
  apply bind_ok in H as (u1 & sa & H1 & H). apply print_ok in H1 as [_ Ta].
  apply bind_ok in H as (u2 & sb & H2 & H).
  apply check_docker_compose_ticks in H2.
  apply bind_ok in H as (paths & sc & H3 & H).
  apply get_backup_paths_ticks in H3.
  apply bind_ok in H as (n & sd & H4 & H).
  assert (n = ticks s) as -> by (injection H4 as <- _; congruence).
  clear H4 u1 u2 sa sb sc Ta H2 H3.
  cbv zeta in H.
  unfold temp_backup_dir_of, archive_path_of in *.
  set (stamp := strftime_now h (ticks s)) in *.
  set (temp := PosixPath.join (gettempdir h) ("immich_backup_" ++ stamp)) in *.
  set (archive := PosixPath.join backup_location
                    ("immich_backup_" ++ stamp ++ ".tar.gz")) in *.
  apply bind_ok in H as (u1 & sa & _ & H).
  apply bind_ok in H as (u2 & sb & _ & H).
  apply bind_ok in H as (u3 & sc & _ & H).
  apply bind_ok in H as (u4 & se & _ & H).
  apply try_finally_local_ok in H as (stopped & sf & s2 & _ & Hbody & Hfin).
  apply bind_ok in Hbody as (u5 & sg & _ & Hbody).
  apply bind_ok in Hbody as (db_file & sh & Hdump & Hbody).
  apply bind_ok in Hbody as (fs_dir & si & Hcopy & Hbody).
  apply bind_ok in Hbody as (mfile & sj & Hman & Hbody).
  apply bind_ok in Hbody as (u6 & sk & Hp1 & Hbody).
  apply bind_ok in Hbody as (u7 & sl & Htar & Hp2).
  apply print_ok in Hp1 as [Rk _]. apply print_ok in Hp2 as [R2 _].
  destruct u7.
  clear u1 u2 u3 u4 u5 u6 sa sb sc sd se sf.
  (* the names involved *)
  assert (PyStr.truthy temp = true) as Htemp
    by (apply PosixPathFacts.join_truthy, (tempdir_named h self Hsane)).
  assert (PosixPath.simple_name ("immich_backup_" ++ stamp) = true) as Hname
    by (apply simple_prefixed; try reflexivity; apply (stamps_plain h self Hsane)).
  assert (PosixPath.basename temp = "immich_backup_" ++ stamp) as Hbase
    by (apply PosixPathFacts.basename_join;
        [apply (tempdir_named h self Hsane)|exact Hname]).
  set (T := locate h temp) in *.
  (* the dump *)
  destruct (create_database_backup_ok _ _ _ _ _ _ Hsane Hdump)
    as (n & -> & Hfile).
  set (dbname := "immich_db_backup_" ++ strftime_now h n ++ ".sql.gz") in *.
  assert (PosixPath.simple_name dbname = true) as Hdb.
  { apply simple_prefixed; try reflexivity.
    rewrite PyStrFacts.has_char_app, (stamps_plain h self Hsane). reflexivity. }
  unfold isfile_in in Hfile. rewrite lookup_join in Hfile by assumption.
  fold T in Hfile.
  destruct (FS.walk (root sh) (T ++ [dbname])%list) as [x|] eqn:Hx;
    [|discriminate].
  apply negb_true_iff in Hfile.
  (* the copy of the upload tree *)
  destruct (backup_filesystem_ok _ _ _ _ _ _ Htemp Hcopy)
    as (-> & [es Hfs] & Hkeep).
  fold T in Hfs, Hkeep.
  specialize (Hkeep dbname x eq_refl Hx Hfile).
  (* the manifest *)
  destruct (create_backup_manifest_ok _ _ _ _ _ _ _ _ _ Htemp Hman)
    as (m & Hmdb & Hmfs & Hm & Hframe).
  fold T in Hm, Hframe.
  rewrite PosixPathFacts.basename_join in Hmdb by assumption.
  rewrite PosixPathFacts.basename_join in Hmfs by (assumption || reflexivity).
  pose proof (Hframe dbname eq_refl) as Hdbj. rewrite Hkeep in Hdbj.
  pose proof (Hframe "filesystem" eq_refl) as Hfsj. rewrite Hfs in Hfsj.
  (* the archive *)
  destruct (tar_create_ok _ _ _ _ _ _ Htemp Hout Htar)
    as (content & Hcontent & Harchive & Harchive_named).
  fold T in Hcontent. rewrite Rk in Hcontent.
  rewrite FSFacts.walk_app, Hcontent in Hm, Hdbj, Hfsj.
  rewrite Hbase in Harchive. rewrite <- R2 in Harchive.
  (* the cleanup *)
  pose proof (backup_cleanup_ok _ _ _ _ _ _ _ _ Hsane Hfin Harchive eq_refl Hout)
    as Hkept.
  (* the extraction *)
  destruct (extract_backup_valid h archive s' ("immich_backup_" ++ stamp) content)
    as (t2 & new & Hextract & Hdir & Hd); try assumption.
  { unfold lookup. now rewrite Harchive_named. }
  { apply PyStrFacts.startswith_app. }
  { now rewrite Hm. }
  set (d := next_tempdir h (root s') "immich_restore_") in *.
  assert (forall entry,
            PosixPath.simple_name entry = true ->
            lookup h t2 (PosixPath.join
                           (PosixPath.join d ("immich_backup_" ++ stamp)) entry)
            = FS.walk content [entry]) as Hinside.
  { intros entry Hentry.
    rewrite lookup_join;
      [|now apply PosixPathFacts.join_truthy|assumption].
    unfold locate at 1. rewrite PosixPathFacts.resolve_join by assumption.
    fold (locate h d). rewrite <- app_assoc, FSFacts.walk_app, Hdir.
    simpl app. rewrite FSFacts.walk_cons. cbn [PyDict.get].
    now rewrite String.eqb_refl. }
  exists ("immich_backup_" ++ stamp), content, m, (update s' t2 new).
  cbv zeta. cbn [root update].
  split; [exact Hextract|]. split; [|split; [|split; [|split]]].
  - unfold lookup. now rewrite Hd.
  - unfold isdir_in.
    rewrite lookup_join by assumption.
    rewrite FSFacts.walk_app, Hdir, FSFacts.walk_cons. cbn [PyDict.get].
    rewrite String.eqb_refl.
    destruct content; try discriminate Hm. reflexivity.
  - rewrite Hinside by reflexivity. exact Hm.
  - unfold exists_in. rewrite Hmdb, Hinside by assumption. now rewrite Hdbj.
  - unfold exists_in. rewrite Hmfs, Hinside by reflexivity. now rewrite Hfsj.
Qed.

(** *** The demo host meets the assumptions *)

Lemma chop_quote file : Demo.chop (file ++ "'") = file.
Proof.
  induction file as [|c file IH]; [reflexivity|].
  change (String c file ++ "'") with (String c (file ++ "'")).
  simpl. rewrite IH. destruct file; reflexivity.
Qed.

Lemma demo_redirect_target file :
  Demo.redirect_target (dump_command "postgres" file) = Some file.
Proof.
  unfold Demo.redirect_target.
  assert (PyStr.partition "gzip > '" (dump_command "postgres" file)
          = Some ("docker exec -t immich_postgres pg_dumpall --clean --if-exists --username=postgres | ",
                  file ++ "'")) as -> by (vm_compute; reflexivity).
  now rewrite chop_quote.
Qed.

Lemma demo_sane answers : host_sane (Demo.machine 0 answers) Demo.self.
Proof.
  constructor.
  - reflexivity.
  - reflexivity.
  - intros file s.
    change (get_env_var (env_vars Demo.self) "DB_USERNAME" "postgres")
      with "postgres".
    cbv zeta. cbn [shell Demo.machine]. unfold Demo.sh.
    assert (PyStr.startswith (dump_command "postgres" file) "docker ps -a"
            = false) as -> by (vm_compute; reflexivity).
    assert (PyStr.startswith (dump_command "postgres" file)
              "docker exec -t immich_postgres pg_dumpall" = true) as ->
      by (vm_compute; reflexivity).
    rewrite demo_redirect_target.
    destruct (FS.walk (root s) (PosixPath.resolve "/srv/immich" file))
      as [[| | |]|];
      destruct (FS.put (PosixPath.resolve "/srv/immich" file) (Blob "sql")
                  (root s)) as [t|] eqn:Ep;
      try (simpl; discriminate);
      (destruct (PyStr.truthy file) eqn:Ef; [|simpl; discriminate]);
      intros _; cbn [root_after];
      unfold isfile_in, lookup; rewrite Ef;
      change (locate (Demo.machine 0 answers) file)
        with (PosixPath.resolve "/srv/immich" file);
      now rewrite (FSFacts.put_walk_same _ _ _ _ Ep).
  - intros command s Hstart.
    unfold PyStr.startswith in Hstart.
    destruct (PyStr.drop_prefix "docker start " command) as [r|] eqn:E;
      [|discriminate].
    apply PyStrFacts.drop_prefix_sound in E. subst command.
    cbn [shell Demo.machine]. unfold Demo.sh.
    assert (PyStr.startswith ("docker start " ++ r) "docker ps -a" = false)
      as -> by (vm_compute; reflexivity).
    assert (PyStr.startswith ("docker start " ++ r)
              "docker exec -t immich_postgres pg_dumpall" = false) as ->
      by (vm_compute; reflexivity).
    now destruct (PyStr.startswith _ _).
Qed.

(** C2 as stated fails when the destination is the temporary working
    directory of the run: the backup completes, and the clean-up removes
    the archive it has just written, so that nothing is left to extract. *)
Lemma C2_backup_into_temp_dir_counterexample :
  let h := Demo.machine 0 (Demo.always 200) in
  let out := backup h Demo.self Demo.temp_dir Demo.boot in
  host_sane h Demo.self
  /\ fst out = Ok tt
  /\ tempdir_ready h (root (snd out)) "immich_restore_"
  /\ exists_in h (root (snd out)) (archive_path_of h Demo.temp_dir Demo.boot)
     = false
  /\ ~ round_trip h (archive_path_of h Demo.temp_dir Demo.boot) (snd out).
Proof.
  intros h out. split; [apply demo_sane|].
  split; [vm_compute; reflexivity|].
  split; [repeat split; vm_compute; reflexivity|].
  split; [vm_compute; reflexivity|].
  intros (name & content & m & s'' & Hex & _).
  apply (f_equal fst) in Hex. vm_compute in Hex. discriminate.
Qed.

Lemma C2_backup_round_trip_witness :
  let h := Demo.machine 0 (Demo.always 200) in
  round_trip h (archive_path_of h "/backups" Demo.boot)
    (snd (backup h Demo.self "/backups" Demo.boot)).
Proof.
  intros h.
  apply (C2_backup_round_trip h Demo.self "/backups" Demo.boot).
  - apply demo_sane.
  - vm_compute. reflexivity.
  - vm_compute. reflexivity.
  - repeat split; vm_compute; reflexivity.
Defined.

(* ================================================================== *)
(** ** Restore: the database step *)
(* ================================================================== *)

#[local] Arguments restore_command : simpl never.

Lemma never_try_except (e : exn) {A} (body : M A)
    (handler : exn -> option (M A)) :
  never_raises e body ->
  (forall e' k, e' <> e -> handler e' = Some k -> never_raises e k) ->
  never_raises e (try_except body handler).
Proof.
  intros Hb Hh s. unfold try_except. specialize (Hb s).
  destruct (body s) as [[a|e'] s1]; simpl in *; [discriminate|].
  assert (e' <> e) as Hne by (intros ->; now apply Hb).
  destruct (handler e') as [k|] eqn:Ek.
  - now apply (Hh e' k).
  - simpl. intros [= ->]. now apply Hne.
Qed.

Lemma never_for_each (e : exn) {A} (f : A -> M unit) (l : list A) :
  (forall x, never_raises e (f x)) -> never_raises e (for_each f l).
Proof.
  intros Hf. induction l as [|x l IH]; simpl.
  - apply never_ret.
  - apply never_bind; [apply Hf|intros _; apply IH].
Qed.

(** No exception of class [Exception] leaves the probe. *)
Lemma http_probe_contained h s e :
  fst (http_probe h s) = Raise e -> is_Exception e = false.
Proof.
  unfold http_probe, try_except.
  destruct (if requests_importable h then _ else _) as [[u|e'] s1];
    [discriminate|].
  destruct e'; simpl; try discriminate. now intros [= <-].
Qed.

(** The [raise RuntimeError("Database restore failed")] of
    [restore_database] sits behind a [run_command] that has already raised
    when the pipeline failed. *)
Lemma restore_database_never_DatabaseRestoreFailed h self backup_dir :
  never_raises ErrorKind.DatabaseRestoreFailed
    (restore_database h self backup_dir).
Proof.
  unfold restore_database, ErrorKind.DatabaseRestoreFailed.
  apply never_bind; [unfold read_manifest; never_unfold; repeat never_step|].
  intros m. apply never_bind; [never_unfold; repeat never_step|].
  intros present. destruct (negb present); [apply never_raise; discriminate|].
  apply never_bind; [never_unfold; repeat never_step|]. intros _.
  apply never_bind.
  { intros s. unfold lift, get_container_names.
    destruct (load_compose h (compose_file self)); simpl; discriminate. }
  intros containers.
  do 7 (apply never_bind; [never_unfold; repeat never_step|intros ?]).
  intros s. unfold run_command, subprocess_run. run_monad.
  destruct (Z.eqb (returncode _) 0) eqn:E; simpl; discriminate.
Qed.

(** X1: no restore ends in the "Database restore failed" error: neither the
    database step nor a whole [restore], on any host and in any state. The
    [raise] that names it is unreachable, because the pipeline is run with
    [check=True]. *)
Theorem X1_restore_never_DatabaseRestoreFailed (h : host) (self : tool) :
  (forall backup_dir,
     never_raises ErrorKind.DatabaseRestoreFailed
       (restore_database h self backup_dir))
  /\ (forall backup_location,
        never_raises ErrorKind.DatabaseRestoreFailed
          (restore h self backup_location)).
Proof.
  split; [apply restore_database_never_DatabaseRestoreFailed|].
  intros backup_location. unfold restore.
  do 2 (apply never_bind;
        [never_unfold; unfold path_isfile, path_isdir; repeat never_step
        |intros ?]).
  apply never_bind.
  { unfold ErrorKind.DatabaseRestoreFailed, extract_backup, mkdtemp,
      tar_extractall, listdir. never_unfold. repeat never_step. }
  intros where_from. apply never_try_finally.
  - apply never_try_except.
    + unfold restore_steps. apply never_bind.
      { apply restore_database_never_DatabaseRestoreFailed. }
      intros _. unfold ErrorKind.DatabaseRestoreFailed. apply never_bind.
      { unfold restore_filesystem, read_manifest. never_unfold.
        repeat never_step. }
      intros _. apply never_bind; [|intros _; never_unfold; repeat never_step].
      unfold test_immich_health.
      do 4 (apply never_bind; [never_unfold; repeat never_step|intros ?]).
      apply never_bind.
      { apply never_for_each. intros c. unfold check_container.
        never_unfold. repeat never_step. }
      intros _ s H. apply http_probe_contained in H. discriminate.
    + intros e' k Hne. destruct (is_Exception e'); [|discriminate].
      intros [= <-]. apply never_bind; [never_unfold; repeat never_step|].
      intros _. now apply never_raise.
  - unfold restore_cleanup, ErrorKind.DatabaseRestoreFailed. never_unfold.
    repeat never_step.
Qed.

(** [restore_database] looks for the dump before it stops anything. *)
Lemma restore_database_checks_first h self backup_dir m s :
  lookup h (root s) (PosixPath.join backup_dir "backup_manifest.json")
    = Some (ManifestFile m) ->
  exists_in h (root s) (PosixPath.join backup_dir (m_database_backup m)) = false ->
  restore_database h self backup_dir s
  = (Raise (FileNotFoundError
              ("Database backup file not found: "
               ++ PosixPath.join backup_dir (m_database_backup m))), s).
Proof.
  intros Hm Hdump.
  unfold restore_database, read_manifest. run. rewrite Hm. simpl.
  rewrite Hdump. reflexivity.
Qed.

(** X2: when the dump file the manifest names is not in the backup
    directory, the database step raises "Database backup file not found"
    with the host exactly as it was: no service was stopped, no command
    run. A [restore] from that directory prints its two lines and raises
    the same error. *)
Theorem X2_restore_database_missing_dump
    (h : host) (self : tool) (backup_dir : string) (m : manifest) (s : state) :
  let dump := PosixPath.join backup_dir (m_database_backup m) in
  let error := FileNotFoundError ("Database backup file not found: " ++ dump) in
  lookup h (root s) (PosixPath.join backup_dir "backup_manifest.json")
    = Some (ManifestFile m) ->
  exists_in h (root s) dump = false ->
  restore_database h self backup_dir s = (Raise error, s)
  /\ (isdir_in h (root s) backup_dir = true ->
      restore h self backup_dir s
      = (Raise error,
         update s (root s)
           [Print ("Starting Immich restore from directory: " ++ backup_dir);
            Print ("Restore failed: Database backup file not found: " ++ dump)])).
Proof.
  intros dump error Hm Hdump.
  split; [now apply restore_database_checks_first|]. intros Hdir.
  assert (isfile_in h (root s) backup_dir = false) as Hfile.
  { unfold isfile_in, isdir_in in *.
    destruct (lookup h (root s) backup_dir); [|reflexivity].
    now rewrite Hdir. }
  assert (exists_in h (root s)
            (PosixPath.join backup_dir "backup_manifest.json") = true) as Hex
    by (unfold exists_in; now rewrite Hm).
  unfold restore. run. rewrite Hfile, Hdir. simpl. rewrite Hex. simpl.
  unfold try_finally, try_except, restore_steps, restore_cleanup.
  unfold bind at 1.
  change (restore_database h self backup_dir _)
    with (restore_database h self backup_dir
            (update s (root s)
               [Print ("Starting Immich restore from directory: "
                       ++ backup_dir)])).
  rewrite (restore_database_checks_first h self backup_dir m) by assumption.
  simpl. unfold update. simpl. rewrite <- app_assoc. reflexivity.
Qed.

Lemma X2_restore_database_missing_dump_witness :
  let h := Demo.machine 0 (Demo.always 200) in
  let error :=
    FileNotFoundError
      "Database backup file not found: /backups/old/immich_db_backup_20231231_080000.sql.gz" in
  restore_database h Demo.self "/backups/old" Cases.no_dump_boot
    = (Raise error, Cases.no_dump_boot)
  /\ restore h Demo.self "/backups/old" Cases.no_dump_boot
     = (Raise error,
        update Cases.no_dump_boot Cases.no_dump_disk
          [Print "Starting Immich restore from directory: /backups/old";
           Print "Restore failed: Database backup file not found: /backups/old/immich_db_backup_20231231_080000.sql.gz"]).
Proof.
  destruct (X2_restore_database_missing_dump
              (Demo.machine 0 (Demo.always 200)) Demo.self "/backups/old"
              Demo.bare_manifest Cases.no_dump_boot) as [Hdb Hrun].
  - vm_compute; reflexivity.
  - vm_compute; reflexivity.
  - split; [exact Hdb|]. apply Hrun. vm_compute; reflexivity.
Defined.

Lemma get_map_items {A B} (f : string * A -> B) (l : list (string * A)) k :
  PyDict.get k (map (fun x => (fst x, f x)) l)
  = match PyDict.get k l with
    | Some v => Some (f (k, v))
    | None => None
    end.
Proof.
  induction l as [|[k' v] l IH]; simpl; [reflexivity|].
  destruct (String.eqb k k') eqn:E; [|exact IH].
  apply String.eqb_eq in E. now subst.
Qed.

(** With one entry per service, the container map lists the services in
    topology order. *)
Lemma get_container_names_map h self doc :
  load_compose h (compose_file self) = ComposeParsed doc ->
  PyDict.wf (services_of doc) ->
  get_container_names h self
  = Ok (map (fun service => (fst service, container_of service))
          (services_of doc)).
Proof.
  intros Hdoc Hwf. unfold get_container_names. rewrite Hdoc. f_equal.
  unfold PyDict.items.
  now rewrite (PyDictFacts.fold_set_fresh fst container_of) by exact Hwf.
Qed.

(** X3: with the manifest and its dump in place, and on a host where
    [docker compose create], the start of the database container and the
    restore pipeline each have a fixed exit status, the database step does
    exactly this, in this order: it runs [docker compose down -v], whose
    exit status does not matter, then [docker compose create], then the
    start of the database container of the topology; it then sleeps ten
    seconds and runs the restore pipeline. Each of the last three commands
    ends the step with its [CalledProcessError] when it exits with another
    status than 0, and nothing follows it; the step returns, after its
    last line, when all three exit with status 0. *)
Theorem X3_restore_database_commands
    (h : host) (self : tool) (backup_dir : string) (m : manifest)
    (doc : compose_data) (rc_create rc_start rc : Z) (s : state) :
  let dump := PosixPath.join backup_dir (m_database_backup m) in
  let pipeline :=
    restore_command dump (get_env_var (env_vars self) "DB_USERNAME" "postgres") in
  let create := "docker compose create" in
  let start := "docker start " ++ postgres_container_of doc in
  lookup h (root s) (PosixPath.join backup_dir "backup_manifest.json")
    = Some (ManifestFile m) ->
  exists_in h (root s) dump = true ->
  load_compose h (compose_file self) = ComposeParsed doc ->
  PyDict.wf (services_of doc) ->
  (forall s0, returncode (shell h create s0) = rc_create) ->
  (forall s0, returncode (shell h start s0) = rc_start) ->
  (forall s0, returncode (shell h pipeline s0) = rc) ->
  fst (restore_database h self backup_dir s)
  = (if negb (Z.eqb rc_create 0) then Raise (CalledProcessError create rc_create)
     else if negb (Z.eqb rc_start 0) then Raise (CalledProcessError start rc_start)
     else if negb (Z.eqb rc 0) then Raise (CalledProcessError pipeline rc)
     else Ok tt)
  /\ trace (snd (restore_database h self backup_dir s))
     = (trace s
        ++ [Print "Stopping all Immich services...";
            Print "Executing: docker compose down -v";
            Exec "docker compose down -v";
            Print "Starting PostgreSQL container...";
            Print "Executing: docker compose create";
            Exec create]
        ++ (if negb (Z.eqb rc_create 0) then []
            else
              [Print ("Executing: " ++ start); Exec start]
              ++ (if negb (Z.eqb rc_start 0) then []
                  else
                    [Print "Waiting for PostgreSQL to start...";
                     Sleep 10;
                     Print ("Restoring database from: " ++ dump);
                     Print ("Executing: " ++ pipeline);
                     Exec pipeline]
                    ++ (if negb (Z.eqb rc 0) then []
                        else [Print "Database restored successfully"]))))%list.
Proof.
  intros dump pipeline create start Hm Hdump Hdoc Hwf Hcreate Hstart Hpipe.
  unfold restore_database, read_manifest, run_command, subprocess_run. run.
  rewrite Hm. simpl. fold dump. rewrite Hdump. simpl.
  rewrite (get_container_names_map h self doc Hdoc Hwf). simpl.
  rewrite get_map_items.
  replace (match match PyDict.get "database" (services_of doc) with
                 | Some v => Some (container_of ("database", v))
                 | None => None
                 end with
           | Some c => c
           | None => "immich_postgres"
           end) with (postgres_container_of doc)
    by (unfold postgres_container_of;
        now destruct (PyDict.get "database" (services_of doc))).
  fold create. fold start. rewrite Hcreate.
  destruct (negb (Z.eqb rc_create 0)); simpl;
    [split; [reflexivity|repeat rewrite <- app_assoc; reflexivity]|].
  rewrite Hstart.
  destruct (negb (Z.eqb rc_start 0)); simpl;
    [split; [reflexivity|repeat rewrite <- app_assoc; reflexivity]|].
  fold pipeline. rewrite Hpipe.
  destruct (Z.eqb rc 0); simpl;
    (split; [reflexivity|repeat rewrite <- app_assoc; reflexivity]).
Qed.

(** A deployment in which [docker compose down -v] fails: the database is
    restored all the same. *)
Lemma X3_restore_database_commands_witness :
  let h := Cases.machine Cases.down_fails (Demo.always 200) in
  let pipeline :=
    restore_command "/backups/old/immich_db_backup_20231231_080000.sql.gz"
      "postgres" in
  returncode (shell h "docker compose down -v" Cases.full_boot) = 1%Z
  /\ fst (restore_database h Demo.self "/backups/old" Cases.full_boot) = Ok tt
  /\ trace (snd (restore_database h Demo.self "/backups/old" Cases.full_boot))
     = [Print "Stopping all Immich services...";
        Print "Executing: docker compose down -v";
        Exec "docker compose down -v";
        Print "Starting PostgreSQL container...";
        Print "Executing: docker compose create";
        Exec "docker compose create";
        Print "Executing: docker start immich_postgres";
        Exec "docker start immich_postgres";
        Print "Waiting for PostgreSQL to start...";
        Sleep 10;
        Print "Restoring database from: /backups/old/immich_db_backup_20231231_080000.sql.gz";
        Print ("Executing: " ++ pipeline);
        Exec pipeline;
        Print "Database restored successfully"].
Proof.
  split; [reflexivity|].
  apply (X3_restore_database_commands
           (Cases.machine Cases.down_fails (Demo.always 200)) Demo.self
           "/backups/old" Demo.bare_manifest Demo.topology 0 0 0 Cases.full_boot).
  - vm_compute; reflexivity.
  - vm_compute; reflexivity.
  - reflexivity.
  - repeat constructor; simpl; intuition discriminate.
  - intros s0; reflexivity.
  - intros s0; reflexivity.
  - intros s0; reflexivity.
Defined.

(* ================================================================== *)
(** ** Backup: validation comes first *)
(* ================================================================== *)

(** X6: [backup] validates before it touches the host. Without a compose
    file it raises the not-found error after its first line. When the
    container listing does not name [immich_postgres], whatever its exit
    status, it raises "Immich containers not found"; when the compose file
    does not parse it raises "Failed to parse docker-compose.yml". In the
    last two cases the listing is the only command that ran: no directory
    was created and no container stopped. *)
Theorem X6_backup_validates_first
    (h : host) (self : tool) (backup_location : string) (s : state) :
  let s1 := update s (root s) [Print "Starting Immich backup process..."] in
  let ps := shell h listing s1 in
  let s2 := update s (root_after ps)
              [Print "Starting Immich backup process..."; Exec listing] in
  (load_compose h (compose_file self) = ComposeMissing ->
   backup h self backup_location s
   = (Raise (FileNotFoundError
               ("Docker compose file " ++ compose_file self ++ " not found")),
      s1))
  /\ (load_compose h (compose_file self) <> ComposeMissing ->
      PyStr.contains "immich_postgres" (stdout ps) = false ->
      backup h self backup_location s
      = (Raise (RuntimeError
                  "Immich containers not found. Please ensure Immich is deployed."),
         s2))
  /\ (forall yaml_error,
        load_compose h (compose_file self) = ComposeInvalid yaml_error ->
        PyStr.contains "immich_postgres" (stdout ps) = true ->
        backup h self backup_location s
        = (Raise (RuntimeError
                    ("Failed to parse docker-compose.yml: " ++ yaml_error)),
           s2)).
Proof.
  intros s1 ps s2. unfold backup, check_docker_compose, subprocess_run,
    compose_exists.
  split; [|split].
  - intros Hc. rewrite Hc. reflexivity.
  - intros Hc Hps. destruct (load_compose h (compose_file self)) eqn:E;
      [contradiction| |]; run; fold listing;
      change (shell h listing _) with ps; rewrite Hps; simpl;
      unfold s2, update; simpl; rewrite <- app_assoc; reflexivity.
  - intros err Hc Hps. rewrite Hc. run. fold listing.
    change (shell h listing _) with ps. rewrite Hps. simpl.
    unfold get_backup_paths, parse_docker_compose. rewrite Hc. run.
    unfold s2, update. simpl. rewrite <- app_assoc. reflexivity.
Qed.

(* ================================================================== *)
(** ** Backup: what was stopped is started again *)
(* ================================================================== *)

Lemma is_stop_stop x : is_stop (Exec ("docker stop " ++ x)) = true.
Proof. apply PyStrFacts.startswith_app. Qed.

Lemma quiet_restarted events : Forall quiet events -> restarted events.
Proof.
  intros Hq before x after ->. apply Forall_app in Hq as [_ Hq].
  inversion Hq as [|e l He _]; subst. unfold quiet in He.
  now rewrite is_stop_stop in He.
Qed.

Lemma restarted_after_quiet pre events :
  Forall quiet pre -> restarted events -> restarted (pre ++ events)%list.
Proof.
  induction pre as [|e pre IH]; intros Hq Hr; [exact Hr|].
  inversion Hq as [|? ? He Hq']; subst.
  intros before x after Heq. destruct before as [|b before]; simpl in Heq.
  - injection Heq as -> _. unfold quiet in He. now rewrite is_stop_stop in He.
  - injection Heq as _ Heq. now apply (IH Hq' Hr before x after).
Qed.

Lemma append_inj_l (p a b : string) : p ++ a = p ++ b -> a = b.
Proof.
  induction p as [|c p IH]; [auto|].
  change (String c p ++ a) with (String c (p ++ a)).
  change (String c p ++ b) with (String c (p ++ b)).
  intros [= H]. now apply IH.
Qed.

(** A stop, quiet events, then the start of the same containers. *)
Lemma restarted_stop_start j middle tail :
  Forall quiet middle -> Forall quiet tail ->
  restarted (Exec ("docker stop " ++ j) :: middle
             ++ Exec ("docker start " ++ j) :: tail)%list.
Proof.
  intros Hq Ht before x after Heq. destruct before as [|b before]; simpl in Heq.
  - injection Heq as Hx <-. apply append_inj_l in Hx. subst x.
    apply in_or_app. right. now left.
  - injection Heq as _ Heq. exfalso.
    assert (In (Exec ("docker stop " ++ x))
              (middle ++ Exec ("docker start " ++ j) :: tail)%list) as Hin
      by (rewrite Heq; apply in_or_app; right; now left).
    apply in_app_or in Hin as [Hin|[Hin|Hin]].
    + rewrite Forall_forall in Hq. specialize (Hq _ Hin). unfold quiet in Hq.
      now rewrite is_stop_stop in Hq.
    + assert (is_stop (Exec ("docker start " ++ j)) = true) as Hs
        by (rewrite Hin; apply is_stop_stop).
      discriminate Hs.
    + rewrite Forall_forall in Ht. specialize (Ht _ Hin). unfold quiet in Ht.
      now rewrite is_stop_stop in Ht.
Qed.

Lemma paired_quiet {A} (m : M A) : only quiet m -> paired m.
Proof.
  intros H s. destruct (H s) as (new & E & F). exists new.
  split; [exact E|now apply quiet_restarted].
Qed.

Lemma paired_bind {A B} (m : M A) (f : A -> M B) :
  only quiet m -> (forall a, paired (f a)) -> paired (bind m f).
Proof.
  intros Hm Hf s. unfold bind. destruct (Hm s) as (n1 & E1 & F1).
  destruct (m s) as [[a|e] s1]; simpl in *.
  - destruct (Hf a s1) as (n2 & E2 & R2). exists (n1 ++ n2)%list.
    rewrite E2, E1, app_assoc. split; [reflexivity|].
    now apply restarted_after_quiet.
  - exists n1. split; [exact E1|now apply quiet_restarted].
Qed.

Lemma try_finally_local_snd {L A} (first : M L) (body : L -> M A)
    (fin : option L -> M unit) s :
  snd (try_finally_local first body fin s)
  = match first s with
    | (Ok l, s1) => snd (fin (Some l) (snd (body l s1)))
    | (Raise e, s1) => snd (fin None s1)
    end.
Proof.
  unfold try_finally_local, try_finally, raise.
  destruct (first s) as [[l|e] s1].
  - destruct (body l s1) as [r s2]. simpl.
    now destruct (fin (Some l) s2) as [[u|e] s3].
  - now destruct (fin None s1) as [[u|e'] s3].
Qed.

Ltac quiet_step :=
  first
    [ apply only_ret | apply only_raise | apply only_get_state
    | apply only_set_root | apply only_lift | apply only_tick
    | apply only_print; reflexivity
    | apply only_makedirs | apply only_rmtree | apply only_copytree
    | apply only_write_file | apply only_tar_create | apply only_path_exists
    | apply only_bind; [|intro] ].

(** The steps of a backup after the stop: no further stop. *)
Lemma only_quiet_backup_steps h self temp archive paths :
  only quiet
    (db_backup_file <- create_database_backup h self temp ;;
     fs_backup_dir <- backup_filesystem h temp paths ;;
     create_backup_manifest h self temp db_backup_file fs_backup_dir paths ;;
     print "Creating compressed archive..." ;;
     tar_create h archive temp (PosixPath.basename temp) ;;
     print ("Backup completed successfully: " ++ archive)).
Proof.
  apply only_bind.
  { unfold create_database_backup.
    apply only_bind; [apply only_tick|intros n].
    apply only_bind; [apply only_print; reflexivity|intros _].
    apply only_bind.
    - apply only_run_command; reflexivity.
    - intros ok. destruct (negb (value_truthy ok)); repeat quiet_step. }
  intros f. apply only_bind; [unfold backup_filesystem; repeat quiet_step|].
  intros d. apply only_bind; [unfold create_backup_manifest; repeat quiet_step|].
  intros _. repeat quiet_step.
Qed.

(** The removal of the temporary directory is silent. *)
Lemma only_quiet_removal h temp :
  only quiet (present <- path_exists h temp ;;
              if present then rmtree h temp else ret tt).
Proof.
  apply only_bind; [apply only_path_exists|intros present].
  destruct present; repeat quiet_step.
Qed.

Lemma run_command_trace h command check capture s :
  trace (snd (run_command h command check capture s))
  = (trace s ++ [Print ("Executing: " ++ command); Exec command])%list.
Proof.
  unfold run_command, subprocess_run. run_monad.
  destruct (check && _); simpl; [|destruct capture; simpl];
    now rewrite <- app_assoc.
Qed.

(** A printed line, a command, and whatever quiet steps follow when the
    command succeeded. *)
Lemma announced_command_trace {A} h line command (rest : M A) s :
  only quiet rest ->
  exists tail,
    trace (snd (((print line ;; run_command h command true false ;; ret tt) ;;
                 rest) s))
    = (trace s ++ Print line :: Print ("Executing: " ++ command)
         :: Exec command :: tail)%list
    /\ Forall quiet tail.
Proof.
  intros Hrest. unfold bind at 1 2. unfold print at 1, emit at 1.
  set (s1 := {| root := root s; trace := (trace s ++ [Print line])%list;
                ticks := ticks s; requests := requests s |}).
  pose proof (run_command_trace h command true false s1) as Ht.
  unfold bind at 1.
  destruct (run_command h command true false s1) as [[v|e] s2];
    simpl in Ht; simpl.
  - destruct (Hrest s2) as (tail & E & F). exists tail.
    split; [|exact F]. rewrite E, Ht. unfold s1. simpl.
    now rewrite <- !app_assoc.
  - exists []. split; [|constructor]. rewrite Ht. unfold s1. simpl.
    now rewrite <- !app_assoc.
Qed.

(** X7: in every backup run, on any host and whatever the outcome, each
    [docker stop] of the run is followed by a [docker start] of the same
    containers: also when the stop itself, the dump or a later step
    failed. *)
Theorem X7_backup_restarts_what_it_stopped
    (h : host) (self : tool) (backup_location : string) (s : state) :
  exists new,
    trace (snd (backup h self backup_location s)) = (trace s ++ new)%list
    /\ forall before containers after,
         new = (before ++ Exec ("docker stop " ++ containers) :: after)%list ->
         In (Exec ("docker start " ++ containers)) after.
Proof.
  revert s. change (paired (backup h self backup_location)). unfold backup.
  apply paired_bind; [apply only_print; reflexivity|intros _].
  apply paired_bind.
  { unfold check_docker_compose.
    destruct (negb (compose_exists h self)); [apply only_raise|].
    apply only_bind; [apply only_subprocess_run; reflexivity|intros r].
    destruct (negb _); repeat quiet_step. }
  intros _. apply paired_bind.
  { unfold get_backup_paths.
    apply only_bind; [apply only_lift|intros volumes].
    destruct (resolve_locations _ _ _) as [upload db]. repeat quiet_step. }
  intros paths.
  apply paired_bind; [repeat quiet_step|intros n].
  do 4 (apply paired_bind; [repeat quiet_step|intros _]).
  set (temp := PosixPath.join (gettempdir h) _).
  set (archive := PosixPath.join backup_location _).
  intros s. rewrite try_finally_local_snd. unfold bind at 1, lift.
  destruct (get_container_names h self) as [containers|e]; [unfold ret at 1|].
  2:{ apply paired_quiet. unfold backup_cleanup.
      apply only_bind; [apply only_ret|intros _]. apply only_quiet_removal. }
  destruct (select_stop_containers containers) as [|c cs].
  - match goal with
    | |- context [backup_cleanup h ?temp (Some []) (snd (?body s))] =>
        assert (only quiet body) as Hb;
        [|assert (only quiet (backup_cleanup h temp (Some []))) as Hf]
    end.
    + apply only_bind; [apply only_ret|intros _].
      apply only_quiet_backup_steps.
    + unfold backup_cleanup.
      apply only_bind; [apply only_ret|intros _]. apply only_quiet_removal.
    + destruct (Hb s) as (n1 & E1 & F1).
      match goal with
      | |- context [snd (?body s)] =>
          destruct (Hf (snd (body s))) as (n2 & E2 & F2)
      end.
      exists (n1 ++ n2)%list. rewrite E2, E1, app_assoc.
      split; [reflexivity|]. apply quiet_restarted, Forall_app. auto.
  - set (j := PyStr.join " " (c :: cs)).
    match goal with
    | |- context [backup_cleanup h ?temp (Some (c :: cs)) (snd (?body s))] =>
        set (s3 := snd (body s));
        destruct (announced_command_trace h
                    ("Stopping Immich containers: " ++ j) ("docker stop " ++ j)
                    _ s (only_quiet_backup_steps h self temp archive paths))
          as (tail1 & E1 & F1);
        destruct (announced_command_trace h
                    ("Restarting Immich services: " ++ j) ("docker start " ++ j)
                    _ s3 (only_quiet_removal h temp))
          as (tail2 & E2 & F2)
    end.
    exists ([Print ("Stopping Immich containers: " ++ j);
             Print ("Executing: " ++ "docker stop " ++ j)]
            ++ Exec ("docker stop " ++ j)
               :: (tail1 ++ [Print ("Restarting Immich services: " ++ j);
                             Print ("Executing: " ++ "docker start " ++ j)])
               ++ Exec ("docker start " ++ j) :: tail2)%list.
    split.
    + unfold backup_cleanup. fold j. rewrite E2. unfold s3. fold j.
      rewrite E1. rewrite <- !app_assoc. reflexivity.
    + apply restarted_after_quiet; [repeat constructor|].
      apply restarted_stop_start; [|exact F2].
      apply Forall_app. split; [exact F1|repeat constructor].
Qed.

(* ================================================================== *)
(** ** Restore: the health test *)
(* ================================================================== *)

Lemma commands_of_app a b :
  commands_of (a ++ b)%list = (commands_of a ++ commands_of b)%list.
Proof. unfold commands_of. apply flat_map_app. Qed.

Lemma commands_of_none events : Forall no_command events -> commands_of events = [].
Proof.
  induction 1 as [|e l He _ IH]; [reflexivity|].
  simpl. rewrite IH. now destruct e.
Qed.

Lemma ping_once_raises h a m s e :
  fst (ping_once h a m s) = Raise e -> exists i, http_get h i = Failure e.
Proof.
  unfold ping_once, try_except, next_request. run_monad.
  destruct (http_get h (requests s)) as [code|e0] eqn:E; simpl.
  - destruct (Z.eqb code 200); discriminate.
  - destruct e0; simpl; try discriminate; intros [= <-]; eauto.
Qed.

Lemma ping_loop_raises h attempts m d : forall s e,
  fst (ping_loop h attempts m d s) = Raise e ->
  exists i, http_get h i = Failure e.
Proof.
  induction attempts as [|a rest IH]; intros s e; simpl.
  - discriminate.
  - unfold bind at 1.
    destruct (ping_once h a m s) as [[done|e0] s1] eqn:E.
    + destruct done; [discriminate|]. unfold bind at 1.
      destruct ((if (a <? m)%nat then _ else ret tt) s1) as [[u|e1] s2] eqn:E2.
      * apply IH.
      * destruct (a <? m)%nat; discriminate E2.
    + simpl. intros [= <-]. apply (ping_once_raises h a m s).
      now rewrite E.
Qed.

Lemma only_ping_loop h attempts m d :
  only no_command (ping_loop h attempts m d).
Proof.
  induction attempts as [|a rest IH]; simpl.
  - apply only_print. exact I.
  - apply only_bind.
    + unfold ping_once. apply only_try_except.
      * apply only_bind; [apply only_next_request|intros n].
        apply only_bind; [apply only_emit; exact I|intros _].
        destruct (http_get h n) as [code|e]; [|apply only_raise].
        destruct (Z.eqb code 200);
          (apply only_bind; [apply only_print; exact I|intros _; apply only_ret]).
      * intros e k. destruct e; try discriminate. intros [= <-].
        apply only_bind; [apply only_print; exact I|intros _; apply only_ret].
    + intros done. destruct done; [apply only_ret|].
      apply only_bind; [|intros _; exact IH].
      destruct (a <? m)%nat; [|apply only_ret].
      apply only_bind; [apply only_print; exact I|intros _].
      apply only_emit. exact I.
Qed.

Lemma only_http_probe h : only no_command (http_probe h).
Proof.
  unfold http_probe. apply only_try_except.
  - destruct (requests_importable h); [apply only_ping_loop|apply only_raise].
  - intros e k. destruct e; simpl; try discriminate; intros [= <-];
      apply only_print; exact I.
Qed.

(** When the network fails only with exceptions of class [Exception], the
    probe returns. *)
Lemma http_probe_returns h s :
  (forall n e, http_get h n = Failure e -> is_Exception e = true) ->
  fst (http_probe h s) = Ok tt.
Proof.
  intros Hnet. unfold http_probe, try_except.
  destruct (requests_importable h).
  - destruct (ping_loop h (seq 1 6) 6 10 s) as [[[]|e] s1] eqn:E;
      [reflexivity|].
    destruct (ping_loop_raises h (seq 1 6) 6 10 s e) as [i Hi];
      [now rewrite E|].
    specialize (Hnet i e Hi). destruct e; try discriminate; reflexivity.
  - reflexivity.
Qed.

Lemma check_container_ok h c s :
  (forall s0, returncode (shell h (status_command c) s0) = 0%Z) ->
  exists line,
    fst (check_container h c s) = Ok tt
    /\ trace (snd (check_container h c s))
       = (trace s ++ [Print ("Executing: " ++ status_command c);
                      Exec (status_command c); Print line])%list.
Proof.
  intros Hrc. unfold check_container, run_command, subprocess_run.
  fold (status_command c). run_monad. rewrite Hrc. simpl.
  destruct (negb (PyStr.contains "Up" _)); simpl; eexists;
    (split; [reflexivity|now rewrite <- !app_assoc]).
Qed.

Lemma for_each_check_container h l : forall s,
  (forall c s0, In c l -> returncode (shell h (status_command c) s0) = 0%Z) ->
  exists new,
    fst (for_each (check_container h) l s) = Ok tt
    /\ trace (snd (for_each (check_container h) l s)) = (trace s ++ new)%list
    /\ commands_of new = map status_command l
    /\ schedule new = [].
Proof.
  induction l as [|c l IH]; intros s Hrc; simpl.
  - exists []. rewrite app_nil_r. auto.
  - destruct (check_container_ok h c s) as (line & Hfst & Htr).
    { intros s0. apply Hrc. now left. }
    unfold bind.
    destruct (check_container h c s) as [[[]|e] s1]; simpl in *;
      [|discriminate].
    destruct (IH s1) as (new & Hf & Ht & Hc & Hs).
    { intros c0 s0 Hin. apply Hrc. now right. }
    eexists. split; [exact Hf|]. rewrite Ht, Htr, <- app_assoc.
    split; [reflexivity|]. rewrite commands_of_app, schedule_app, Hc, Hs.
    split; reflexivity.
Qed.

#[local] Arguments for_each : simpl never.

(** X13: the health test is advisory. As long as [docker compose up -d]
    and the four status queries exit with status 0, it returns, whatever
    the status lines say and whatever the API answers (short of an
    exception that is not of class [Exception]). It does this, in this
    order: it starts the services, sleeps thirty seconds, asks for the
    status of the four containers, one after the other and without a
    pause, and then probes the API, which runs no command. *)
Theorem X13_test_immich_health_is_advisory (h : host) (s : state) :
  (forall s0, returncode (shell h "docker compose up -d" s0) = 0%Z) ->
  (forall c s0, In c health_containers ->
                returncode (shell h (status_command c) s0) = 0%Z) ->
  (forall n e, http_get h n = Failure e -> is_Exception e = true) ->
  exists checks probe,
    fst (test_immich_health h s) = Ok tt
    /\ trace (snd (test_immich_health h s))
       = (trace s
          ++ [Print "Testing Immich health...";
              Print "Executing: docker compose up -d";
              Exec "docker compose up -d";
              Print "Waiting for services to start...";
              Sleep 30]
          ++ checks ++ probe)%list
    /\ commands_of checks = map status_command health_containers
    /\ schedule checks = []
    /\ Forall no_command probe.
Proof.
  intros Hup Hps Hnet.
  unfold test_immich_health. fold health_containers.
  unfold run_command, subprocess_run. run_monad. rewrite Hup. simpl.
  match goal with
  | |- context [for_each (check_container h) health_containers ?s1] =>
      destruct (for_each_check_container h health_containers s1 Hps)
        as (n1 & Hf & Ht & Hc & Hs);
      destruct (for_each (check_container h) health_containers s1)
        as [[[]|e] s2]; simpl in Hf, Ht; [|discriminate]
  end.
  pose proof (http_probe_returns h s2 Hnet) as Hprobe.
  destruct (only_http_probe h s2) as (n2 & Ht2 & F2).
  destruct (http_probe h s2) as [r s3]. simpl in *. subst r.
  exists n1, n2. split; [reflexivity|]. rewrite Ht2, Ht.
  split; [now rewrite <- !app_assoc|]. auto.
Qed.

(** Containers that have exited and an API that refuses connections. *)
Lemma X13_test_immich_health_is_advisory_witness :
  exists checks probe,
    fst (test_immich_health Cases.unhealthy Demo.boot) = Ok tt
    /\ trace (snd (test_immich_health Cases.unhealthy Demo.boot))
       = ([Print "Testing Immich health...";
           Print "Executing: docker compose up -d";
           Exec "docker compose up -d";
           Print "Waiting for services to start...";
           Sleep 30]
          ++ checks ++ probe)%list
    /\ commands_of checks = map status_command health_containers
    /\ schedule checks = []
    /\ Forall no_command probe.
Proof.
  apply (X13_test_immich_health_is_advisory Cases.unhealthy Demo.boot).
  - intros s0; reflexivity.
  - intros c s0 _; reflexivity.
  - intros n e [= <-]; reflexivity.
Defined.

(* ================================================================== *)
(** ** Restore: a file that is no archive *)
(* ================================================================== *)



(* ================================================================== *)
(** ** Configuration: the locations reported *)
(* ================================================================== *)

Lemma isabs_truthy p : PosixPath.isabs p = true -> PyStr.truthy p = true.
Proof. destruct p; [discriminate|reflexivity]. Qed.

Lemma normpath_isabs p :
  PosixPath.isabs p = true -> PosixPath.isabs (PosixPath.normpath p) = true.
Proof.
  intros H. unfold PosixPath.normpath. rewrite (isabs_truthy p H). simpl.
  unfold PosixPath.initial_slashes. unfold PosixPath.isabs in H. rewrite H.
  simpl.
  destruct (PyStr.startswith p "//" && negb (PyStr.startswith p "///"));
    reflexivity.
Qed.

Lemma anchored_isabs cwd p :
  PosixPath.isabs cwd = true -> PosixPath.isabs (PosixPath.anchored cwd p) = true.
Proof.
  intros H. unfold PosixPath.anchored.
  destruct (PosixPath.isabs p) eqn:Ep; [exact Ep|].
  unfold PosixPath.join. unfold PosixPath.isabs in Ep. rewrite Ep.
  destruct (negb (PyStr.truthy cwd) || PyStr.endswith cwd "/");
    now rewrite PosixPathFacts.isabs_app by now apply isabs_truthy.
Qed.

Lemma abspath_isabs cwd p :
  PosixPath.isabs cwd = true -> PosixPath.isabs (PosixPath.abspath cwd p) = true.
Proof. intros H. apply normpath_isabs, anchored_isabs, H. Qed.

Lemma scan_volume_abs cwd items : forall found,
  PosixPath.isabs cwd = true -> found_abs found ->
  found_abs (fold_left (scan_volume cwd) items found).
Proof.
  induction items as [|[k v] items IH]; intros found Hcwd Hf; [exact Hf|].
  simpl. apply IH; [exact Hcwd|]. destruct Hf as [H1 H2].
  destruct (String.eqb k "/data"); [|destruct (String.eqb k _)];
    split; simpl; auto; intros x [= <-]; now apply abspath_isabs.
Qed.

Lemma or_else_abs x fallback :
  (forall v, x = Some v -> PosixPath.isabs v = true) ->
  PosixPath.isabs fallback = true ->
  PosixPath.isabs (or_else x fallback) = true.
Proof.
  intros Hx Hf. unfold or_else. destruct x as [v|]; [|exact Hf].
  destruct (PyStr.truthy v); [now apply Hx|exact Hf].
Qed.

(** X9: on a host whose working directory is an absolute path and with a
    compose file that parses to a document of the usual shape (the shape
    of [compose_data]), [get_backup_paths] returns, prints its two lines
    and changes nothing else; the upload location and the database
    location it reports are absolute paths, whatever the volume entries
    and the environment say (relative paths included); and the critical
    folders are those of [library], [upload] and [profile] that exist
    under the upload location. *)
Theorem X9_get_backup_paths_reports_absolute_paths
    (h : host) (self : tool) (doc : compose_data) (s : state) :
  PosixPath.isabs (getcwd h) = true ->
  load_compose h (compose_file self) = ComposeParsed doc ->
  exists paths,
    get_backup_paths h self s
    = (Ok paths,
       update s (root s)
         [Print ("Detected upload location: " ++ upload_location paths);
          Print ("Detected database location: " ++ db_data_location paths)])
    /\ PosixPath.isabs (upload_location paths) = true
    /\ PosixPath.isabs (db_data_location paths) = true
    /\ forall folder,
         In folder (critical_folders paths)
         <-> exists_in h (root s) folder = true
             /\ exists name,
                  In name ["library"; "upload"; "profile"]
                  /\ folder = PosixPath.join (upload_location paths) name.
Proof.
  intros Hcwd Hdoc. unfold get_backup_paths, parse_docker_compose.
  rewrite Hdoc.
  set (volumes := fold_left _ _ PyDict.empty).
  pose proof (scan_volume_abs (getcwd h) (PyDict.items volumes) (None, None)
                Hcwd) as [Hup Hdb].
  { split; discriminate. }
  set (found := fold_left (scan_volume (getcwd h)) (PyDict.items volumes)
                  (None, None)) in *.
  unfold bind at 1. unfold lift. cbv beta iota.
  unfold resolve_locations. fold found. cbv beta iota zeta.
  set (upload := or_else (fst found) _).
  set (db := or_else (snd found) _).
  assert (PosixPath.isabs upload = true) as Habs1
    by (apply or_else_abs; [exact Hup|now apply abspath_isabs]).
  assert (PosixPath.isabs db = true) as Habs2
    by (apply or_else_abs; [exact Hdb|now apply abspath_isabs]).
  unfold bind, lift, ret, get_state, print, emit. cbn -[filter map].
  exists {| upload_location := upload; db_data_location := db;
            critical_folders :=
              filter (exists_in h (root s))
                (map (PosixPath.join upload) ["library"; "upload"; "profile"]) |}.
  split; [unfold update; cbn -[filter map]; rewrite <- app_assoc;
          reflexivity|].
  cbn -[filter map]. split; [exact Habs1|]. split; [exact Habs2|].
  intros folder. rewrite filter_In. split.
  - intros [Hin Hex]. split; [exact Hex|].
    apply in_map_iff in Hin as (name & <- & Hname).
    exists name. split; [exact Hname|reflexivity].
  - intros [Hex (name & Hname & ->)]. split; [|exact Hex].
    apply in_map_iff. exists name. split; [reflexivity|exact Hname].
Qed.

Lemma X9_get_backup_paths_reports_absolute_paths_witness :
  exists paths,
    get_backup_paths (Demo.machine 0 (Demo.always 200)) Demo.self Demo.boot
    = (Ok paths,
       update Demo.boot Demo.disk
         [Print ("Detected upload location: " ++ upload_location paths);
          Print ("Detected database location: " ++ db_data_location paths)])
    /\ PosixPath.isabs (upload_location paths) = true
    /\ PosixPath.isabs (db_data_location paths) = true
    /\ forall folder,
         In folder (critical_folders paths)
         <-> exists_in (Demo.machine 0 (Demo.always 200)) Demo.disk folder = true
             /\ exists name,
                  In name ["library"; "upload"; "profile"]
                  /\ folder = PosixPath.join (upload_location paths) name.
Proof.
  exact (X9_get_backup_paths_reports_absolute_paths
           (Demo.machine 0 (Demo.always 200)) Demo.self Demo.topology
           Demo.boot eq_refl eq_refl).
Defined.

(* ================================================================== *)
(** ** Configuration: the volume map and the container map *)
(* ================================================================== *)

Lemma get_add_volume env vols v key :
  PyDict.get key (add_volume env vols v)
  = match binding_of v with
    | Some (host_path, container_path) =>
        if String.eqb key container_path
        then Some (expand_env_vars env host_path)
        else PyDict.get key vols
    | None => PyDict.get key vols
    end.
Proof.
  destruct v as [spec|]; simpl; [|reflexivity].
  unfold PyStr.contains.
  destruct (PyStr.partition ":" spec) as [[a b]|]; [|reflexivity].
  destruct (String.eqb key b) eqn:E.
  - apply String.eqb_eq in E. subst. apply PyDictFacts.get_set_same.
  - apply PyDictFacts.get_set_other. intros ->. now rewrite String.eqb_refl in E.
Qed.

Lemma get_fold_add_volume env key vs : forall vols,
  PyDict.get key (fold_left (add_volume env) vs vols)
  = match last_binding key vs with
    | Some host_path => Some (expand_env_vars env host_path)
    | None => PyDict.get key vols
    end.
Proof.
  induction vs as [|v vs IH]; intros vols; simpl; [reflexivity|].
  rewrite IH. destruct (last_binding key vs); [reflexivity|].
  rewrite get_add_volume.
  destruct (binding_of v) as [[a b]|]; [|reflexivity].
  now destruct (String.eqb key b).
Qed.

(** X10: for a compose file that parses to a document of the usual shape
    (the shape of [compose_data]), [parse_docker_compose] returns a dict
    that maps each container path to the expanded host path of the last
    volume entry binding it, an entry binding what follows its first
    colon to what precedes it; every key comes from such an entry, and
    entries without colon or in the long syntax are left out. *)
Theorem X10_parse_docker_compose_last_binding_wins
    (h : host) (self : tool) (doc : compose_data) :
  load_compose h (compose_file self) = ComposeParsed doc ->
  exists volumes,
    parse_docker_compose h self = Ok volumes
    /\ PyDict.wf volumes
    /\ (forall key,
          PyDict.get key volumes
          = match last_binding key (all_volumes doc) with
            | Some host_path => Some (expand_env_vars (env_vars self) host_path)
            | None => None
            end)
    /\ (forall key, In key (PyDict.keys volumes) ->
          exists v host_path,
            In v (all_volumes doc) /\ binding_of v = Some (host_path, key)).
Proof.
  intros Hdoc. unfold parse_docker_compose. rewrite Hdoc.
  eexists. split; [reflexivity|].
  unfold PyDict.items. rewrite fold_volumes.
  change (flat_map _ (services_of doc)) with (all_volumes doc).
  split; [|split].
  - apply fold_add_volume_wf, PyDictFacts.wf_empty.
  - intros key. rewrite get_fold_add_volume.
    now destruct (last_binding key (all_volumes doc)).
  - intros key Hin.
    destruct (PyDict.get key (fold_left (add_volume (env_vars self))
                                (all_volumes doc) PyDict.empty)) as [x|] eqn:E.
    2:{ apply PyDictFacts.get_none_keys in E. contradiction. }
    rewrite get_fold_add_volume in E.
    clear Hin Hdoc. induction (all_volumes doc) as [|v vs IH]; simpl in E.
    + discriminate.
    + destruct (last_binding key vs) as [hp|] eqn:El.
      * destruct IH as (v0 & hp0 & Hin & Hb); [exact E|].
        exists v0, hp0. split; [now right|exact Hb].
      * destruct (binding_of v) as [[a b]|] eqn:Eb; [|discriminate].
        destruct (String.eqb key b) eqn:Ek; [|discriminate].
        apply String.eqb_eq in Ek. subst b. exists v, a. split; [now left|exact Eb].
Qed.

(** On the demo topology: the mode of a read-only mount and the default of
    a host path end up in the keys. *)
Lemma X10_parse_docker_compose_last_binding_wins_witness :
  exists volumes,
    parse_docker_compose (Demo.machine 0 (Demo.always 200)) Demo.self
      = Ok volumes
    /\ PyDict.get "/data" volumes = Some "/data/lib"
    /\ PyDict.get "/var/lib/postgresql/data" volumes = None
    /\ PyDict.get "/etc/localtime:ro" volumes = Some "/etc/localtime"
    /\ PyDict.get "/etc/localtime" volumes = None.
Proof.
  destruct (X10_parse_docker_compose_last_binding_wins
              (Demo.machine 0 (Demo.always 200)) Demo.self Demo.topology
              eq_refl) as (volumes & Hparse & _ & Hget & _).
  exists volumes. split; [exact Hparse|]. rewrite !Hget.
  repeat split; reflexivity.
Defined.

Lemma keys_map_items {A B} (f : string * A -> B) (l : list (string * A)) :
  PyDict.keys (map (fun x => (fst x, f x)) l) = PyDict.keys l.
Proof. unfold PyDict.keys. rewrite map_map. reflexivity. Qed.

(** X11: for a compose file that parses to a document of the usual shape
    (the shape of [compose_data]: every service a mapping, a
    [container_name] that is given a string), [get_container_names] lists
    the services in topology order and gives each its [container_name],
    or its own name when it has no such key. *)
Theorem X11_get_container_names_per_service
    (h : host) (self : tool) (doc : compose_data) :
  load_compose h (compose_file self) = ComposeParsed doc ->
  PyDict.wf (services_of doc) ->
  exists containers,
    get_container_names h self = Ok containers
    /\ PyDict.keys containers = PyDict.keys (services_of doc)
    /\ forall service,
         PyDict.get service containers
         = match PyDict.get service (services_of doc) with
           | Some config =>
               Some (match container_name config with
                     | Some name => name
                     | None => service
                     end)
           | None => None
           end.
Proof.
  intros Hdoc Hwf. eexists.
  split; [apply (get_container_names_map h self doc Hdoc Hwf)|].
  split; [apply keys_map_items|].
  intros service. rewrite get_map_items.
  now destruct (PyDict.get service (services_of doc)).
Qed.

Lemma X11_get_container_names_per_service_witness :
  exists containers,
    get_container_names (Demo.machine 0 (Demo.always 200)) Demo.self
      = Ok containers
    /\ PyDict.keys containers = ["immich-server"; "redis"; "database"]
    /\ PyDict.get "database" containers = Some "immich_postgres"
    /\ PyDict.get "postgres" containers = None.
Proof.
  destruct (X11_get_container_names_per_service
              (Demo.machine 0 (Demo.always 200)) Demo.self Demo.topology
              eq_refl) as (containers & Hc & Hk & Hget).
  - unfold PyDict.wf. simpl. repeat constructor; simpl; intuition discriminate.
  - exists containers. split; [exact Hc|]. rewrite Hk, !Hget.
    repeat split; reflexivity.
Defined.

(* ================================================================== *)
(** ** Configuration: forms that are not expanded *)
(* ================================================================== *)

Lemma has_char_cons c d s :
  PyStr.has_char c (String d s) = false -> PyStr.has_char c s = false.
Proof.
  change (String d s) with (String d "" ++ s).
  rewrite PyStrFacts.has_char_app. now intros [_ H]%orb_false_iff.
Qed.

(** A match needs a closing brace. *)
Lemma match_var_needs_brace s :
  PyStr.has_char "}" s = false -> match_var s = None.
Proof.
  intros H. destruct (match_var s) as [[expr rest]|] eqn:E; [|reflexivity].
  apply match_var_sound in E as (-> & _ & _).
  rewrite !PyStrFacts.has_char_app in H.
  apply orb_false_iff in H as [_ H]. apply orb_false_iff in H as [_ H].
  apply orb_false_iff in H as [H _]. discriminate H.
Qed.

Lemma re_sub_no_brace repl : forall text fuel,
  PyStr.has_char "}" text = false -> re_sub fuel repl text = text.
Proof.
  induction text as [|c text IH]; intros fuel H.
  - destruct fuel; reflexivity.
  - destruct fuel as [|fuel]; [reflexivity|].
    simpl re_sub. rewrite (match_var_needs_brace _ H). f_equal.
    apply IH. now apply has_char_cons in H.
Qed.

(** Text without [${] in front of something that does not start with an
    opening brace is copied. *)
Lemma re_sub_skip repl tail : forall pre fuel,
  PyStr.contains "${" pre = false ->
  PyStr.startswith tail "{" = false ->
  String.length (pre ++ tail) <= fuel ->
  re_sub fuel repl (pre ++ tail)
  = pre ++ re_sub (String.length tail) repl tail.
Proof.
  induction pre as [|c pre IH]; intros fuel Hpre Htail Hfuel.
  - change ("" ++ tail) with tail in *.
    now apply re_sub_fuel.
  - change (String c pre ++ tail) with (String c (pre ++ tail)) in Hfuel.
    destruct fuel as [|fuel]; [simpl in Hfuel; lia|].
    destruct (match_var_inside c pre tail Hpre Htail) as [Hnone Hpre'].
    simpl re_sub. rewrite Hnone.
    change (String c pre ++ tail) with (String c (pre ++ tail)).
    change (String c pre ++ re_sub (String.length tail) repl tail)
      with (String c (pre ++ re_sub (String.length tail) repl tail)).
    f_equal. apply IH; try assumption. simpl in Hfuel. lia.
Qed.

(** X12: expansion copies a text without closing brace as it is, an
    unterminated [${FOO] included, and leaves the empty form [${}] alone:
    a variable reference needs at least one character between its
    braces. *)
Theorem X12_expand_env_vars_leaves_incomplete_forms (env : PyDict.t string) :
  (forall text,
     PyStr.has_char "}" text = false -> expand_env_vars env text = text)
  /\ (forall pre post,
        PyStr.contains "${" pre = false ->
        expand_env_vars env (pre ++ "${}" ++ post)
        = pre ++ "${}" ++ expand_env_vars env post).
Proof.
  split.
  - intros text H. now apply re_sub_no_brace.
  - intros pre post Hpre. unfold expand_env_vars.
    rewrite re_sub_skip; [|assumption|reflexivity|lia]. reflexivity.
Qed.

(** X19: a volume entry whose host path has the form [${VAR:-default}] is
    cut at the colon inside the form. The volume map records the text from
    the hyphen on as container path and the unterminated [${VAR] as host
    path, unexpanded; the container path of the entry is not bound. With
    such an entry for [/data] alone, the upload location reported is the
    configured [UPLOAD_LOCATION] or [./library]: the default written in
    the compose file plays no part. *)
Theorem X19_volume_default_form_is_split_inside
    (env : PyDict.t string) (var default container_path : string) :
  PyStr.has_char ":" var = false ->
  PyStr.has_char "}" var = false ->
  let entry :=
    VolumeStr ("${" ++ var ++ ":-" ++ default ++ "}:" ++ container_path) in
  let recorded := "-" ++ default ++ "}:" ++ container_path in
  bound_path entry = Some recorded
  /\ recorded <> container_path
  /\ (forall volumes,
        add_volume env volumes entry
        = PyDict.set recorded ("${" ++ var) volumes)
  /\ (forall h self doc s,
        env_vars self = env ->
        load_compose h (compose_file self) = ComposeParsed doc ->
        all_volumes doc = [entry] ->
        parse_docker_compose h self = Ok [(recorded, "${" ++ var)]
        /\ reported_upload_location (get_backup_paths h self s)
           = Some (PosixPath.abspath (getcwd h)
                     (get_env_var env "UPLOAD_LOCATION" "./library"))).
Proof.
  intros Hcolon Hbrace entry recorded.
  assert (PyStr.partition ":"
            ("${" ++ var ++ ":-" ++ default ++ "}:" ++ container_path)
          = Some ("${" ++ var, recorded)) as Hpart.
  { change ("${" ++ var ++ ":-" ++ default ++ "}:" ++ container_path)
      with ("${" ++ (var ++ String ":" recorded)).
    rewrite <- PyStrFacts.append_assoc.
    apply PyStrFacts.partition_char.
    rewrite PyStrFacts.has_char_app, Hcolon. reflexivity. }
  assert (forall volumes,
            add_volume env volumes entry
            = PyDict.set recorded ("${" ++ var) volumes) as Hadd.
  { intros volumes. unfold entry, add_volume, PyStr.contains.
    rewrite Hpart. f_equal. apply re_sub_no_brace.
    rewrite PyStrFacts.has_char_app, Hbrace. reflexivity. }
  split; [|split; [|split]].
  - unfold entry, bound_path. now rewrite Hpart.
  - intros E. apply (f_equal String.length) in E. unfold recorded in E.
    rewrite !string_length_app in E. simpl in E. lia.
  - exact Hadd.
  - intros h self doc s Henv Hdoc Hall.
    assert (parse_docker_compose h self = Ok [(recorded, "${" ++ var)]) as Hp.
    { unfold parse_docker_compose. rewrite Hdoc. f_equal.
      unfold PyDict.items. rewrite fold_volumes.
      change (flat_map _ (services_of doc)) with (all_volumes doc).
      rewrite Hall, Henv. cbn [fold_left]. fold entry. now rewrite Hadd. }
    split; [exact Hp|].
    rewrite (get_backup_paths_reports _ _ _ _ Hp). f_equal.
    unfold resolve_locations, PyDict.items. rewrite Henv. reflexivity.
Qed.

(** The default [/mnt/photos] of the compose file is not where the backup
    looks. *)
Lemma X19_volume_default_form_is_split_inside_witness :
  parse_docker_compose Cases.default_machine Cases.bare_self
    = Ok [("-/mnt/photos}:/data", "${PHOTOS")]
  /\ reported_upload_location
       (get_backup_paths Cases.default_machine Cases.bare_self Demo.boot)
     = Some "/srv/immich/library".
Proof.
  destruct (X19_volume_default_form_is_split_inside
              [] "PHOTOS" "/mnt/photos" "/data" eq_refl eq_refl)
    as (_ & _ & _ & Hrun).
  apply (Hrun Cases.default_machine Cases.bare_self Cases.default_topology
           Demo.boot); reflexivity.
Defined.

(* ================================================================== *)
(** ** The upload tree: copied by a backup, put back by a restore *)
(* ================================================================== *)

Lemma bind_assoc {A B C} (m : M A) (f : A -> M B) (g : B -> M C) s :
  bind m (fun x => bind (f x) g) s = bind (bind m f) g s.
Proof. unfold bind. now destruct (m s) as [[a|e] s1]. Qed.

Lemma lookup_truthy h t p x : lookup h t p = Some x -> PyStr.truthy p = true.
Proof. unfold lookup. now destruct (PyStr.truthy p). Qed.

Lemma lookup_walk h t p :
  PyStr.truthy p = true -> lookup h t p = FS.walk t (locate h p).
Proof. unfold lookup. now intros ->. Qed.

(** A copy into a directory that is made for it is an exact copy, and
    changes nothing apart from its destination. *)
Lemma copytree_fresh h src dst ok s es t2 :
  lookup h (root s) src = Some (Dir es) ->
  PyDict.wf es ->
  PyStr.truthy dst = true ->
  FS.walk (root s) (locate h dst) = None ->
  FS.mkdirs (locate h dst) (root s) = Some t2 ->
  exists t3,
    copytree h src dst ok s = (Ok tt, update s t3 [])
    /\ FS.walk t3 (locate h dst) = Some (Dir es)
    /\ forall q, apart (locate h dst) q = true ->
                 FS.walk t3 q = FS.walk (root s) q.
Proof.
  intros Hsrc Hwf Hdst Hnone Hmk.
  pose proof (FSMore.mkdirs_fresh _ _ _ Hnone Hmk) as Hw2.
  destruct (FSMore.put_existing (Dir es) _ _ _ Hw2) as [t3 Hput].
  exists t3. split; [|split].
  - unfold copytree. run. rewrite Hsrc.
    assert (exists_in h (root s) dst = false) as ->
      by (unfold exists_in, lookup; now rewrite Hdst, Hnone).
    rewrite andb_false_r, Hmk, Hw2.
    rewrite FSFacts.merge_into_empty by exact Hwf. rewrite Hput.
    unfold update. simpl. now rewrite app_nil_r.
  - eapply FSFacts.put_walk_same; eauto.
  - intros q [H1 H2]%FSMore.apart_inv.
    rewrite (FSFacts.walk_put_other _ _ _ _ _ Hput H1 H2).
    now apply (FSMore.walk_mkdirs_other _ _ _ _ Hmk).
Qed.

(** What [restore_filesystem] does when everything is in place. *)
Lemma restore_filesystem_copies
    (h : host) (self : tool) (backup_dir : string) (m : manifest)
    (es : list (string * tree)) (s : state) :
  let source := upload_backup_of backup_dir m in
  let target := current_upload_location_of h self in
  lookup h (root s) (PosixPath.join backup_dir "backup_manifest.json")
    = Some (ManifestFile m) ->
  lookup h (root s) source = Some (Dir es) ->
  tidy (root s) = true ->
  creatable h (root s) target = true ->
  apart (locate h target) (locate h source) = true ->
  exists t,
    restore_filesystem h self backup_dir s
    = (Ok tt,
       update s t
         [Print ("Restoring filesystem: " ++ source ++ " -> " ++ target);
          Print "Filesystem restored successfully"])
    /\ lookup h t target = Some (Dir es)
    /\ forall q, apart (locate h target) q = true ->
                 FS.walk t q = FS.walk (root s) q.
Proof.
  intros source target Hm Hsrc Htidy Hmk Hapart.
  assert (PyStr.truthy target = true) as Htarget by apply normpath_truthy.
  pose proof (lookup_truthy _ _ _ _ Hsrc) as Hsource.
  assert (PyDict.wf es) as Hwf.
  { rewrite lookup_walk in Hsrc by assumption.
    apply (FSMore.tidy_walk _ _ _ Htidy) in Hsrc.
    now apply FSMore.tidy_dir in Hsrc. }
  unfold creatable in Hmk.
  destruct (FS.mkdirs (locate h target) (root s)) as [t0|] eqn:Emk;
    [clear Hmk|discriminate].
  (* the tree once the previous upload location is out of the way *)
  assert (exists t1 t2,
            ((there <- path_exists h target ;;
              if there then rmtree h target else ret tt) : M unit)
              (update s (root s)
                 [Print ("Restoring filesystem: " ++ source ++ " -> " ++ target)])
            = (Ok tt,
               update s t1
                 [Print ("Restoring filesystem: " ++ source ++ " -> " ++ target)])
            /\ FS.walk t1 (locate h target) = None
            /\ FS.mkdirs (locate h target) t1 = Some t2
            /\ forall q, apart (locate h target) q = true ->
                         FS.walk t1 q = FS.walk (root s) q)
    as (t1 & t2 & Hclear & Hnone & Hmk1 & Hkeep).
  { destruct (FS.walk (root s) (locate h target)) as [x|] eqn:Ew.
    - pose proof (FSMore.mkdirs_dir_at _ _ _ _ Emk Ew) as Hx.
      destruct x as [| | |old]; try discriminate.
      destruct (FSMore.mkdirs_remove _ _ _ Htidy Emk) as [t2 Ht2].
      exists (FS.remove (locate h target) (root s)), t2.
      split; [|split; [|split]].
      + run. unfold exists_in. rewrite lookup_walk, Ew by assumption.
        simpl. rewrite lookup_walk, Ew by assumption. reflexivity.
      + apply FSMore.walk_remove_same; [exact Htidy|].
        now apply (FSMore.apart_nonempty _ _ Hapart).
      + exact Ht2.
      + intros q [H1 H2]%FSMore.apart_inv. now apply FSMore.walk_remove_other.
    - exists (root s), t0. split; [|auto].
      run. unfold exists_in. rewrite lookup_walk, Ew by assumption.
      reflexivity. }
  destruct (copytree_fresh h source target false
              (update s t1
                 [Print ("Restoring filesystem: " ++ source ++ " -> " ++ target)])
              es t2) as (t3 & Hcopy & Hw3 & Hkeep3); try assumption.
  { simpl. rewrite lookup_walk by assumption. rewrite Hkeep.
    - now rewrite <- lookup_walk.
    - exact Hapart. }
  assert (forall q, apart (locate h target) q = true ->
                    FS.walk t3 q = FS.walk (root s) q) as Hrest.
  { intros q Hq. rewrite Hkeep3 by exact Hq. simpl. now apply Hkeep. }
  exists t3. split; [|split].
  - unfold restore_filesystem, read_manifest.
    unfold bind at 1. unfold get_state at 1. unfold bind at 1.
    rewrite Hm. unfold ret at 1. fold (upload_backup_of backup_dir m).
    fold source. unfold bind at 1. unfold path_exists at 1.
    assert (exists_in h (root s) source = true) as ->
      by (unfold exists_in; now rewrite Hsrc).
    change (negb true) with false. cbv beta iota.
    fold (current_upload_location_of h self). fold target.
    unfold bind at 1. unfold print at 1, emit at 1. cbv beta iota.
    change {| root := root s;
              trace := (trace s ++ [Print ("Restoring filesystem: " ++ source
                                           ++ " -> " ++ target)])%list;
              ticks := ticks s; requests := requests s |}
      with (update s (root s)
              [Print ("Restoring filesystem: " ++ source ++ " -> " ++ target)]).
    rewrite bind_assoc. unfold bind at 1. rewrite Hclear.
    unfold bind at 1. rewrite Hcopy.
    unfold print, emit, update. simpl. now rewrite app_nil_r, <- app_assoc.
  - now rewrite lookup_walk.
  - exact Hrest.
Qed.

(** X4: with the manifest and the archived upload tree in place, in a
    tidy directory tree, and with an upload location that is apart from
    the archived tree and at which a directory can be made,
    [restore_filesystem] returns after its two lines; the upload location
    (the configured [UPLOAD_LOCATION], or [./library], made absolute) then
    holds exactly the archived tree, whatever it held before; the archived
    tree is still in the backup; and nothing apart from the upload location
    has changed. *)
Theorem X4_restore_filesystem_replaces_upload_location
    (h : host) (self : tool) (backup_dir : string) (m : manifest)
    (es : list (string * tree)) (s : state) :
  let source := upload_backup_of backup_dir m in
  let target := current_upload_location_of h self in
  lookup h (root s) (PosixPath.join backup_dir "backup_manifest.json")
    = Some (ManifestFile m) ->
  lookup h (root s) source = Some (Dir es) ->
  tidy (root s) = true ->
  creatable h (root s) target = true ->
  apart (locate h target) (locate h source) = true ->
  exists t,
    restore_filesystem h self backup_dir s
    = (Ok tt,
       update s t
         [Print ("Restoring filesystem: " ++ source ++ " -> " ++ target);
          Print "Filesystem restored successfully"])
    /\ lookup h t target = Some (Dir es)
    /\ lookup h t source = Some (Dir es)
    /\ forall q, apart (locate h target) q = true ->
                 FS.walk t q = FS.walk (root s) q.
Proof.
  intros source target Hm Hsrc Htidy Hmk Hapart.
  destruct (restore_filesystem_copies h self backup_dir m es s
              Hm Hsrc Htidy Hmk Hapart) as (t & Hrun & Htarget & Hrest).
  exists t. split; [exact Hrun|]. split; [exact Htarget|].
  split; [|exact Hrest].
  pose proof (lookup_truthy _ _ _ _ Hsrc) as Hsource.
  rewrite lookup_walk, Hrest by assumption. now rewrite <- lookup_walk.
Qed.

(** The photo of the running installation gives way to the archived one. *)
Lemma X4_restore_filesystem_replaces_upload_location_witness :
  let h := Demo.machine 0 (Demo.always 200) in
  exists t,
    restore_filesystem h Demo.self "/backups/old" Cases.full_boot
    = (Ok tt,
       update Cases.full_boot t
         [Print "Restoring filesystem: /backups/old/filesystem/upload_location -> /data/lib";
          Print "Filesystem restored successfully"])
    /\ lookup h t "/data/lib" = Some Cases.archived_upload
    /\ lookup h t "/backups/old/filesystem/upload_location"
       = Some Cases.archived_upload
    /\ forall q, apart ["data"; "lib"] q = true ->
                 FS.walk t q = FS.walk Cases.full_disk q.
Proof.
  apply (X4_restore_filesystem_replaces_upload_location
           (Demo.machine 0 (Demo.always 200)) Demo.self "/backups/old"
           Demo.bare_manifest
           [("library", Dir [("b.jpg", Blob "older jpeg")]); ("profile", Dir [])]
           Cases.full_boot); vm_compute; reflexivity.
Defined.

(** X5: in a tidy directory tree, with a backup directory that has no
    [filesystem] entry yet and an upload location apart from it,
    [backup_filesystem] returns the path of the new [filesystem] directory
    after its two lines; [filesystem/upload_location] then holds exactly
    the tree of the upload location, the upload location is as it was, and
    nothing apart from the new directory has changed. *)
Theorem X5_backup_filesystem_copies_upload_location
    (h : host) (backup_dir : string) (paths : backup_paths)
    (es : list (string * tree)) (s : state) :
  let fs_backup_dir := PosixPath.join backup_dir "filesystem" in
  let upload_backup := PosixPath.join fs_backup_dir "upload_location" in
  PyStr.truthy backup_dir = true ->
  lookup h (root s) (upload_location paths) = Some (Dir es) ->
  tidy (root s) = true ->
  isdir_in h (root s) backup_dir = true ->
  exists_in h (root s) fs_backup_dir = false ->
  apart (locate h fs_backup_dir) (locate h (upload_location paths)) = true ->
  exists t,
    backup_filesystem h backup_dir paths s
    = (Ok fs_backup_dir,
       update s t
         [Print "Backing up filesystem data...";
          Print ("Backing up upload location: " ++ upload_location paths
                 ++ " -> " ++ upload_backup)])
    /\ lookup h t upload_backup = Some (Dir es)
    /\ lookup h t (upload_location paths) = Some (Dir es)
    /\ forall q, apart (locate h fs_backup_dir) q = true ->
                 FS.walk t q = FS.walk (root s) q.
Proof.
  intros fsdir dst Hdir Hsrc Htidy Hisdir Hfresh Hapart.
  pose proof (lookup_truthy _ _ _ _ Hsrc) as Hup.
  assert (PyDict.wf es) as Hwf.
  { rewrite lookup_walk in Hsrc by assumption.
    apply (FSMore.tidy_walk _ _ _ Htidy) in Hsrc.
    now apply FSMore.tidy_dir in Hsrc. }
  assert (PyStr.truthy fsdir = true) as Hfs
    by now apply PosixPathFacts.join_truthy.
  assert (PyStr.truthy dst = true) as Hdst
    by now apply PosixPathFacts.join_truthy.
  assert (locate h fsdir = (locate h backup_dir ++ ["filesystem"])%list) as Lfs
    by now apply PosixPathFacts.resolve_join.
  assert (locate h dst = (locate h fsdir ++ ["upload_location"])%list) as Ldst
    by now apply PosixPathFacts.resolve_join.
  unfold isdir_in in Hisdir. rewrite lookup_walk in Hisdir by assumption.
  destruct (FS.walk (root s) (locate h backup_dir)) as [[| | |es0]|] eqn:Ew0;
    try discriminate.
  assert (FS.walk (root s) (locate h fsdir) = None) as Hnone.
  { unfold exists_in in Hfresh. rewrite lookup_walk in Hfresh by assumption.
    now destruct (FS.walk (root s) (locate h fsdir)). }
  assert (PyDict.get "filesystem" es0 = None) as Hfree.
  { rewrite Lfs, FSFacts.walk_app, Ew0 in Hnone. rewrite FSFacts.walk_cons in Hnone.
    now destruct (PyDict.get "filesystem" es0). }
  destruct (FSMore.mkdirs_child "filesystem" _ _ _ Ew0 Hfree) as [t1 Hmk1].
  rewrite <- Lfs in Hmk1.
  pose proof (FSMore.mkdirs_fresh _ _ _ Hnone Hmk1) as Hw1.
  destruct (FSMore.apart_inv _ _ Hapart) as [Ha1 Ha2].
  assert (forall q, apart (locate h fsdir) q = true ->
                    FS.walk t1 q = FS.walk (root s) q) as Hkeep1.
  { intros q [H1 H2]%FSMore.apart_inv.
    now apply (FSMore.walk_mkdirs_other _ _ _ _ Hmk1). }
  destruct (FSMore.mkdirs_child "upload_location" _ _ _ Hw1 eq_refl)
    as [t2 Hmk2].
  rewrite <- Ldst in Hmk2.
  set (s1 := update s t1
               [Print "Backing up filesystem data...";
                Print ("Backing up upload location: " ++ upload_location paths
                       ++ " -> " ++ dst)]).
  destruct (copytree_fresh h (upload_location paths) dst true s1 es t2)
    as (t3 & Hcopy & Hw3 & Hkeep3); try assumption.
  { simpl. rewrite lookup_walk, Hkeep1 by assumption.
    now rewrite <- lookup_walk. }
  { simpl. rewrite Ldst, FSFacts.walk_app, Hw1. reflexivity. }
  assert (forall q, apart (locate h fsdir) q = true ->
                    FS.walk t3 q = FS.walk (root s) q) as Hrest.
  { intros q Hq. rewrite Hkeep3.
    - simpl. now apply Hkeep1.
    - rewrite Ldst. now apply FSMore.apart_below. }
  exists t3. split; [|split; [|split]].
  - unfold backup_filesystem. fold fsdir. fold dst.
    unfold bind at 1. unfold print at 1, emit at 1. cbv beta iota.
    unfold bind at 1. unfold makedirs at 1. unfold bind at 1.
    unfold get_state at 1. cbv beta iota. rewrite Hfs. cbn [negb root].
    rewrite Hmk1. unfold set_root at 1. cbv beta iota.
    unfold bind at 1. unfold print at 1, emit at 1. cbv beta iota.
    cbn [root trace ticks requests].
    unfold bind at 1.
    match goal with
    | |- context [copytree h _ dst true ?st] =>
        replace st with s1
          by (unfold s1, update; simpl; now rewrite <- app_assoc)
    end.
    rewrite Hcopy. unfold ret, s1, update. simpl. now rewrite app_nil_r.
  - now rewrite lookup_walk.
  - rewrite lookup_walk, Hrest by assumption. now rewrite <- lookup_walk.
  - exact Hrest.
Qed.

Lemma X5_backup_filesystem_copies_upload_location_witness :
  let h := Demo.machine 0 (Demo.always 200) in
  let paths := {| upload_location := "/data/lib";
                  db_data_location := "/srv/immich/postgres";
                  critical_folders := [] |} in
  exists t,
    backup_filesystem h "/backups" paths Demo.boot
    = (Ok "/backups/filesystem",
       update Demo.boot t
         [Print "Backing up filesystem data...";
          Print "Backing up upload location: /data/lib -> /backups/filesystem/upload_location"])
    /\ lookup h t "/backups/filesystem/upload_location"
       = Some (Dir [("library", Dir [("a.jpg", Blob "jpeg")]); ("upload", Dir [])])
    /\ lookup h t "/data/lib"
       = Some (Dir [("library", Dir [("a.jpg", Blob "jpeg")]); ("upload", Dir [])])
    /\ forall q, apart ["backups"; "filesystem"] q = true ->
                 FS.walk t q = FS.walk Demo.disk q.
Proof.
  apply (X5_backup_filesystem_copies_upload_location
           (Demo.machine 0 (Demo.always 200)) "/backups"
           {| upload_location := "/data/lib";
              db_data_location := "/srv/immich/postgres";
              critical_folders := [] |}
           [("library", Dir [("a.jpg", Blob "jpeg")]); ("upload", Dir [])]
           Demo.boot); vm_compute; reflexivity.
Defined.

(* ================================================================== *)
(** ** Backup: a destination that cannot be made *)
(* ================================================================== *)

(** With a compose file that parses, path resolution returns and prints
    two lines. *)
Lemma get_backup_paths_returns h self doc s :
  load_compose h (compose_file self) = ComposeParsed doc ->
  exists paths line1 line2,
    get_backup_paths h self s
    = (Ok paths, update s (root s) [Print line1; Print line2]).
Proof.
  intros Hdoc. unfold get_backup_paths, parse_docker_compose. rewrite Hdoc.
  unfold bind at 1. unfold lift. cbv beta iota.
  destruct (resolve_locations _ _ _) as [upload db].
  unfold bind, ret, get_state, print, emit, update. cbn -[filter map].
  do 3 eexists. now rewrite <- app_assoc.
Qed.

(** X8: when the backup destination is an existing regular file, [backup]
    raises the "File exists" error of [os.makedirs]. The two directories are
    made before the [try] block, so nothing cleans up: the temporary
    directory made just before, which was not there at the start, stays
    behind, empty. The container listing is the only command that ran; no
    container was stopped and the file in the way is untouched. *)
Theorem X8_backup_destination_in_the_way
    (h : host) (self : tool) (backup_location : string) (doc : compose_data)
    (x : tree) (s : state) :
  let s1 := update s (root s) [Print "Starting Immich backup process..."] in
  let temp := temp_backup_dir_of h s in
  load_compose h (compose_file self) = ComposeParsed doc ->
  PyStr.contains "immich_postgres" (stdout (shell h listing s1)) = true ->
  root_after (shell h listing s1) = root s ->
  PyStr.truthy (gettempdir h) = true ->
  PyStr.has_char "/" (strftime_now h (ticks s)) = false ->
  isdir_in h (root s) (gettempdir h) = true ->
  exists_in h (root s) temp = false ->
  lookup h (root s) backup_location = Some x ->
  is_dir x = false ->
  exists t new,
    backup h self backup_location s
    = (Raise (OSError ("File exists: " ++ backup_location)),
       {| root := t; trace := (trace s ++ new)%list;
          ticks := S (ticks s); requests := requests s |})
    /\ commands_of new = [listing]
    /\ lookup h t temp = Some (Dir [])
    /\ lookup h t backup_location = Some x.
Proof.
  intros s1 temp Hdoc Hps Hquiet Htmp Hstamp Hisdir Hfresh Hloc Hx.
  pose proof (lookup_truthy _ _ _ _ Hloc) as Hbl.
  set (name := "immich_backup_" ++ strftime_now h (ticks s)).
  assert (PosixPath.simple_name name = true) as Hname
    by (apply simple_prefixed; auto).
  unfold temp, temp_backup_dir_of in *. fold name in Hfresh. fold name.
  set (d := PosixPath.join (gettempdir h) name) in *.
  assert (PyStr.truthy d = true) as Hd by now apply PosixPathFacts.join_truthy.
  assert (locate h d = (locate h (gettempdir h) ++ [name])%list) as Ld
    by now apply PosixPathFacts.resolve_join.
  unfold isdir_in in Hisdir. rewrite lookup_walk in Hisdir by assumption.
  destruct (FS.walk (root s) (locate h (gettempdir h))) as [[| | |es0]|] eqn:Ew0;
    try discriminate.
  assert (FS.walk (root s) (locate h d) = None) as Hnone.
  { unfold exists_in in Hfresh. rewrite lookup_walk in Hfresh by assumption.
    now destruct (FS.walk (root s) (locate h d)). }
  assert (PyDict.get name es0 = None) as Hfree.
  { rewrite Ld, FSFacts.walk_app, Ew0, FSFacts.walk_cons in Hnone.
    now destruct (PyDict.get name es0). }
  destruct (FSMore.mkdirs_child name _ _ _ Ew0 Hfree) as [t1 Hmk1].
  rewrite <- Ld in Hmk1.
  pose proof (FSMore.mkdirs_fresh _ _ _ Hnone Hmk1) as Hw1.
  rewrite lookup_walk in Hloc by assumption.
  pose proof (FSFacts.mkdirs_keeps_file x _ _ _ _ Hmk1 Hloc Hx) as Hloc1.
  pose proof (FSMore.mkdirs_blocked _ _ _ Hloc1 Hx) as Hblocked.
  set (s2 := update s (root s)
               [Print "Starting Immich backup process..."; Exec listing]).
  destruct (get_backup_paths_returns h self doc s2 Hdoc)
    as (paths & l1 & l2 & Hpaths).
  exists t1. eexists. split; [|split; [|split]].
  - subst s1. unfold update in Hps, Hquiet.
    cbn [root trace ticks requests] in Hps, Hquiet.
    unfold backup. unfold bind at 1. unfold print at 1, emit at 1.
    cbv beta iota.
    unfold bind at 1. unfold check_docker_compose, compose_exists.
    rewrite Hdoc. cbn [negb]. unfold subprocess_run.
    unfold bind at 1 2 3 4. unfold get_state, emit, set_root, ret.
    cbv beta iota. cbn [root trace ticks requests]. fold listing.
    rewrite Hps, Hquiet. cbn [negb]. cbv beta iota.
    unfold bind at 1.
    match goal with
    | |- context [get_backup_paths h self ?st] =>
        replace st with s2
          by (unfold s2, update; cbn [root trace ticks requests];
              now rewrite <- app_assoc)
    end.
    rewrite Hpaths. subst s2. unfold update. unfold bind at 1.
    unfold tick at 1.
    cbv beta iota. cbn [root trace ticks requests]. fold name. fold d.
    unfold bind at 1. unfold makedirs at 1. unfold bind at 1.
    unfold get_state at 1. cbv beta iota. rewrite Hd.
    cbn [negb root trace ticks requests]. rewrite Hmk1.
    unfold set_root at 1. cbv beta iota. cbn [root trace ticks requests].
    unfold bind at 1. unfold makedirs at 1. unfold bind at 1.
    unfold get_state at 1. cbv beta iota. rewrite Hbl.
    cbn [negb root trace ticks requests]. rewrite Hblocked.
    unfold raise. rewrite <- app_assoc. reflexivity.
  - reflexivity.
  - now rewrite lookup_walk.
  - now rewrite lookup_walk.
Qed.

Lemma X8_backup_destination_in_the_way_witness :
  let h := Demo.machine 0 (Demo.always 200) in
  exists t new,
    backup h Demo.self "/data/lib/library/a.jpg" Demo.boot
    = (Raise (OSError "File exists: /data/lib/library/a.jpg"),
       {| root := t; trace := new; ticks := 1; requests := 0 |})
    /\ commands_of new = [listing]
    /\ lookup h t Demo.temp_dir = Some (Dir [])
    /\ lookup h t "/data/lib/library/a.jpg" = Some (Blob "jpeg").
Proof.
  apply (X8_backup_destination_in_the_way
           (Demo.machine 0 (Demo.always 200)) Demo.self
           "/data/lib/library/a.jpg" Demo.topology (Blob "jpeg") Demo.boot);
    vm_compute; reflexivity.
Defined.

(* ================================================================== *)
(** ** Backup: the manifest *)
(* ================================================================== *)

(** X15: in an existing backup directory, [create_backup_manifest] returns
    the path of the manifest after one line and one clock reading, and the
    manifest it has written reads back with the names the restore steps
    need: joined to the backup directory, the recorded dump name is the
    dump file and the recorded file-system name leads to
    [filesystem/upload_location]. The manifest also holds the paths it was
    given, the configured version or [unknown], and a copy of every
    variable of the environment file. *)
Theorem X15_manifest_names_what_restore_looks_for
    (h : host) (self : tool) (backup_dir db_name : string)
    (paths : backup_paths) (s : state) :
  let manifest_file := PosixPath.join backup_dir "backup_manifest.json" in
  let db_backup_file := PosixPath.join backup_dir db_name in
  let fs_backup_dir := PosixPath.join backup_dir "filesystem" in
  PyStr.truthy backup_dir = true ->
  PosixPath.simple_name db_name = true ->
  isdir_in h (root s) backup_dir = true ->
  isdir_in h (root s) manifest_file = false ->
  exists m t,
    create_backup_manifest h self backup_dir db_backup_file fs_backup_dir
      paths s
    = (Ok manifest_file,
       {| root := t;
          trace := (trace s ++ [Print ("Backup manifest created: "
                                       ++ manifest_file)])%list;
          ticks := S (ticks s); requests := requests s |})
    /\ lookup h t manifest_file = Some (ManifestFile m)
    /\ PosixPath.join backup_dir (m_database_backup m) = db_backup_file
    /\ upload_backup_of backup_dir m
       = PosixPath.join fs_backup_dir "upload_location"
    /\ m_env_vars m = env_vars self
    /\ m_original_paths m = paths
    /\ m_immich_version m
       = get_env_var (env_vars self) "IMMICH_VERSION" "unknown"
    /\ m_timestamp m = isoformat_now h (ticks s).
Proof.
  intros mf db fs Hdir Hname Hisdir Hfree.
  assert (PyStr.truthy mf = true) as Hmf
    by now apply PosixPathFacts.join_truthy.
  assert (locate h mf = (locate h backup_dir ++ ["backup_manifest.json"])%list)
    as Lmf by now apply PosixPathFacts.resolve_join.
  unfold isdir_in in Hisdir. rewrite lookup_walk in Hisdir by assumption.
  destruct (FS.walk (root s) (locate h backup_dir)) as [[| | |es0]|] eqn:Ew0;
    try discriminate.
  set (m := {| m_timestamp := isoformat_now h (ticks s);
               m_immich_version :=
                 get_env_var (env_vars self) "IMMICH_VERSION" "unknown";
               m_database_backup := PosixPath.basename db;
               m_filesystem_backup := PosixPath.basename fs;
               m_original_paths := paths;
               m_env_vars := env_vars self |}).
  destruct (FSFacts.put_child "backup_manifest.json" (ManifestFile m) _ _ _ Ew0)
    as [t Hput].
  rewrite <- Lmf in Hput.
  exists m, t. split; [|split; [|split; [|split]]].
  - unfold create_backup_manifest. fold mf. run. rewrite Hmf. simpl.
    rewrite Hfree. fold db. fold fs. fold m. rewrite Hput. reflexivity.
  - rewrite lookup_walk by assumption. eapply FSFacts.put_walk_same; eauto.
  - simpl. unfold db. now rewrite PosixPathFacts.basename_join.
  - unfold upload_backup_of. simpl. unfold fs.
    now rewrite PosixPathFacts.basename_join.
  - repeat split.
Qed.

Lemma X15_manifest_names_what_restore_looks_for_witness :
  let h := Demo.machine 0 (Demo.always 200) in
  let paths := {| upload_location := "/data/lib";
                  db_data_location := "/srv/immich/postgres";
                  critical_folders := [] |} in
  exists m t,
    create_backup_manifest h Demo.self "/backups"
      "/backups/immich_db_backup_20240101_120000.sql.gz" "/backups/filesystem"
      paths Demo.boot
    = (Ok "/backups/backup_manifest.json",
       {| root := t;
          trace := [Print "Backup manifest created: /backups/backup_manifest.json"];
          ticks := 1; requests := 0 |})
    /\ lookup h t "/backups/backup_manifest.json" = Some (ManifestFile m)
    /\ PosixPath.join "/backups" (m_database_backup m)
       = "/backups/immich_db_backup_20240101_120000.sql.gz"
    /\ upload_backup_of "/backups" m = "/backups/filesystem/upload_location"
    /\ m_env_vars m = [("UPLOAD_LOCATION", "/data/lib"); ("DB_USERNAME", "postgres")]
    /\ m_original_paths m = paths
    /\ m_immich_version m = "unknown"
    /\ m_timestamp m = "2024-01-01T12:00:00".
Proof.
  apply (X15_manifest_names_what_restore_looks_for
           (Demo.machine 0 (Demo.always 200)) Demo.self "/backups"
           "immich_db_backup_20240101_120000.sql.gz"
           {| upload_location := "/data/lib";
              db_data_location := "/srv/immich/postgres";
              critical_folders := [] |} Demo.boot); vm_compute; reflexivity.
Defined.

(* ================================================================== *)
(** ** The command line *)
(* ================================================================== *)


Lemma or_else_truthy x d :
  PyStr.truthy d = true -> PyStr.truthy (or_else x d) = true.
Proof.
  intros Hd. unfold or_else. destruct x as [v|]; [|exact Hd].
  destruct (PyStr.truthy v) eqn:E; assumption.
Qed.

Lemma typed_or_truthy typed d :
  PyStr.truthy d = true -> PyStr.truthy (typed_or typed d) = true.
Proof.
  intros Hd. unfold typed_or.
  destruct (PyStr.truthy (PyStr.strip typed)) eqn:E; assumption.
Qed.

(** X16: with mode and location on the command line (and, under
    [--interactive], both file names) [main] asks nothing and reads nothing:
    the terminal is left as it is. It runs the tool with the given file
    names or the defaults [docker-compose.yml] and [.env]; it returns when
    the tool returns, and prints "Error: ..." and exits with status 1 when
    the tool raises an exception of class [Exception]. A missing
    environment file is such an error, raised before anything else is
    done. *)
Theorem X16_main_complete_command_line
    (h : host) (args : Cli.namespace) (t : terminal) (s : state) :
  complete args = true ->
  let out :=
    run_tool h (or_else (Cli.compose_file args) "docker-compose.yml")
      (or_else (Cli.env_file args) ".env") (Cli.mode args)
      (or_else (Cli.location args) "") s in
  main h args t s = (fst (exit_of out), t, snd (exit_of out))
  /\ (read_env_file h (or_else (Cli.env_file args) ".env") = None ->
      main h args t s
      = (SystemExit 1, t,
         update s (root s)
           [Print ("Error: Environment file "
                   ++ or_else (Cli.env_file args) ".env" ++ " not found")])).
Proof.
  intros Hc out.
  assert (main h args t s = (fst (exit_of out), t, snd (exit_of out))) as Hmain.
  { unfold complete in Hc.
    apply andb_true_iff in Hc as [Hc Hi]. apply andb_true_iff in Hc as [Hm Hl].
    apply negb_true_iff in Hm, Hl.
    assert (interact args t = (Go args, t)) as Hgo.
    { unfold interact. rewrite Hm, Hl. simpl.
      destruct (Cli.interactive args); [|reflexivity]. simpl in Hi.
      apply andb_true_iff in Hi as [Hcf Hef]. apply negb_true_iff in Hcf, Hef.
      unfold ask_files, ask_mode, ask_location, then_, go.
      rewrite Hcf, Hef. simpl. rewrite Hm. simpl. now rewrite Hl. }
    unfold main. rewrite Hgo, Hm, Hl. simpl. fold out.
    destruct out as [[u|e] s1]; simpl; [reflexivity|].
    destruct (is_Exception e); reflexivity. }
  split; [exact Hmain|]. intros Henv. rewrite Hmain.
  unfold out, run_tool, new_tool, load_environment, lift, bind.
  rewrite Henv. simpl. reflexivity.
Qed.

(** A backup started with an environment file that does not exist. *)
Lemma X16_main_complete_command_line_witness :
  let args := {| Cli.mode := Some "backup"; Cli.location := Some "/backups";
                 Cli.compose_file := None; Cli.env_file := Some "prod.env";
                 Cli.interactive := false |} in
  let t := {| stdin := ["1"]; console := [] |} in
  main (Demo.machine 0 (Demo.always 200)) args t Demo.boot
  = (SystemExit 1, t,
     update Demo.boot Demo.disk
       [Print "Error: Environment file prod.env not found"]).
Proof.
  intros args t.
  destruct (X16_main_complete_command_line
              (Demo.machine 0 (Demo.always 200)) args t Demo.boot eq_refl)
    as [_ Hmissing].
  apply Hmissing. reflexivity.
Defined.

(** X17: a session started without mode, location and at least one of the
    two file names asks four questions. The file names are the typed ones
    without the white space around them, the defaults for blank answers,
    and an option of the command line wins over the answer typed for it.
    The choice [1] is a backup and [2] a restore; any other choice prints
    "Invalid choice" and exits with status 1 without the last question. A
    blank location shows the help and exits with status 1; otherwise the
    tool runs on the typed location. Nothing but the tool touches the
    host. *)
Theorem X17_main_interactive_session
    (h : host) (args : Cli.namespace) (a b c d : string)
    (rest : list string) (shown : list console_event) (s : state) :
  falsy (Cli.compose_file args) || falsy (Cli.env_file args) = true ->
  falsy (Cli.mode args) = true ->
  falsy (Cli.location args) = true ->
  let compose_file :=
    or_else (Cli.compose_file args) (typed_or a "docker-compose.yml") in
  let env_file := or_else (Cli.env_file args) (typed_or b ".env") in
  let t := {| stdin := a :: b :: c :: d :: rest; console := shown |} in
  main h args t s =
    match chosen_mode c with
    | None =>
        (SystemExit 1,
         {| stdin := d :: rest;
            console := (shown ++ session_start ++ [Said "Invalid choice"])%list |},
         s)
    | Some mode =>
        let asked := (shown ++ session_start
                      ++ [Asked (location_prompt mode)])%list in
        if PyStr.truthy (PyStr.strip d)
        then let out := exit_of (run_tool h compose_file env_file (Some mode)
                                   (PyStr.strip d) s) in
             (fst out, {| stdin := rest; console := asked |}, snd out)
        else (SystemExit 1,
              {| stdin := rest; console := (asked ++ [Helped])%list |}, s)
    end.
Proof.
  intros Hfiles Hmode Hloc compose_file env_file t.
  unfold main, interact. rewrite Hmode, Hloc, orb_true_r. simpl.
  unfold ask_files at 1. rewrite Hfiles.
  unfold prompt_for_files, input, say, show, then_, go. simpl.
  replace (if negb (PyStr.truthy (PyStr.strip a)) then "docker-compose.yml"
           else PyStr.strip a) with (typed_or a "docker-compose.yml")
    by (unfold typed_or; now destruct (PyStr.truthy (PyStr.strip a))).
  replace (if negb (PyStr.truthy (PyStr.strip b)) then ".env"
           else PyStr.strip b) with (typed_or b ".env")
    by (unfold typed_or; now destruct (PyStr.truthy (PyStr.strip b))).
  fold compose_file env_file.
  unfold ask_mode, input, say, show, then_, go, stop. simpl. rewrite Hmode.
  simpl. unfold chosen_mode, session_start.
  assert (PyStr.truthy compose_file = true) as Hcf
    by (apply or_else_truthy, typed_or_truthy; reflexivity).
  assert (PyStr.truthy env_file = true) as Hef
    by (apply or_else_truthy, typed_or_truthy; reflexivity).
  destruct (String.eqb (PyStr.strip c) "1") eqn:E1;
    [|destruct (String.eqb (PyStr.strip c) "2") eqn:E2]; simpl;
    [| |repeat rewrite <- app_assoc; reflexivity];
    unfold ask_location, input, show, then_, go; simpl; rewrite Hloc; simpl;
    (destruct (PyStr.truthy (PyStr.strip d)) eqn:Ed; simpl;
     [|repeat rewrite <- app_assoc; reflexivity]);
    rewrite ?Hcf, ?Hef, ?Ed;
    (match goal with
     | |- context [run_tool ?a ?b ?c ?d ?e ?f] =>
         destruct (run_tool a b c d e f) as [[u|e0] s1]
     end; simpl;
     [|destruct (is_Exception e0)]; simpl;
     repeat rewrite <- app_assoc; reflexivity).
Qed.

(** Two blank answers, a choice that is neither [1] nor [2]. *)
Lemma X17_main_interactive_session_witness :
  main (Demo.machine 0 (Demo.always 200)) no_args
    {| stdin := [""; "  "; "backup"; "/backups"]; console := [] |} Demo.boot
  = (SystemExit 1,
     {| stdin := ["/backups"];
        console := (session_start ++ [Said "Invalid choice"])%list |},
     Demo.boot).
Proof.
  exact (X17_main_interactive_session
           (Demo.machine 0 (Demo.always 200)) no_args "" "  " "backup"
           "/backups" [] [] Demo.boot eq_refl eq_refl eq_refl).
Defined.


(* ================================================================== *)
(** ** A restore that goes through *)
(* ================================================================== *)

Lemma calm_ret {A} (a : A) : calm (ret a) any [].
Proof. intros s. exists a, s, []. now rewrite app_nil_r. Qed.

Lemma calm_print line : calm (print line) any [].
Proof. intros s. eexists tt, _, [_]. repeat split. Qed.

Lemma calm_sleep n : calm (sleep n) any [].
Proof. intros s. eexists tt, _, [_]. repeat split. Qed.

Lemma calm_bind {A B} (m : M A) (f : A -> M B) P Q c1 c2 :
  calm m P c1 -> (forall a, P a -> calm (f a) Q c2) ->
  calm (bind m f) Q (c1 ++ c2)%list.
Proof.
  intros Hm Hf s. destruct (Hm s) as (a & s1 & n1 & E1 & Pa & R1 & T1 & C1).
  destruct (Hf a Pa s1) as (b & s2 & n2 & E2 & Qb & R2 & T2 & C2).
  exists b, s2, (n1 ++ n2)%list. unfold bind. rewrite E1, E2.
  split; [reflexivity|]. split; [exact Qb|]. split; [congruence|].
  split; [now rewrite T2, T1, app_assoc|].
  now rewrite commands_of_app, C1, C2.
Qed.

(** On a cooperative host a command returns; without captured output its
    value is [True]. *)
Lemma calm_run_command h command check capture :
  cooperative h ->
  calm (run_command h command check capture)
    (fun v => capture = false -> v = Flag true) [command].
Proof.
  intros Hco s. unfold run_command, subprocess_run. run_monad.
  destruct (Hco command
              {| root := root s;
                 trace := (trace s ++ [Print ("Executing: " ++ command)])%list;
                 ticks := ticks s; requests := requests s |}) as [Hrc Hroot].
  rewrite Hrc. simpl. rewrite andb_false_r.
  destruct capture; eexists _, _, [_; _]; simpl;
    (split; [reflexivity|]); simpl; rewrite Hroot, <- app_assoc;
    repeat split; discriminate.
Qed.

Lemma calm_for_each {A} (f : A -> M unit) (command : A -> string) l :
  (forall x, calm (f x) any [command x]) ->
  calm (for_each f l) any (map command l).
Proof.
  intros Hf. induction l as [|x l IH].
  - apply calm_ret.
  - change (for_each f (x :: l)) with (f x ;; for_each f l).
    change (map command (x :: l)) with ([command x] ++ map command l)%list.
    eapply calm_bind; [apply Hf|intros _ _; exact IH].
Qed.

Lemma calm_check_container h container :
  cooperative h ->
  calm (check_container h container) any [status_command container].
Proof.
  intros Hco. unfold check_container. fold (status_command container).
  change [status_command container]
    with ([status_command container] ++ [])%list.
  eapply calm_bind; [now apply calm_run_command|intros v _].
  destruct (negb _); apply calm_print.
Qed.

(** The probe leaves the tree alone and runs no command; it returns when
    the network fails only with exceptions of class [Exception]. *)
Lemma calm_http_probe h :
  (forall n e, http_get h n = Failure e -> is_Exception e = true) ->
  calm (http_probe h) any [].
Proof.
  intros Hnet s. pose proof (http_probe_returns h s Hnet) as Hok.
  destruct (only_http_probe h s) as (new & Ht & Hnew).
  assert (root (snd (http_probe h s)) = root s) as Hroot.
  { unfold http_probe, try_except.
    destruct (requests_importable h).
    - destruct (ping_loop_spec h 6 1 s eq_refl) as (ev & Hsnd & _).
      destruct (ping_loop h (seq 1 6) 6 10 s) as [[u|e] s1]; simpl in Hsnd;
        subst s1; [reflexivity|].
      destruct e; reflexivity.
    - reflexivity. }
  destruct (http_probe h s) as [r s1]. simpl in *. subst r.
  exists tt, s1, new. split; [reflexivity|]. split; [exact I|].
  split; [exact Hroot|].
  split; [exact Ht|]. now apply commands_of_none.
Qed.

Lemma calm_test_immich_health h :
  cooperative h ->
  (forall n e, http_get h n = Failure e -> is_Exception e = true) ->
  calm (test_immich_health h) any
    ("docker compose up -d" :: map status_command health_containers).
Proof.
  intros Hco Hnet. unfold test_immich_health. fold health_containers.
  change ("docker compose up -d" :: map status_command health_containers)
    with ([] ++ ["docker compose up -d"] ++ [] ++ []
          ++ map status_command health_containers ++ [])%list.
  eapply calm_bind; [apply calm_print|intros _ _].
  eapply calm_bind; [now apply calm_run_command|intros _ _].
  eapply calm_bind; [apply calm_print|intros _ _].
  eapply calm_bind; [apply calm_sleep|intros _ _].
  eapply calm_bind; [|intros _ _; now apply calm_http_probe].
  apply calm_for_each. intros c. now apply calm_check_container.
Qed.

Lemma calm_bind_lift {A B} (a : A) (f : A -> M B) Q c :
  calm (f a) Q c -> calm (x <- lift (Ok a) ;; f x) Q c.
Proof. intros H s. exact (H s). Qed.

Lemma restore_database_cooperative h self backup_dir m doc s :
  let dump := PosixPath.join backup_dir (m_database_backup m) in
  cooperative h ->
  lookup h (root s) (PosixPath.join backup_dir "backup_manifest.json")
    = Some (ManifestFile m) ->
  exists_in h (root s) dump = true ->
  load_compose h (compose_file self) = ComposeParsed doc ->
  PyDict.wf (services_of doc) ->
  exists s' new,
    restore_database h self backup_dir s = (Ok tt, s')
    /\ root s' = root s
    /\ trace s' = (trace s ++ new)%list
    /\ commands_of new
       = ["docker compose down -v"; "docker compose create";
          "docker start " ++ postgres_container_of doc;
          restore_command dump
            (get_env_var (env_vars self) "DB_USERNAME" "postgres")].
Proof.
  intros dump Hco Hm Hdump Hdoc Hwf.
  set (db_username := get_env_var (env_vars self) "DB_USERNAME" "postgres").
  set (tail :=
         (print "Stopping all Immich services..." ;;
          containers <- lift (get_container_names h self) ;;
          let postgres_container :=
            match PyDict.get "database" containers with
            | Some c => c
            | None => "immich_postgres"
            end in
          run_command h "docker compose down -v" false false ;;
          print "Starting PostgreSQL container..." ;;
          run_command h "docker compose create" true false ;;
          run_command h ("docker start " ++ postgres_container) true false ;;
          print "Waiting for PostgreSQL to start..." ;;
          sleep 10 ;;
          print ("Restoring database from: " ++ dump) ;;
          ok <- run_command h (restore_command dump db_username) true false ;;
          if negb (value_truthy ok)
          then raise (RuntimeError "Database restore failed")
          else print "Database restored successfully") : M unit).
  assert (restore_database h self backup_dir s = tail s) as ->.
  { unfold restore_database, read_manifest.
    unfold bind at 1. unfold bind at 1. unfold get_state at 1.
    cbv beta iota. rewrite Hm. unfold ret at 1.
    cbv beta iota. unfold bind at 1. unfold path_exists at 1. cbv beta iota.
    fold dump. rewrite Hdump. reflexivity. }
  assert (calm tail any
            ([] ++ ["docker compose down -v"] ++ []
             ++ ["docker compose create"]
             ++ [("docker start " ++ postgres_container_of doc)%string]
             ++ [] ++ []
             ++ [] ++ [restore_command dump db_username] ++ [])%list) as Htail.
  { subst tail.
    eapply calm_bind; [apply calm_print|intros _ _].
    rewrite (get_container_names_map h self doc Hdoc Hwf).
    apply calm_bind_lift with (c := (_ ++ _)%list).
    rewrite get_map_items.
    replace (match match PyDict.get "database" (services_of doc) with
                   | Some v => Some (container_of ("database", v))
                   | None => None
                   end with
             | Some c => c
             | None => "immich_postgres"
             end) with (postgres_container_of doc)
      by (unfold postgres_container_of;
          now destruct (PyDict.get "database" (services_of doc))).
    eapply calm_bind; [now apply calm_run_command|intros _ _].
    eapply calm_bind; [apply calm_print|intros _ _].
    eapply calm_bind; [now apply calm_run_command|intros _ _].
    eapply calm_bind; [now apply calm_run_command|intros _ _].
    eapply calm_bind; [apply calm_print|intros _ _].
    eapply calm_bind; [apply calm_sleep|intros _ _].
    eapply calm_bind; [apply calm_print|intros _ _].
    eapply calm_bind; [now apply calm_run_command|intros ok Hok].
    rewrite (Hok eq_refl). apply calm_print. }
  destruct (Htail s) as ([] & s' & new & E & _ & Hroot & Htrace & Hcmds).
  exists s', new. repeat split; assumption.
Qed.

(** The steps of a restore on a cooperative host. *)
Lemma restore_steps_cooperative h self backup_dir m doc es s :
  let source := upload_backup_of backup_dir m in
  let target := current_upload_location_of h self in
  let dump := PosixPath.join backup_dir (m_database_backup m) in
  cooperative h ->
  (forall n e, http_get h n = Failure e -> is_Exception e = true) ->
  lookup h (root s) (PosixPath.join backup_dir "backup_manifest.json")
    = Some (ManifestFile m) ->
  exists_in h (root s) dump = true ->
  lookup h (root s) source = Some (Dir es) ->
  load_compose h (compose_file self) = ComposeParsed doc ->
  PyDict.wf (services_of doc) ->
  tidy (root s) = true ->
  creatable h (root s) target = true ->
  apart (locate h target) (locate h source) = true ->
  exists s' new,
    restore_steps h self backup_dir s = (Ok tt, s')
    /\ trace s' = (trace s ++ new)%list
    /\ commands_of new
       = (["docker compose down -v"; "docker compose create";
           ("docker start " ++ postgres_container_of doc)%string;
           restore_command dump
             (get_env_var (env_vars self) "DB_USERNAME" "postgres");
           "docker compose up -d"]
          ++ map status_command health_containers)%list
    /\ lookup h (root s') target = Some (Dir es)
    /\ forall q, apart (locate h target) q = true ->
                 FS.walk (root s') q = FS.walk (root s) q.
Proof.
  intros source target dump Hco Hnet Hm Hdump Hsrc Hdoc Hwf Htidy Hmk Hapart.
  destruct (restore_database_cooperative h self backup_dir m doc s
              Hco Hm Hdump Hdoc Hwf) as (s1 & n1 & E1 & R1 & T1 & C1).
  rewrite <- R1 in Hm, Hsrc, Htidy, Hmk.
  destruct (restore_filesystem_copies h self backup_dir m es s1
              Hm Hsrc Htidy Hmk Hapart) as (t & E2 & Htarget & Hrest).
  fold source target in E2.
  set (n2 := [Print ("Restoring filesystem: " ++ source ++ " -> " ++ target);
              Print "Filesystem restored successfully"]) in E2.
  destruct (calm_test_immich_health h Hco Hnet (update s1 t n2))
    as ([] & s3 & n3 & E3 & _ & R3 & T3 & C3).
  exists (update s3 (root s3) [Print "Restore completed successfully"]),
    (n1 ++ n2 ++ n3 ++ [Print "Restore completed successfully"])%list.
  split.
  { unfold restore_steps, bind. rewrite E1, E2, E3. reflexivity. }
  split.
  { unfold update at 1. cbn [trace]. rewrite T3. unfold update. cbn [trace].
    rewrite T1. now rewrite <- !app_assoc. }
  split.
  { rewrite !commands_of_app, C1, C3. reflexivity. }
  unfold update at 1 2. cbn [root]. rewrite R3. unfold update. cbn [root].
  split; [exact Htarget|]. intros q Hq. rewrite (Hrest q Hq). now rewrite R1.
Qed.

(** X20: on a host where every command exits with status 0 and leaves
    the directory tree alone, and where the network fails only with
    exceptions of class [Exception], a [restore] from a backup directory
    that holds the manifest, the dump the manifest names and the archived
    upload tree returns normally. It runs nine commands in this order:
    [docker compose down -v], [docker compose create], the start of the
    database container, the restore pipeline, [docker compose up -d] and
    one status query for each of the four containers of the health check.
    Afterwards the upload location holds exactly the archived tree, and
    nothing apart from the upload location has changed: the backup
    directory is as it was. The directory tree is taken to be tidy, the
    upload location apart from the archived tree, and no regular file in
    the way of the upload location. *)
Theorem X20_restore_from_directory_completes
    (h : host) (self : tool) (backup_dir : string) (m : manifest)
    (doc : compose_data) (es : list (string * tree)) (s : state) :
  let source := upload_backup_of backup_dir m in
  let target := current_upload_location_of h self in
  let dump := PosixPath.join backup_dir (m_database_backup m) in
  cooperative h ->
  (forall n e, http_get h n = Failure e -> is_Exception e = true) ->
  isdir_in h (root s) backup_dir = true ->
  lookup h (root s) (PosixPath.join backup_dir "backup_manifest.json")
    = Some (ManifestFile m) ->
  exists_in h (root s) dump = true ->
  lookup h (root s) source = Some (Dir es) ->
  load_compose h (compose_file self) = ComposeParsed doc ->
  PyDict.wf (services_of doc) ->
  tidy (root s) = true ->
  creatable h (root s) target = true ->
  apart (locate h target) (locate h source) = true ->
  exists s' new,
    restore h self backup_dir s = (Ok tt, s')
    /\ trace s' = (trace s ++ new)%list
    /\ commands_of new
       = (["docker compose down -v"; "docker compose create";
           ("docker start " ++ postgres_container_of doc)%string;
           restore_command dump
             (get_env_var (env_vars self) "DB_USERNAME" "postgres");
           "docker compose up -d"]
          ++ map status_command health_containers)%list
    /\ lookup h (root s') target = Some (Dir es)
    /\ forall q, apart (locate h target) q = true ->
                 FS.walk (root s') q = FS.walk (root s) q.
Proof.
  intros source target dump Hco Hnet Hdir Hm Hdump Hsrc Hdoc Hwf Htidy Hmk
    Hapart.
  assert (isfile_in h (root s) backup_dir = false) as Hfile.
  { unfold isfile_in, isdir_in in *.
    destruct (lookup h (root s) backup_dir); [|reflexivity].
    now rewrite Hdir. }
  assert (exists_in h (root s)
            (PosixPath.join backup_dir "backup_manifest.json") = true) as Hex
    by (unfold exists_in; now rewrite Hm).
  set (s0 := update s (root s)
               [Print ("Starting Immich restore from directory: "
                       ++ backup_dir)]).
  destruct (restore_steps_cooperative h self backup_dir m doc es s0
              Hco Hnet Hm Hdump Hsrc Hdoc Hwf Htidy Hmk Hapart)
    as (s' & new & E & T & C & Htarget & Hrest).
  exists s',
    (Print ("Starting Immich restore from directory: " ++ backup_dir) :: new).
  split.
  { unfold restore. run. rewrite Hfile, Hdir. simpl. rewrite Hex. simpl.
    unfold try_finally, try_except, restore_cleanup.
    change (restore_steps h self backup_dir _)
      with (restore_steps h self backup_dir s0).
    rewrite E. reflexivity. }
  split; [rewrite T; subst s0; unfold update; cbn [trace];
          now rewrite <- app_assoc|].
  split; [exact C|]. split; [exact Htarget|exact Hrest].
Qed.

Lemma X20_restore_from_directory_completes_witness :
  let h := Cases.unhealthy in
  exists s' new,
    restore h Demo.self "/backups/old" Cases.full_boot = (Ok tt, s')
    /\ trace s' = (trace Cases.full_boot ++ new)%list
    /\ commands_of new
       = ["docker compose down -v"; "docker compose create";
          "docker start immich_postgres";
          restore_command
            "/backups/old/immich_db_backup_20231231_080000.sql.gz" "postgres";
          "docker compose up -d";
          status_command "immich_server"; status_command "immich_postgres";
          status_command "immich_redis";
          status_command "immich_machine_learning"]
    /\ lookup h (root s') "/data/lib" = Some Cases.archived_upload
    /\ forall q, apart ["data"; "lib"] q = true ->
                 FS.walk (root s') q = FS.walk Cases.full_disk q.
Proof.
  apply (X20_restore_from_directory_completes
           Cases.unhealthy Demo.self "/backups/old" Demo.bare_manifest
           Demo.topology
           [("library", Dir [("b.jpg", Blob "older jpeg")]); ("profile", Dir [])]
           Cases.full_boot).
  - intros command s; split; reflexivity.
  - intros n e H; injection H as <-; reflexivity.
  - vm_compute; reflexivity.
  - vm_compute; reflexivity.
  - vm_compute; reflexivity.
  - vm_compute; reflexivity.
  - vm_compute; reflexivity.
  - unfold PyDict.wf. simpl. repeat constructor; simpl; intuition discriminate.
  - vm_compute; reflexivity.
  - vm_compute; reflexivity.
  - vm_compute; reflexivity.
Defined.
(* ================================================================== *)
(** ** Backup: the stop is issued *)
(* ================================================================== *)








